(** * Article collection and cleaning: a shallow embedding

    The development embeds the three programs of the repository:

    - [2 web scrapper/main.py]: link resolution ([_build_link]), fetching
      one article ([_fetch_article]), the collection loop ([_news_scraper])
      and the CSV writer ([_save_articles]);
    - [3 Transformacion/newspaper_receipe.py]: the cleaning pipeline [main]
      with its stages, over a model of the pandas frames it manipulates;
    - [4 Visualizacion/main.py]: the loader [main] of a cleaned file, over
      the operations of the database it calls.

    Text is Latin-1 throughout (the cleaning script reads its input with
    [encoding='ISO-8859-1'], so every character is one byte): a Python [str]
    is a [string], whose characters are the 256 values of [ascii]. *)

From Stdlib Require Import ZArith Ascii String List Lia Bool.
From stdpp Require Import base option list gmap strings.

Local Open Scope Z_scope.
Local Open Scope nat_scope.

(** ** Python values the two scripts rely on *)

(** The exception classes that occur: the builtins raised by the modelled
    operations ([OSError] for a file that cannot be opened for writing), and
    the transport's classes ([requests.exceptions] and [urllib3.exceptions]);
    [_fetch_article] names two of the latter in its [except] clause. *)
Inductive exn :=
| KeyError | TypeError | AttributeError | ValueError | IndexError
| FileNotFoundError | OSError
| HTTPError | MaxRetryError | ConnectionError | Timeout.

#[global] Instance exn_eq_dec : EqDecision exn.
Proof. solve_decision. Defined.

(** A computation that returns or raises. *)
Inductive result (A : Type) :=
| Ok (a : A)
| Raise (e : exn).
Arguments Ok {A} a.
Arguments Raise {A} e.

#[global] Instance result_ret : MRet result := @Ok.
#[global] Instance result_bind : MBind result :=
  fun A B f m => match m with Ok a => f a | Raise e => Raise e end.
#[global] Instance result_fmap : FMap result :=
  fun A B f m => match m with Ok a => Ok (f a) | Raise e => Raise e end.

(** A Python loop that applies [f] to each element in turn and stops at the
    first exception. *)
Fixpoint for_each {A B} (f : A -> result B) (l : list A) : result (list B) :=
  match l with
  | [] => Ok []
  | x :: l' => y ← f x; ys ← for_each f l'; Ok (y :: ys)
  end.

Definition LF : ascii := "010"%char.
Definition CR : ascii := "013"%char.
Definition SP : ascii := " "%char.

(** [all(p(c) for c in s)] *)
Fixpoint str_forall (p : ascii -> bool) (s : string) : bool :=
  match s with
  | "" => true
  | String a s' => p a && str_forall p s'
  end.

(** [c in s] for a character [c] *)
Fixpoint str_mem (c : ascii) (s : string) : bool :=
  match s with
  | "" => false
  | String a s' => Ascii.eqb a c || str_mem c s'
  end.

(** [s[:n]] *)
Fixpoint str_take (n : nat) (s : string) : string :=
  match n, s with
  | S n', String a s' => String a (str_take n' s')
  | _, _ => ""
  end.

(** [s[len(p):]] when [s.startswith(p)] *)
Fixpoint strip_prefix (p s : string) : option string :=
  match p, s with
  | "", _ => Some s
  | String a p', String b s' => if Ascii.eqb a b then strip_prefix p' s' else None
  | String _ _, "" => None
  end.

(** [str.map]: the string of [f c] for each character [c] of [s] *)
Fixpoint str_map (f : ascii -> ascii) (s : string) : string :=
  match s with
  | "" => ""
  | String a s' => String (f a) (str_map f s')
  end.

(** ** Regular expressions ([re]), as far as the two scripts use them

    The patterns of the sources use literals, [.], a negated one-character
    class, [?], [+] over a character class, [^], [$] and one named group.
    The matcher is a backtracking one: [run r st] lists, in the order
    Python's engine tries them, the states in which [r] can end when started
    in [st]. *)

Inductive cset :=
| CChar (c : ascii)   (* a literal character *)
| CDot                (* [.]: any character but a line feed *)
| CNot (c : ascii).   (* [[^c]] *)

Definition cset_mem (k : cset) (a : ascii) : bool :=
  match k with
  | CChar c => Ascii.eqb a c
  | CDot => negb (Ascii.eqb a LF)
  | CNot c => negb (Ascii.eqb a c)
  end.

Inductive regex :=
| REps
| RBol                              (* [^] *)
| REol                              (* [$] *)
| RChar (k : cset)
| RPlus (k : cset)                  (* [k+], greedy *)
| ROpt (r : regex)                  (* [r?], greedy *)
| RSeq (r1 r2 : regex)
| RGroup (name : string) (r : regex). (* [(?P<name>r)] *)

(** A matcher state: the offset reached, the text still ahead, and the
    groups captured so far. *)
Record mstate := MState {
  pos : nat;
  rest : string;
  groups : list (string * string)
}.

(** [$] holds at the end of the text and just before a final line feed. *)
Definition at_eol (s : string) : bool :=
  match s with
  | "" => true
  | String a "" => Ascii.eqb a LF
  | _ => false
  end.

(** The ends of [k+] from offset [p] with [s] ahead, longest first. *)
Fixpoint plus_run (k : cset) (g : list (string * string)) (p : nat) (s : string)
  : list mstate :=
  match s with
  | String a t =>
      if cset_mem k a then plus_run k g (S p) t ++ [MState (S p) t g] else []
  | "" => []
  end.

Fixpoint run (r : regex) (st : mstate) : list mstate :=
  match r with
  | REps => [st]
  | RBol => if decide (pos st = 0) then [st] else []
  | REol => if at_eol (rest st) then [st] else []
  | RChar k =>
      match rest st with
      | String a t =>
          if cset_mem k a then [MState (S (pos st)) t (groups st)] else []
      | "" => []
      end
  | RPlus k => plus_run k (groups st) (pos st) (rest st)
  | ROpt r' => run r' st ++ [st]
  | RSeq r1 r2 => flat_map (run r2) (run r1 st)
  | RGroup n r' =>
      map (fun st' =>
             MState (pos st') (rest st')
                    ((n, str_take (pos st' - pos st) (rest st)) :: groups st'))
          (run r' st)
  end.

(** A literal run of characters. *)
Fixpoint lit (s : string) : regex :=
  match s with
  | "" => REps
  | String a s' => RSeq (RChar (CChar a)) (lit s')
  end.

Definition rseq (rs : list regex) : regex := foldr RSeq REps rs.

(** [pattern.match(s)]: the first way to match at offset 0, if any. *)
Definition re_match (r : regex) (s : string) : option mstate :=
  head (run r (MState 0 s [])).

(** [pattern.search(s)]: the first way to match at the leftmost offset that
    has one. *)
Fixpoint search_from (r : regex) (p : nat) (s : string) : option mstate :=
  match head (run r (MState p s [])) with
  | Some m => Some m
  | None =>
      match s with
      | String _ t => search_from r (S p) t
      | "" => None
      end
  end.

Definition re_search (r : regex) (s : string) : option mstate :=
  search_from r 0 s.

(** [m.group(name)] *)
Definition group (name : string) (m : mstate) : option string :=
  snd <$> List.find (fun g => String.eqb (fst g) name) (groups m).

(** ** [2 web scrapper/main.py]: link resolution *)

(** [re.compile(r'^https?://.+/.+$')] *)
Definition is_well_formed_link : regex :=
  rseq [RBol; lit "http"; ROpt (lit "s"); lit "://"; RPlus CDot; lit "/";
        RPlus CDot; REol].

(** [re.compile(r'^/.+$')] *)
Definition is_root_path : regex :=
  rseq [RBol; lit "/"; RPlus CDot; REol].

Definition _build_link (host link : string) : string :=
  match re_match is_well_formed_link link with
  | Some _ => link
  | None =>
      match re_match is_root_path link with
      | Some _ => host +:+ link
      | None => host +:+ "/" +:+ link
      end
  end.

(** A text without line feed: what [.+] can match. *)
Definition no_lf (s : string) : bool := str_forall (cset_mem CDot) s.

(** The three kinds of link [_build_link] tells apart, read off the two
    patterns.  [absolute_url]: [http] or [https], [://], a non-empty
    authority part, [/] and a non-empty path, none holding a line feed
    (a final line feed may follow). *)
Definition absolute_url (link : string) : Prop :=
  exists s a b t,
    (s = "" \/ s = "s") /\
    link = "http" +:+ s +:+ "://" +:+ a +:+ "/" +:+ b +:+ t /\
    a <> "" /\ b <> "" /\ no_lf a = true /\ no_lf b = true /\ at_eol t = true.

(** [root_relative]: [/] followed by at least one character, none of them a
    line feed (a final line feed may follow). *)
Definition root_relative (link : string) : Prop :=
  exists a t,
    link = "/" +:+ a +:+ t /\ a <> "" /\ no_lf a = true /\ at_eol t = true.

(** Ranges of character codes. *)
Definition between (lo hi : nat) (a : ascii) : bool :=
  (lo <=? nat_of_ascii a) && (nat_of_ascii a <=? hi).

Definition ascii_letter (a : ascii) : bool :=
  between 65 90 a || between 97 122 a.

Definition ascii_digit (a : ascii) : bool := between 48 57 a.

Definition scheme_char (a : ascii) : bool :=
  ascii_letter a || ascii_digit a ||
  Ascii.eqb a "+" || Ascii.eqb a "-" || Ascii.eqb a ".".

Definition is_scheme (s : string) : bool :=
  match s with
  | String a _ => ascii_letter a && str_forall scheme_char s
  | "" => false
  end.

(** Links that are URLs but that [is_well_formed_link] does not accept: a
    URL of another scheme (a scheme is a letter followed by letters, digits,
    [+], [-] and [.], and ends at the first colon), and an [http] or [https]
    URL in which no [/] follows the [://] other than a last one: then
    there is no [/] with a character after it for the pattern to match. *)
Definition foreign_scheme_url (link : string) : Prop :=
  exists sch tail,
    link = sch +:+ ":" +:+ tail /\ is_scheme sch = true /\
    sch <> "http" /\ sch <> "https".

Definition http_url_without_slash (link : string) : Prop :=
  exists s text t,
    (s = "" \/ s = "s") /\ link = "http" +:+ s +:+ "://" +:+ text +:+ t /\
    str_mem "/" text = false /\ (t = "" \/ t = "/").

(** An [http] or [https] URL without path, as the syntax of URLs has it:
    the authority, which ends before the first of [/], [?] and [#], is
    followed by nothing, or by a query or a fragment. *)
Definition http_url_with_empty_path (link : string) : Prop :=
  exists s auth rest,
    (s = "" \/ s = "s") /\ link = "http" +:+ s +:+ "://" +:+ auth +:+ rest /\
    str_mem "/" auth = false /\ str_mem "?" auth = false /\
    str_mem "#" auth = false /\
    (rest = "" \/ exists r, rest = "?" +:+ r \/ rest = "#" +:+ r).

(** No [/] after the [://] of an [http] or [https] URL. *)
Definition no_slash_after_scheme (link : string) : Prop :=
  exists s text,
    (s = "" \/ s = "s") /\ link = "http" +:+ s +:+ "://" +:+ text /\
    str_mem "/" text = false.

(** A root-relative link whose only character after the [/] is a line feed. *)
Definition line_feed_link : string := String "/" (String LF "").

(** ** [2 web scrapper/main.py]: fetching and saving

    The page objects ([news_page_objects]) and the site configuration
    ([common.config]) are other modules: the scraper is embedded over what it
    uses of them.  A page object is the list of its attributes with their
    values, in the order of [dir]; building one performs the request and may
    raise. *)

Inductive pyval :=
| PNone
| PStr (s : string).

(** [bool(v)] *)
Definition truthy (v : pyval) : bool :=
  match v with
  | PNone => false
  | PStr s => negb (String.eqb s "")
  end.

(** [str(v)] *)
Definition str (v : pyval) : string :=
  match v with
  | PNone => "None"
  | PStr s => s
  end.

Record page := Page { attributes : list (string * pyval) }.

Definition dir (a : page) : list string := map fst (attributes a).

Definition getattr (a : page) (name : string) : result pyval :=
  match List.find (fun kv => String.eqb (fst kv) name) (attributes a) with
  | Some kv => Ok (snd kv)
  | None => Raise AttributeError
  end.

(** [s.startswith(p)] *)
Definition startswith (p s : string) : bool :=
  match strip_prefix p s with Some _ => true | None => false end.

(** The files written, by name: each the rows given to [writer.writerow]. *)
Abbreviation files := (gmap string (list (list string))).

Section Scraper.

(** [config()['news_sites'][news_site_uid]['url']] *)
Variable site_url : string -> result string.
(** [news.HomePage(news_site_uid, host).article_links] *)
Variable article_links : string -> string -> result (list string).
(** [news.ArticlePage(news_site_uid, url)] *)
Variable ArticlePage : string -> string -> result page.
(** [datetime.datetime.now().strftime('%Y_%m_%d')] *)
Variable now : string.

(** The classes of [except (HTTPError, MaxRetryError)]. *)
Definition caught (e : exn) : bool :=
  bool_decide (e = HTTPError) || bool_decide (e = MaxRetryError).

Definition _fetch_article (news_site_uid host link : string)
  : result (option page) :=
  article ← match ArticlePage news_site_uid (_build_link host link) with
            | Ok a => Ok (Some a)
            | Raise e => if caught e then Ok None else Raise e
            end;
  match article with
  | Some a =>
      body ← getattr a "body";
      if negb (truthy body) then Ok None else Ok (Some a)
  | None => Ok None
  end.

(** The loop of [_news_scraper]: the articles fetched from [links], in
    order. *)
Fixpoint fetch_all (news_site_uid host : string) (links : list string)
  : result (list page) :=
  match links with
  | [] => Ok []
  | link :: links' =>
      article ← _fetch_article news_site_uid host link;
      articles ← fetch_all news_site_uid host links';
      Ok (match article with
          | Some a => a :: articles
          | None => articles
          end)
  end.

(** [writer.writerow(row)] on the file [name]. *)
Definition writerow (name : string) (row : list string) (fs : files) : files :=
  <[name := default [] (fs !! name) ++ [row]]> fs.

(** The rows of the articles, written one by one; an exception leaves the
    rows already written. *)
Fixpoint write_articles (name : string) (csv_headers : list string)
    (articles : list page) (fs : files) : result unit * files :=
  match articles with
  | [] => (Ok (), fs)
  | article :: articles' =>
      match for_each (fun prop => str <$> getattr article prop) csv_headers with
      | Ok row => write_articles name csv_headers articles' (writerow name row fs)
      | Raise e => (Raise e, fs)
      end
  end.

Definition _save_articles (news_site_uid : string) (articles : list page)
    (fs : files) : result unit * files :=
  let out_file_name := news_site_uid +:+ "_" +:+ now +:+ "_articles.csv" in
  match articles with
  | [] => (Raise IndexError, fs)              (* [articles[0]] *)
  | first :: _ =>
      let csv_headers :=
        List.filter (fun property => negb (startswith "_" property))
                    (dir first) in
      let fs := <[out_file_name := []]> fs in (* [open(..., mode='w+')] *)
      let fs := writerow out_file_name csv_headers fs in
      write_articles out_file_name csv_headers articles fs
  end.

Definition _news_scraper (news_site_uid : string) (fs : files)
  : result unit * files :=
  match site_url news_site_uid with
  | Raise e => (Raise e, fs)
  | Ok host =>
      match article_links news_site_uid host with
      | Raise e => (Raise e, fs)
      | Ok links =>
          match fetch_all news_site_uid host links with
          | Raise e => (Raise e, fs)
          | Ok articles => _save_articles news_site_uid articles fs
          end
      end
  end.

End Scraper.

(** A site whose homepage lists two links: the first answers with an HTTP
    error status, the second is a page without body text. *)
Definition barren_site_page (news_site_uid url : string) : result page :=
  if String.eqb url "https://x.com/a" then Raise HTTPError
  else Ok (Page [("body", PStr ""); ("title", PStr "T"); ("url", PStr url)]).

Definition barren_site_links (news_site_uid host : string)
  : result (list string) :=
  Ok ["/a"; "/b"].

(** ** [hashlib.md5]

    MD5 (RFC 1321) over bytes, with 32-bit words as [Z] reduced modulo
    [2^32]; [hexdigest] prints the sixteen bytes of the state in lower-case
    hexadecimal. *)

Definition w32 (x : Z) : Z := (x mod 2 ^ 32)%Z.

Definition not32 (x : Z) : Z := Z.lxor x 0xffffffff.

Definition rotl32 (x c : Z) : Z :=
  w32 (Z.lor (Z.shiftl x c) (Z.shiftr x (32 - c))).

Definition md5_K : list Z :=
  [0xd76aa478; 0xe8c7b756; 0x242070db; 0xc1bdceee;
   0xf57c0faf; 0x4787c62a; 0xa8304613; 0xfd469501;
   0x698098d8; 0x8b44f7af; 0xffff5bb1; 0x895cd7be;
   0x6b901122; 0xfd987193; 0xa679438e; 0x49b40821;
   0xf61e2562; 0xc040b340; 0x265e5a51; 0xe9b6c7aa;
   0xd62f105d; 0x02441453; 0xd8a1e681; 0xe7d3fbc8;
   0x21e1cde6; 0xc33707d6; 0xf4d50d87; 0x455a14ed;
   0xa9e3e905; 0xfcefa3f8; 0x676f02d9; 0x8d2a4c8a;
   0xfffa3942; 0x8771f681; 0x6d9d6122; 0xfde5380c;
   0xa4beea44; 0x4bdecfa9; 0xf6bb4b60; 0xbebfbc70;
   0x289b7ec6; 0xeaa127fa; 0xd4ef3085; 0x04881d05;
   0xd9d4d039; 0xe6db99e5; 0x1fa27cf8; 0xc4ac5665;
   0xf4292244; 0x432aff97; 0xab9423a7; 0xfc93a039;
   0x655b59c3; 0x8f0ccc92; 0xffeff47d; 0x85845dd1;
   0x6fa87e4f; 0xfe2ce6e0; 0xa3014314; 0x4e0811a1;
   0xf7537e82; 0xbd3af235; 0x2ad7d2bb; 0xeb86d391]%Z.

Definition md5_S : list Z :=
  [7; 12; 17; 22; 7; 12; 17; 22; 7; 12; 17; 22; 7; 12; 17; 22;
   5; 9; 14; 20; 5; 9; 14; 20; 5; 9; 14; 20; 5; 9; 14; 20;
   4; 11; 16; 23; 4; 11; 16; 23; 4; 11; 16; 23; 4; 11; 16; 23;
   6; 10; 15; 21; 6; 10; 15; 21; 6; 10; 15; 21; 6; 10; 15; 21]%Z.

(** The [k] low bytes of [x], least significant first. *)
Fixpoint le_bytes (k : nat) (x : Z) : list Z :=
  match k with
  | O => []
  | S k' => (x mod 256)%Z :: le_bytes k' (x / 256)%Z
  end.

(** The words of a byte sequence, four bytes each, least significant
    first. *)
Fixpoint le_words (n : nat) (bs : list Z) : list Z :=
  match n with
  | O => []
  | S n' =>
      match bs with
      | b0 :: b1 :: b2 :: b3 :: bs' =>
          (b0 + 256 * (b1 + 256 * (b2 + 256 * b3)))%Z :: le_words n' bs'
      | _ => []
      end
  end.

Definition md5_pad (msg : list Z) : list Z :=
  let n := Z.of_nat (length msg) in
  msg ++ [0x80%Z] ++ repeat 0%Z (Z.to_nat ((55 - n) mod 64)) ++
  le_bytes 8 (8 * n)%Z.

Definition md5_step (M : list Z) (st : Z * Z * Z * Z) (i : nat)
  : Z * Z * Z * Z :=
  let '(a, b, c, d) := st in
  let '(f, g) :=
    if i <? 16 then (Z.lor (Z.land b c) (Z.land (not32 b) d), i)
    else if i <? 32 then
      (Z.lor (Z.land d b) (Z.land (not32 d) c), (5 * i + 1) mod 16)
    else if i <? 48 then (Z.lxor (Z.lxor b c) d, (3 * i + 5) mod 16)
    else (Z.lxor c (Z.lor b (not32 d)), (7 * i) mod 16) in
  let f' := w32 (f + a + nth i md5_K 0 + nth g M 0)%Z in
  (d, w32 (b + rotl32 f' (nth i md5_S 0%Z))%Z, b, c).

Definition md5_block (st : Z * Z * Z * Z) (M : list Z) : Z * Z * Z * Z :=
  let '(a0, b0, c0, d0) := st in
  let '(a, b, c, d) := fold_left (md5_step M) (seq 0 64) st in
  (w32 (a0 + a), w32 (b0 + b), w32 (c0 + c), w32 (d0 + d))%Z.

(** The state after [n] blocks of 64 bytes. *)
Fixpoint md5_blocks (n : nat) (bs : list Z) (st : Z * Z * Z * Z)
  : Z * Z * Z * Z :=
  match n with
  | O => st
  | S n' => md5_blocks n' (drop 64 bs) (md5_block st (le_words 16 bs))
  end.

Definition md5 (msg : list Z) : list Z :=
  let padded := md5_pad msg in
  let '(a, b, c, d) :=
    md5_blocks (length padded / 64) padded
      (0x67452301, 0xefcdab89, 0x98badcfe, 0x10325476)%Z in
  le_bytes 4 a ++ le_bytes 4 b ++ le_bytes 4 c ++ le_bytes 4 d.

Definition hex_digit (x : Z) : ascii :=
  nth (Z.to_nat x) (list_ascii_of_string "0123456789abcdef") "0"%char.

Fixpoint hex (bs : list Z) : string :=
  match bs with
  | [] => ""
  | b :: bs' => String (hex_digit (b / 16)) (String (hex_digit (b mod 16)) (hex bs'))
  end.

(** [s.encode('ISO-8859-1')]: one byte per character. *)
Definition encode (s : string) : list Z :=
  map (fun a => Z.of_nat (nat_of_ascii a)) (list_ascii_of_string s).

(** [hashlib.md5(bytes(url.encode('ISO-8859-1'))).hexdigest()] *)
Definition md5_hexdigest (url : string) : string := hex (md5 (encode url)).

(** ** [str] methods and [urllib.parse] *)

(** [s.lstrip(chars)] and removal of characters *)
Fixpoint lstrip (p : ascii -> bool) (s : string) : string :=
  match s with
  | String a s' => if p a then lstrip p s' else s
  | "" => ""
  end.

Fixpoint str_filter (p : ascii -> bool) (s : string) : string :=
  match s with
  | String a s' => if p a then String a (str_filter p s') else str_filter p s'
  | "" => ""
  end.

(** [(s[:i], s[i+1:])] for [i = s.find(c)], when [c] occurs in [s] *)
Fixpoint str_cut (c : ascii) (s : string) : option (string * string) :=
  match s with
  | String a s' =>
      if Ascii.eqb a c then Some ("", s')
      else match str_cut c s' with
           | Some (before, after) => Some (String a before, after)
           | None => None
           end
  | "" => None
  end.

(** The text before the first character that satisfies [p]. *)
Fixpoint take_until (p : ascii -> bool) (s : string) : string :=
  match s with
  | String a s' => if p a then "" else String a (take_until p s')
  | "" => ""
  end.

(** [s.split(sep)] for a one-character separator, and [sep.join(words)] *)
Fixpoint split (sep : ascii) (s : string) : list string :=
  match s with
  | "" => [""]
  | String a s' =>
      if Ascii.eqb a sep then "" :: split sep s'
      else match split sep s' with
           | w :: ws => String a w :: ws
           | [] => [String a ""]
           end
  end.

Fixpoint join (sep : string) (words : list string) : string :=
  match words with
  | [] => ""
  | [w] => w
  | w :: ws => w +:+ sep +:+ join sep ws
  end.

(** [c.isalpha()] and [c.lower()] on Latin-1: the letters are A-Z, a-z,
    U+00AA, U+00B5, U+00BA and U+00C0-U+00FF without the two operators
    U+00D7 and U+00F7; the capitals U+00C0-U+00DE have their small letter
    32 places up. *)
Definition latin1_alpha (a : ascii) : bool :=
  ascii_letter a ||
  bool_decide (nat_of_ascii a ∈ [170; 181; 186]) ||
  (between 192 255 a && negb (bool_decide (nat_of_ascii a ∈ [215; 247]))).

Definition latin1_lower (a : ascii) : ascii :=
  if between 65 90 a ||
     (between 192 222 a && negb (bool_decide (nat_of_ascii a = 215)))
  then ascii_of_nat (nat_of_ascii a + 32)
  else a.

Definition isalpha (s : string) : bool :=
  negb (String.eqb s "") && str_forall latin1_alpha s.

Definition lower (s : string) : string := str_map latin1_lower s.

Section Urllib.

(** Whether [_check_bracketed_netloc] accepts a netloc with both brackets
    (it validates the bracketed host with [ipaddress]). *)
Variable check_bracketed_netloc : string -> bool.

(** [urlparse(url).netloc] on a [str]: the text is stripped of leading
    control characters and spaces and of tabs and line breaks, a scheme and
    its colon are taken off, and the netloc is what follows [//] up to the
    first of [/], [?] and [#].  On Latin-1 text [_checknetloc] never raises
    (no character normalises to one of the delimiters). *)
Definition urlparse_netloc (url : string) : result string :=
  let url := lstrip (fun a => nat_of_ascii a <=? 32) url in
  let url :=
    str_filter (fun a => negb (bool_decide (nat_of_ascii a ∈ [9; 13; 10]))) url in
  let url :=
    match str_cut ":" url with
    | Some (scheme, tail) => if is_scheme scheme then tail else url
    | None => url
    end in
  match strip_prefix "//" url with
  | Some tail =>
      let netloc :=
        take_until (fun a => Ascii.eqb a "/" || Ascii.eqb a "?" || Ascii.eqb a "#")
                   tail in
      let opening := str_mem "[" netloc in
      let closing := str_mem "]" netloc in
      if xorb opening closing then Raise ValueError
      else if opening && closing && negb (check_bracketed_netloc netloc)
           then Raise ValueError
           else Ok netloc
  | None => Ok ""
  end.

End Urllib.

(** ** Frames ([pandas])

    A cell is a missing value, a text or an integer.  A frame is the list of
    its rows in order, each with its index label and its cells by column
    name; a series is a list of labelled values.  Row-wise operations
    ([apply] with [axis=1], [Series.apply]) are maps over the rows.  On a
    frame without rows [DataFrame.apply] does not call the function on a
    row: it returns a frame, not a series, and the code that goes on as if
    it had a series ends in [ValueError]: in [_generate_uids_for_rows] at
    the assignment of the frame to the one column [uid], in
    [_token_size_column] at the next [apply], which makes a series of no
    value for an index of all the columns. *)

Inductive cell :=
| NaN
| Str (s : string)
| Int (n : Z).

#[global] Instance cell_eq_dec : EqDecision cell.
Proof. solve_decision. Defined.

Definition isna (c : cell) : bool :=
  match c with NaN => true | _ => false end.

Abbreviation frame := (list (cell * gmap string cell)).
Abbreviation series := (list (cell * cell)).
(** The tables on disk, by file name. *)
Abbreviation csv_files := (gmap string (list (gmap string cell))).

(** [row[column]] and [df[column]] *)
Definition getitem (r : gmap string cell) (column : string) : result cell :=
  match r !! column with
  | Some c => Ok c
  | None => Raise KeyError
  end.

(** A row without missing value. *)
Definition complete (r : gmap string cell) : Prop :=
  map_Forall (fun _ c => c <> NaN) r.

(** [df.dropna()] *)
Definition dropna (df : frame) : frame :=
  filter (fun ir => complete ir.2) df.

(** [s[label]] for the first entry with that label *)
Definition at_label (i : cell) (s : series) : option cell :=
  snd <$> List.find (fun iv => bool_decide (iv.1 = i)) s.

(** [df[column] = s] for a series [s]: the values are taken as they come
    when the two indexes are equal, and aligned by label otherwise, which
    [reindex] refuses when the labels of [s] repeat; a label without value
    gets a missing value. *)
Definition setitem (column : string) (s : series) (df : frame) : result frame :=
  if bool_decide (s.*1 = df.*1) then
    Ok (zip_with (fun ir iv => (ir.1, <[column := iv.2]> ir.2)) df s)
  else if bool_decide (NoDup s.*1) then
    Ok ((fun ir => (ir.1, <[column := default NaN (at_label ir.1 s)]> ir.2))
          <$> df)
  else Raise ValueError.

(** The rows whose key was not seen before, in order. *)
Fixpoint keep_first {A} (seen : list cell) (l : list (cell * A)) : list A :=
  match l with
  | [] => []
  | (k, x) :: l' =>
      if bool_decide (k ∈ seen) then keep_first seen l'
      else x :: keep_first (k :: seen) l'
  end.

(** [df.drop_duplicates(subset=column, keep='first')] *)
Definition drop_duplicates (column : string) (df : frame) : result frame :=
  keys ← for_each (fun ir => getitem ir.2 column) df;
  Ok (keep_first [] (zip keys df)).

(** ** [3 Transformacion/newspaper_receipe.py]: the cleaning pipeline *)

(** [list(body)]: the characters, each a text of length one *)
Fixpoint letters_of (body : string) : list string :=
  match body with
  | "" => []
  | String a s' => String a "" :: letters_of s'
  end.

(** [letter.replace(old, new)] for one-character [old] and [new] *)
Definition replace (old new : ascii) (letter : string) : string :=
  str_map (fun a => if Ascii.eqb a old then new else a) letter.

(** The body of one row after the four lambdas of
    [_remove_new_lines_from_body]. *)
Definition stripped_body (body : string) : string :=
  let letters := letters_of body in
  let letters := map (replace LF SP) letters in
  let letters := map (replace CR SP) letters in
  join "" letters.

(** What [stripped_body] does to one character: a space for a line feed and
    for a carriage return. *)
Definition unbreak (a : ascii) : ascii :=
  if Ascii.eqb a LF || Ascii.eqb a CR then SP else a.

(** [r'(?P<missing_titles>[^/]+)$'] *)
Definition missing_titles_pattern : regex :=
  rseq [RGroup "missing_titles" (RPlus (CNot "/")); REol].

(** One cell of [.str.extract(pattern)]: the group of the first match, a
    missing value when there is none or the cell is no text. *)
Definition str_extract (pattern : regex) (name : string) (c : cell) : cell :=
  match c with
  | Str s =>
      match re_search pattern s with
      | Some m => match group name m with Some g => Str g | None => NaN end
      | None => NaN
      end
  | _ => NaN
  end.

(** The two [applymap] of [_add_missing_titles] on one extracted cell:
    [title.split('-')], then [' '.join(title_word_list)]. *)
Definition title_of_segment (c : cell) : result cell :=
  match c with
  | Str title => Ok (Str (join " " (split "-" title)))
  | _ => Raise AttributeError
  end.

Section Cleaning.

(** [nltk.word_tokenize] and the set [stopwords.words('spanish')] *)
Variable word_tokenize : string -> list string.
Variable stop_words : list string.
Variable check_bracketed_netloc : string -> bool.
(** Whether the file system lets the file of a name be opened for writing:
    it does not when the name has a directory part and there is no such
    directory. *)
Variable writable : string -> bool.

(** [pd.read_csv(filename, encoding='ISO-8859-1')]: the rows of the file
    under the labels 0, 1, ... *)
Definition _read_data (fs : csv_files) (filename : string) : result frame :=
  match fs !! filename with
  | Some rows => Ok (imap (fun i r => (Int (Z.of_nat i), r)) rows)
  | None => Raise FileNotFoundError
  end.

Definition _extract_newspaper_uid (filename : string) : string :=
  hd "" (split "_" filename).

Definition _add_newspaper_uid_column (df : frame) (newspaper_uid : string)
  : frame :=
  (fun ir => (ir.1, <["newspaper_uid" := Str newspaper_uid]> ir.2)) <$> df.

(** [urlparse] has no netloc for a url that is no text: it raises
    [AttributeError].  The number 0 alone it takes for an empty url; the row
    then ends [_generate_uids_for_rows], and with it [main], with the same
    exception, which is raised here for every number. *)
Definition _extract_host (df : frame) : result frame :=
  for_each (fun ir =>
    url ← getitem ir.2 "url";
    host ← match url with
           | Str u => urlparse_netloc check_bracketed_netloc u
           | _ => Raise AttributeError
           end;
    Ok (ir.1, <["host" := Str host]> ir.2)) df.

(** The labels are those of [_read_data], all different, so that the
    assignment through [df.loc], which aligns on labels, is row by row. *)
Definition _add_missing_titles (df : frame) : result frame :=
  for_each (fun ir =>
    title ← getitem ir.2 "title";
    url ← getitem ir.2 "url";
    if isna title then
      missing_title ←
        title_of_segment (str_extract missing_titles_pattern "missing_titles" url);
      Ok (ir.1, <["title" := missing_title]> ir.2)
    else Ok ir) df.

(** The uid of each row becomes its label ([set_index] takes the column
    out of the cells). *)
Definition _generate_uids_for_rows (df : frame) : result frame :=
  match df with
  | [] => Raise ValueError
  | _ =>
      for_each (fun ir =>
        url ← getitem ir.2 "url";
        match url with
        | Str u => Ok (Str (md5_hexdigest u), delete "uid" ir.2)
        | _ => Raise AttributeError
        end) df
  end.

Definition _remove_new_lines_from_body (df : frame) : result frame :=
  for_each (fun ir =>
    body ← getitem ir.2 "body";
    match body with
    | Str b => Ok (ir.1, <["body" := Str (stripped_body b)]> ir.2)
    | _ => Raise TypeError
    end) df.

(** The number of tokens of a text that are alphabetic and, in lower case,
    no stop word. *)
Definition count_tokens (text : string) : Z :=
  let tokens := word_tokenize text in
  let tokens := List.filter isalpha tokens in
  let word_list := map lower tokens in
  let valid_word_list :=
    List.filter (fun word => negb (bool_decide (word ∈ stop_words))) word_list in
  Z.of_nat (length valid_word_list).

Definition _token_size_column (df : frame) (column_name : string)
  : result series :=
  match dropna df with
  | [] => Raise ValueError
  | rows =>
      for_each (fun ir =>
        c ← getitem ir.2 column_name;
        match c with
        | Str text => Ok (ir.1, Int (count_tokens text))
        | _ => Raise TypeError
        end) rows
  end.

Definition _remove_duplicate_entries (df : frame) (column_name : string)
  : result frame :=
  drop_duplicates column_name df.

Definition _drop_rows_missing_data (df : frame) : frame := dropna df.

(** [df.to_csv(clean_file)]: the label of each row is written as its first
    field, under the name of the index; [to_csv] raises [OSError], and
    writes nothing, when the file cannot be opened. *)
Definition _save_data (df : frame) (filename : string) (fs : csv_files)
  : result unit * csv_files :=
  let clean_file := "clean_" +:+ filename in
  if writable clean_file
  then (Ok (), <[clean_file := (fun ir => <["uid" := ir.1]> ir.2) <$> df]> fs)
  else (Raise OSError, fs).

(** [main(filename)], in three parts.  [staged_frame]: the statements up to
    the two token counts, which give the frame that
    [_remove_duplicate_entries] is called on. *)
Definition staged_frame (filename : string) (fs : csv_files) : result frame :=
  df ← _read_data fs filename;
  let newspaper_uid := _extract_newspaper_uid filename in
  let df := _add_newspaper_uid_column df newspaper_uid in
  df ← _extract_host df;
  df ← _add_missing_titles df;
  df ← _generate_uids_for_rows df;
  df ← _remove_new_lines_from_body df;
  n_tokens_title ← _token_size_column df "title";
  df ← setitem "n_tokens_title" n_tokens_title df;
  n_tokens_body ← _token_size_column df "body";
  setitem "n_tokens_body" n_tokens_body df.

(** [clean]: the frame that [main] saves and returns. *)
Definition clean (filename : string) (fs : csv_files) : result frame :=
  df ← staged_frame filename fs;
  df ← _remove_duplicate_entries df "title";
  Ok (_drop_rows_missing_data df).

(** [main]: the cleaned frame and the files after [_save_data]; an exception
    leaves the files as they were. *)
Definition main (filename : string) (fs : csv_files)
  : result frame * csv_files :=
  match clean filename fs with
  | Ok df =>
      match _save_data df filename fs with
      | (Ok _, fs') => (Ok df, fs')
      | (Raise e, fs') => (Raise e, fs')
      end
  | Raise e => (Raise e, fs)
  end.

End Cleaning.

(** A stand-in for the two parameters of [nltk], for the check of
    bracketed hosts and for the file system, to run the pipeline on a table:
    tokens are the words between blanks, the stop words are five Spanish
    ones, every bracketed host is accepted, and the working directory is
    the only directory there is. *)
Definition plain_tokenize (text : string) : list string := String.words text.
Definition plain_stop_words : list string := ["de"; "la"; "el"; "y"; "en"].
Definition flat_directory (name : string) : bool := negb (str_mem "/" name).
Definition plain_main : string -> csv_files -> result frame * csv_files :=
  main plain_tokenize plain_stop_words (fun _ => true) flat_directory.

(** The row of a scraped article. *)
Definition raw_row (url : string) (title body : cell) : gmap string cell :=
  {[ "url" := Str url; "title" := title; "body" := body ]}.

(** ** What the stages do to one row *)

(** The text after the last [/] of a url, when there is some. *)
Fixpoint final_segment (url : string) : option string :=
  match url with
  | "" => None
  | String _ s' => if str_mem "/" url then final_segment s' else Some url
  end.

(** A text with a space for each hyphen. *)
Definition hyphens_to_spaces (s : string) : string :=
  str_map (fun a => if Ascii.eqb a "-" then " "%char else a) s.

(** The row [ir] that the stages before the token counts make of the row [r0]
    of the file: host, newspaper uid and uid are added, a missing title is
    filled from the url, and the body is normalised. *)
Definition rowwise_cleaned (check : string -> bool) (newspaper_uid : string)
    (r0 : gmap string cell) (ir : cell * gmap string cell) : Prop :=
  exists u h t0 t b,
    r0 !! "url" = Some (Str u) /\
    urlparse_netloc check u = Ok h /\
    r0 !! "title" = Some t0 /\
    (if isna t0
     then exists seg, final_segment u = Some seg /\
                      t = Str (join " " (split "-" seg))
     else t = t0) /\
    r0 !! "body" = Some (Str b) /\
    ir = (Str (md5_hexdigest u),
          <["body" := Str (stripped_body b)]>
            (delete "uid"
               (<["title" := t]>
                  (<["host" := Str h]>
                     (<["newspaper_uid" := Str newspaper_uid]> r0))))).

(** A token count as the frame holds it: missing, or a count. *)
Definition token_cell (v : cell) : Prop :=
  v = NaN \/ exists n, v = Int n /\ (0 <= n)%Z.

(** The row before the removal of duplicates. *)
Definition staged (check : string -> bool) (newspaper_uid : string)
    (r0 : gmap string cell) (ir : cell * gmap string cell) : Prop :=
  exists ir5 v1 v2,
    rowwise_cleaned check newspaper_uid r0 ir5 /\
    token_cell v1 /\ token_cell v2 /\
    ir = (ir5.1, <["n_tokens_body" := v2]> (<["n_tokens_title" := v1]> ir5.2)).

(** [df[name]], as far as each row has the column. *)
Definition column (name : string) (df : frame) : list (option cell) :=
  (fun ir => ir.2 !! name) <$> df.

(** The title cell of a row, and the rows that [drop_duplicates] keeps when
    the keys are given by a function of the row. *)
Definition title_of (ir : cell * gmap string cell) : option cell :=
  ir.2 !! "title".

Definition keep_first_by {A} (key : A -> cell) (seen : list cell) (l : list A)
  : list A :=
  keep_first seen (zip (key <$> l) l).

(** The first row of a frame that has the title of [x]. *)
Definition first_with_title (x : cell * gmap string cell)
    (df : frame) : option (cell * gmap string cell) :=
  List.find (fun y => bool_decide (title_of y = title_of x)) df.

(** What [pd.read_csv] guarantees of a table of text columns: a cell is
    missing or a text, and no text is empty (an empty field is read as a
    missing value). *)
Definition text_cell (v : cell) : bool :=
  match v with
  | NaN => true
  | Str s => negb (String.eqb s "")
  | Int _ => false
  end.

Definition text_table (rows : list (gmap string cell)) : Prop :=
  Forall (fun r => map_Forall (fun _ v => text_cell v = true) r) rows.

(** The staged row [ir] carries the url of the row [r0] of the file, and its
    title when it has one. *)
Definition same_article (r0 : gmap string cell)
    (ir : cell * gmap string cell) : Prop :=
  ir.2 !! "url" = r0 !! "url" /\
  forall t, r0 !! "title" = Some t -> t <> NaN -> ir.2 !! "title" = Some t.

(** Tables to run the pipeline on.  [scenario]: a row without title, and
    two rows with the same title. *)
Definition scenario : csv_files :=
  {[ "n_2020_articles.csv" :=
       [ raw_row "https://n.com/x-y-z" NaN
                 (Str (String "H" (String "i" (String LF "M"))));
         raw_row "https://n.com/other" (Str "T1") (Str "Texto valido");
         raw_row "https://n.com/third" (Str "T1") (Str "Otro texto") ] ]}.

Definition scenario_rows : list (gmap string cell) :=
  default [] (scenario !! "n_2020_articles.csv").

Definition scenario_output : frame :=
  match (plain_main "n_2020_articles.csv" scenario).1 with
  | Ok df => df
  | Raise _ => []
  end.

(** [hostless_table]: a url without [//], whose netloc is empty. *)
Definition hostless_table : csv_files :=
  {[ "n_2020_articles.csv" := [ raw_row "n.com/x" (Str "T") (Str "B") ] ]}.

(** [bylined_table]: two rows of one title, with a further column that is
    missing in the first. *)
Definition bylined_table : csv_files :=
  {[ "n_2020_articles.csv" :=
       [ <["author" := NaN]>
           (raw_row "https://n.com/a" (Str "T1") (Str "uno"));
         <["author" := Str "Ana"]>
           (raw_row "https://n.com/b" (Str "T1") (Str "dos")) ] ]}.

(** A row of the file that every stage can work on: its url is a text with
    a netloc that parses, its body is a text, and its title is a text, or is
    missing with a final segment in the url to fill it from. *)
Definition workable (check : string -> bool) (r0 : gmap string cell)
  : Prop :=
  (exists u h,
     r0 !! "url" = Some (Str u) /\ urlparse_netloc check u = Ok h /\
     ((exists t, r0 !! "title" = Some (Str t)) \/
      (r0 !! "title" = Some NaN /\ is_Some (final_segment u)))) /\
  (exists b, r0 !! "body" = Some (Str b)).

(** A row with url, title and body that are texts. *)
Definition textual (r : gmap string cell) : Prop :=
  (exists u, r !! "url" = Some (Str u)) /\
  (exists t, r !! "title" = Some (Str t)) /\
  (exists b, r !! "body" = Some (Str b)).

(** The columns that the stages before the token counts set or take out,
    whatever the file has there, and a row of the file without gap: it has
    no missing value in any other column, so that [dropna] keeps it. *)
Definition set_columns : list string :=
  ["title"; "host"; "newspaper_uid"; "uid"].

Definition gap_free (r0 : gmap string cell) : Prop :=
  map_Forall (fun c v => c ∈ set_columns \/ v <> NaN) r0.

(** A row of a file that has no column of token counts of its own. *)
Definition count_free (r0 : gmap string cell) : Prop :=
  r0 !! "n_tokens_title" = None /\ r0 !! "n_tokens_body" = None.

(** The uid that [_generate_uids_for_rows] gives a row of the file. *)
Definition uid_of (r0 : gmap string cell) : string :=
  match r0 !! "url" with
  | Some (Str u) => md5_hexdigest u
  | _ => ""
  end.

(** [credited_table]: a file with a further column, which is missing in the
    second row; the title of the first row is missing. *)
Definition credited_table : csv_files :=
  {[ "n_2020_articles.csv" :=
       [ <["author" := Str "Ana"]>
           (raw_row "https://n.com/x-y-z" NaN (Str "Hola"));
         <["author" := NaN]>
           (raw_row "https://n.com/other" (Str "T1") (Str "Texto valido"));
         <["author" := Str "Luz"]>
           (raw_row "https://n.com/third" (Str "T2") (Str "Otro texto")) ] ]}.

Definition credited_rows : list (gmap string cell) :=
  default [] (credited_table !! "n_2020_articles.csv").

(** Tables on which a stage raises: a missing title over a url that ends in
    [/], and a missing body. *)
Definition trailing_slash_table : csv_files :=
  {[ "n_2020_articles.csv" :=
       [ raw_row "https://n.com/section/" NaN (Str "Texto") ] ]}.

Definition bodyless_table : csv_files :=
  {[ "n_2020_articles.csv" := [ raw_row "https://n.com/a" (Str "T") NaN ] ]}.

(** Further tables on which the run ends in an exception.
    [numbered_table]: a title that is a number.  [uncredited_table]: a
    further column that is missing in every row.  [relisted_table]: one url
    in two rows without gap, next to a row with a gap.  [counted_table]: a
    column of counts in the file, missing in the second of two rows of one
    url, next to a row with a gap.  [filed_table]: a file in a directory. *)
Definition numbered_table : csv_files :=
  {[ "n_2020_articles.csv" :=
       [ raw_row "https://n.com/a" (Int 2020) (Str "Texto") ] ]}.

Definition uncredited_table : csv_files :=
  {[ "n_2020_articles.csv" :=
       [ <["author" := NaN]>
           (raw_row "https://n.com/a" (Str "T1") (Str "uno"));
         <["author" := NaN]>
           (raw_row "https://n.com/b" (Str "T2") (Str "dos")) ] ]}.

Definition relisted_table : csv_files :=
  {[ "n_2020_articles.csv" :=
       [ <["author" := Str "Ana"]>
           (raw_row "https://n.com/a" (Str "T1") (Str "uno"));
         <["author" := Str "Luz"]>
           (raw_row "https://n.com/a" (Str "T2") (Str "dos"));
         <["author" := NaN]>
           (raw_row "https://n.com/c" (Str "T3") (Str "tres")) ] ]}.

Definition counted_table : csv_files :=
  {[ "n_2020_articles.csv" :=
       [ <["n_tokens_title" := Int 1]>
           (<["author" := Str "Ana"]>
              (raw_row "https://n.com/a" (Str "T1") (Str "uno")));
         <["n_tokens_title" := NaN]>
           (<["author" := Str "Luz"]>
              (raw_row "https://n.com/a" (Str "T2") (Str "dos")));
         <["n_tokens_title" := Int 1]>
           (<["author" := NaN]>
              (raw_row "https://n.com/c" (Str "T3") (Str "tres"))) ] ]}.

Definition filed_table : csv_files :=
  {[ "data/n_2020_articles.csv" :=
       [ raw_row "https://n.com/a" (Str "T") (Str "Texto") ] ]}.

(** ** Further notions

    What the properties of the third part are stated with, beyond the
    notions above: of the scraper, of the cleaning pipeline, and the third
    program, which loads a cleaned file into the database. *)

(** The url of a site as the configuration gives it: [http] or [https],
    [://] and a non-empty remainder without line feed. *)
Definition site_host (host : string) : Prop :=
  exists s a,
    (s = "" \/ s = "s") /\ host = "http" +:+ s +:+ "://" +:+ a /\
    a <> "" /\ no_lf a = true.

(** The name [_save_articles] gives its file, the header it writes (the
    attributes of the first article whose name does not start with an
    underscore), and the row of one article. *)
Definition out_file_name (now news_site_uid : string) : string :=
  news_site_uid +:+ "_" +:+ now +:+ "_articles.csv".

Definition csv_headers (first : page) : list string :=
  List.filter (fun property => negb (startswith "_" property)) (dir first).

Definition csv_row (headers : list string) (article : page)
  : result (list string) :=
  for_each (fun prop => str <$> getattr article prop) headers.

(** An article with a body that is not empty. *)
Definition has_body (a : page) : Prop :=
  exists s, getattr a "body" = Ok (PStr s) /\ s <> "".

(** A site to run the scraper on: one page is gone, one has no text. *)
Definition sample_page (news_site_uid url : string) : result page :=
  if String.eqb url "https://x.com/gone" then Raise HTTPError
  else Ok (Page [("_html", PNone);
                 ("body", PStr (if String.eqb url "https://x.com/empty"
                                then "" else "Texto"));
                 ("title", PStr "T"); ("url", PStr url)]).

Definition sample_articles : list page :=
  [Page [("_html", PNone); ("body", PStr "Texto"); ("title", PStr "T");
         ("url", PStr "https://x.com/a")];
   Page [("_html", PNone); ("body", PStr "Texto"); ("title", PStr "T");
         ("url", PStr "https://x.com/b")]].

Definition sample_site_url (news_site_uid : string) : result string :=
  Ok "https://x.com".

Definition sample_links (news_site_uid host : string) : result (list string) :=
  Ok ["/a"; "/gone"; "/empty"; "b"].

(** The same site with one more link, whose request times out. *)
Definition slow_page (news_site_uid url : string) : result page :=
  if String.eqb url "https://x.com/slow" then Raise Timeout
  else sample_page news_site_uid url.

Definition slow_links (news_site_uid host : string) : result (list string) :=
  Ok ["/a"; "b"; "/slow"; "/c"].

(** The name of the file that [_save_data] writes. *)
Definition clean_file (filename : string) : string := "clean_" +:+ filename.

(** The columns that come out of the pipeline itself: every other column
    of a row is the one the file has. *)
Definition pipeline_columns : list string :=
  ["title"; "body"; "host"; "newspaper_uid"; "uid";
   "n_tokens_title"; "n_tokens_body"].

(** What a run that completes needs of a row of the file: a url that is a
    text and that [urlparse] accepts, a body that is a text, and a title
    that is there or can be filled from the final segment of the url. *)
Definition processable (check : string -> bool) (r0 : gmap string cell)
  : Prop :=
  exists u h b t0,
    r0 !! "url" = Some (Str u) /\ urlparse_netloc check u = Ok h /\
    r0 !! "body" = Some (Str b) /\ r0 !! "title" = Some t0 /\
    (t0 = NaN -> is_Some (final_segment u)).

(** A digit of lower-case hexadecimal. *)
Definition hex_char (a : ascii) : bool := str_mem a "0123456789abcdef".

(** The characters that end the netloc of a URL, and a text that can stand
    as the authority of a URL: none of these characters, no bracket, and no
    tab or line break (which [urlparse] removes). *)
Definition netloc_end (a : ascii) : bool :=
  Ascii.eqb a "/" || Ascii.eqb a "?" || Ascii.eqb a "#".

Definition authority_char (a : ascii) : bool :=
  negb (netloc_end a) && negb (Ascii.eqb a "[") && negb (Ascii.eqb a "]") &&
  negb (bool_decide (nat_of_ascii a ∈ [9; 13; 10])).

Definition authority_text (auth : string) : bool :=
  str_forall authority_char auth.

(** What may follow the authority: nothing, or a path, a query or a
    fragment. *)
Definition after_authority (rest : string) : bool :=
  match rest with
  | "" => true
  | String a _ => netloc_end a
  end.

(** The first row that the pipeline makes of [scenario]. *)
Definition scenario_first : cell * gmap string cell :=
  default (NaN, ∅) (head scenario_output).

(** [twice_listed_table]: one article listed under two titles. *)
Definition twice_listed_table : csv_files :=
  {[ "n_2020_articles.csv" :=
       [ raw_row "https://n.com/a" (Str "Portada") (Str "uno");
         raw_row "https://n.com/a" (Str "Titular") (Str "dos") ] ]}.

(** ** [4 Visualizacion/main.py]: loading a cleaned file into the database

    The classes of the database ([article.Article], [base.Base], [engine],
    [Session]) are other modules: the loader is embedded over what it uses
    of them, the constructor of an article and the two operations on the
    database, each of which may raise. *)

Module Loader.

(** The columns that [main] reads of each row, in the order of the
    arguments of [Article]. *)
Definition article_columns : list string :=
  ["uid"; "body"; "host"; "newspaper_uid"; "n_tokens_body"; "n_tokens_title";
   "title"; "url"].

Section Loader.

Variable article : Type.
(** [Article(uid, body, host, newspaper_uid, n_tokens_body, n_tokens_title,
    title, url)] *)
Variable Article :
  cell -> cell -> cell -> cell -> cell -> cell -> cell -> cell -> article.

Variable database : Type.
(** [Base.metadata.create_all(engine)] *)
Variable create_all : database -> result database.
(** [session.add(article)], [session.commit()] and [session.close()] *)
Variable add_commit : article -> database -> result database.

(** One turn of the loop: the message of the log reads [row['uid']] first,
    then the arguments of [Article] are read from left to right. *)
Definition load_row (row : gmap string cell) (db : database)
  : result database :=
  _ ← getitem row "uid";
  uid ← getitem row "uid";
  body ← getitem row "body";
  host ← getitem row "host";
  newspaper_uid ← getitem row "newspaper_uid";
  n_tokens_body ← getitem row "n_tokens_body";
  n_tokens_title ← getitem row "n_tokens_title";
  title ← getitem row "title";
  url ← getitem row "url";
  add_commit
    (Article uid body host newspaper_uid n_tokens_body n_tokens_title title url)
    db.

(** The loop over [articles.iterrows()]; an exception leaves the database
    with the rows committed before it. *)
Fixpoint load_rows (rows : list (gmap string cell)) (db : database)
  : result unit * database :=
  match rows with
  | [] => (Ok (), db)
  | row :: rows' =>
      match load_row row db with
      | Ok db' => load_rows rows' db'
      | Raise e => (Raise e, db)
      end
  end.

Definition main (filename : string) (fs : csv_files) (db : database)
  : result unit * database :=
  match create_all db with
  | Raise e => (Raise e, db)
  | Ok db =>
      match fs !! filename with
      | Some rows => load_rows rows db
      | None => (Raise FileNotFoundError, db)
      end
  end.

End Loader.

End Loader.

(** A database that is the list of the articles committed, each the list
    of its fields, to run the loader on. *)
Definition listed_article (uid body host newspaper_uid n_tokens_body
    n_tokens_title title url : cell) : list cell :=
  [uid; body; host; newspaper_uid; n_tokens_body; n_tokens_title; title; url].

Definition listed_main (filename : string) (fs : csv_files)
  : result unit * list (list cell) :=
  Loader.main (list cell) listed_article (list (list cell)) Ok
    (fun a db => Ok (db ++ [a])) filename fs [].

(** A database that refuses an article whose uid it holds (with
    [ValueError], in the place of the error of the database), and a file
    that lists one article twice. *)
Definition keyed_main (filename : string) (fs : csv_files)
  : result unit * list (list cell) :=
  Loader.main (list cell) listed_article (list (list cell)) Ok
    (fun a db => if bool_decide (head a ∈ head <$> db) then Raise ValueError
                 else Ok (db ++ [a]))
    filename fs [].

Definition loadable_row : gmap string cell :=
  <["uid" := Str "u1"]>
    (<["host" := Str "n.com"]>
       (<["newspaper_uid" := Str "n"]>
          (<["n_tokens_body" := Int 1]>
             (<["n_tokens_title" := Int 1]>
                (raw_row "https://n.com/a" (Str "T") (Str "B")))))).

Definition twice_loaded_table : csv_files :=
  {[ "clean_n.csv" := [loadable_row; loadable_row] ]}.

(** * Part II: properties *)

(** ** Strings *)

Lemma str_app_cons a s t : String a s +:+ t = String a (s +:+ t).
Proof. reflexivity. Qed.

Lemma str_app_nil_l s : "" +:+ s = s.
Proof. reflexivity. Qed.

Lemma str_app_nil_r s : s +:+ "" = s.
Proof. induction s as [|a s IH]; [done|]. by rewrite str_app_cons, IH. Qed.

Lemma str_app_assoc s t u : (s +:+ t) +:+ u = s +:+ t +:+ u.
Proof.
  induction s as [|a s IH]; [done|]. by rewrite !str_app_cons, IH.
Qed.

Lemma str_app_length s t :
  String.length (s +:+ t) = String.length s + String.length t.
Proof.
  induction s as [|a s IH]; [done|]. rewrite str_app_cons. simpl. by rewrite IH.
Qed.

Lemma strip_prefix_Some p s t : strip_prefix p s = Some t <-> s = p +:+ t.
Proof.
  revert s. induction p as [|a p IH]; intros s; simpl.
  - rewrite str_app_nil_l. split; congruence.
  - rewrite str_app_cons. destruct s as [|b s].
    + split; discriminate.
    + destruct (Ascii.eqb_spec a b) as [->|Hne].
      * rewrite IH. split; congruence.
      * split; [discriminate|]. intros [= ? ?]. congruence.
Qed.

Lemma strip_prefix_app p t : strip_prefix p (p +:+ t) = Some t.
Proof. by apply strip_prefix_Some. Qed.

Lemma str_forall_app p s t :
  str_forall p (s +:+ t) = str_forall p s && str_forall p t.
Proof.
  induction s as [|a s IH]; [done|].
  rewrite str_app_cons. simpl. by rewrite IH, andb_assoc.
Qed.

(** ** The matcher, one construct at a time *)

Lemma mstate_eq st p s g :
  pos st = p -> rest st = s -> groups st = g -> st = MState p s g.
Proof. destruct st; simpl; congruence. Qed.

Lemma In_run_seq r1 r2 st st' :
  In st' (run (RSeq r1 r2) st) <->
  exists m, In m (run r1 st) /\ In st' (run r2 m).
Proof. simpl. apply in_flat_map. Qed.

Lemma In_run_eps st st' : In st' (run REps st) <-> st' = st.
Proof. simpl. intuition congruence. Qed.

Lemma In_run_bol st st' : In st' (run RBol st) <-> pos st = 0 /\ st' = st.
Proof. simpl. case_decide; simpl; intuition congruence. Qed.

Lemma In_run_eol st st' :
  In st' (run REol st) <-> at_eol (rest st) = true /\ st' = st.
Proof. simpl. destruct (at_eol (rest st)); simpl; intuition congruence. Qed.

Lemma In_run_opt r st st' :
  In st' (run (ROpt r) st) <-> In st' (run r st) \/ st' = st.
Proof. simpl. rewrite in_app_iff. simpl. intuition congruence. Qed.

Lemma In_run_lit p st st' :
  In st' (run (lit p) st) <->
  rest st = p +:+ rest st' /\ pos st' = pos st + String.length p /\
  groups st' = groups st.
Proof.
  revert st. induction p as [|a p IH]; intros st.
  - rewrite In_run_eps, str_app_nil_l. simpl. split.
    + intros ->. auto with lia.
    + intros (? & ? & ?). destruct st, st'; simpl in *. f_equal; [lia|done..].
  - change (lit (String a p)) with (RSeq (RChar (CChar a)) (lit p)).
    rewrite In_run_seq, str_app_cons. split.
    + intros (m & Hm & Hst'). apply IH in Hst' as (Hr & Hp & Hg).
      simpl in Hm. destruct (rest st) as [|b t] eqn:Hrest; [done|].
      destruct (Ascii.eqb_spec b a) as [->|]; [|done].
      destruct Hm as [<-|[]]. simpl in *. subst t.
      split; [done|]. split; [lia|done].
    + intros (Hr & Hp & Hg).
      exists (MState (S (pos st)) (p +:+ rest st') (groups st)). split.
      * simpl. rewrite Hr, Ascii.eqb_refl. by left.
      * apply IH. simpl in *. split; [done|]. split; [lia|done].
Qed.

Lemma In_plus_run k g p s st' :
  In st' (plus_run k g p s) <->
  exists a, a <> "" /\ str_forall (cset_mem k) a = true /\
            s = a +:+ rest st' /\ pos st' = p + String.length a /\
            groups st' = g.
Proof.
  revert p. induction s as [|c t IH]; intros p; simpl.
  - split; [done|]. intros ([|b a] & Hne & _ & Heq & _); [done|].
    by rewrite str_app_cons in Heq.
  - destruct (cset_mem k c) eqn:Hc.
    + rewrite in_app_iff, IH. simpl. split.
      * intros [(a & Hne & Ha & -> & Hp & Hg)|[<-|[]]].
        -- exists (String c a). rewrite str_app_cons. simpl. rewrite Hc, Ha.
           repeat split; [done|lia|done].
        -- exists (String c ""). simpl. rewrite Hc.
           repeat split; [done|lia].
      * intros ([|b a] & Hne & Ha & Heq & Hp & Hg); [done|].
        rewrite str_app_cons in Heq. injection Heq as <- ->.
        simpl in Ha. apply andb_prop in Ha as [_ Ha].
        destruct a as [|b' a'].
        -- right. left. symmetry. apply mstate_eq; simpl in *; [lia|done..].
        -- left. exists (String b' a'). simpl in *.
           repeat split; [done|done|lia|done].
    + split; [done|]. intros ([|b a] & Hne & Ha & Heq & _); [done|].
      rewrite str_app_cons in Heq. injection Heq as <- _.
      simpl in Ha. by rewrite Hc in Ha.
Qed.

Lemma In_run_plus k st st' :
  In st' (run (RPlus k) st) <->
  exists a, a <> "" /\ str_forall (cset_mem k) a = true /\
            rest st = a +:+ rest st' /\ pos st' = pos st + String.length a /\
            groups st' = groups st.
Proof. apply In_plus_run. Qed.

Lemma re_match_Some r s :
  is_Some (re_match r s) <-> exists st', In st' (run r (MState 0 s [])).
Proof.
  unfold re_match. destruct (run r _) as [|x l]; simpl.
  - split; [by intros [? ?]|by intros [? []]].
  - split; eauto.
Qed.

(** ** Link resolution *)

Example build_link_absolute :
  _build_link "https://x.com" "https://y.com/a" = "https://y.com/a".
Proof. reflexivity. Qed.

Example build_link_root :
  _build_link "https://x.com" "/a/b" = "https://x.com/a/b".
Proof. reflexivity. Qed.

Example build_link_relative :
  _build_link "https://x.com" "a/b" = "https://x.com/a/b".
Proof. reflexivity. Qed.

(** The results of the Python function on further links. *)
Example build_link_more :
  _build_link "H" <$>
    ["http://y.com/a/b"; "https://y.com"; "https://y.com/"; "https:///x";
     "https://a//"; "http://s://x"; "/"; ""; "ftp://y.com/a";
     "HTTPS://y.com/a"; "https://y.com?q=a/b"]
  = ["http://y.com/a/b"; "H/https://y.com"; "H/https://y.com/";
     "H/https:///x"; "https://a//"; "http://s://x"; "H//"; "H/";
     "H/ftp://y.com/a"; "H/HTTPS://y.com/a"; "https://y.com?q=a/b"].
Proof. reflexivity. Qed.

Example build_link_line_feeds :
  _build_link "H" <$>
    ["https://y.com/a" +:+ String LF ""; "/a" +:+ String LF "";
     "https://y.com/a" +:+ String LF "b"]
  = ["https://y.com/a" +:+ String LF ""; "H/a" +:+ String LF "";
     "H/https://y.com/a" +:+ String LF "b"].
Proof. reflexivity. Qed.

Lemma is_root_path_match link :
  is_Some (re_match is_root_path link) <-> root_relative link.
Proof.
  rewrite re_match_Some. unfold is_root_path, rseq, root_relative. cbn [foldr].
  split.
  - intros (st' & H).
    apply In_run_seq in H as (m1 & [_ ->]%In_run_bol & H).
    apply In_run_seq in H as (m2 & (Hr1 & _)%In_run_lit & H).
    apply In_run_seq in H as (m3 & (a & Hne & Ha & Hr2 & _)%In_run_plus & H).
    apply In_run_seq in H as (m4 & [Heol ->]%In_run_eol & _).
    simpl in Hr1. exists a, (rest m3). rewrite Hr1, Hr2. done.
  - intros (a & t & -> & Hne & Ha & Ht).
    exists (MState (1 + String.length a) t []).
    apply In_run_seq. exists (MState 0 ("/" +:+ a +:+ t) []).
    split; [by apply In_run_bol|].
    apply In_run_seq. exists (MState 1 (a +:+ t) []).
    split; [by apply In_run_lit|].
    apply In_run_seq. exists (MState (1 + String.length a) t []).
    split; [apply In_run_plus; by exists a|].
    apply In_run_seq. exists (MState (1 + String.length a) t []).
    split; [by apply In_run_eol|by apply In_run_eps].
Qed.

Lemma is_well_formed_link_match link :
  is_Some (re_match is_well_formed_link link) <-> absolute_url link.
Proof.
  rewrite re_match_Some. unfold is_well_formed_link, rseq, absolute_url.
  cbn [foldr]. split.
  - intros (st' & H).
    apply In_run_seq in H as (m1 & [_ ->]%In_run_bol & H).
    apply In_run_seq in H as (m2 & (Hr1 & _)%In_run_lit & H).
    apply In_run_seq in H as (m3 & Hopt%In_run_opt & H).
    apply In_run_seq in H as (m4 & (Hr3 & _)%In_run_lit & H).
    apply In_run_seq in H as (m5 & (a & Hna & Ha & Hr4 & _)%In_run_plus & H).
    apply In_run_seq in H as (m6 & (Hr5 & _)%In_run_lit & H).
    apply In_run_seq in H as (m7 & (b & Hnb & Hb & Hr6 & _)%In_run_plus & H).
    apply In_run_seq in H as (m8 & [Heol ->]%In_run_eol & _).
    simpl in Hr1. rewrite Hr1.
    destruct Hopt as [(Hr2 & _)%In_run_lit | ->].
    + exists "s", a, b, (rest m7). rewrite Hr2, Hr3, Hr4, Hr5, Hr6. auto 10.
    + exists "", a, b, (rest m7). rewrite Hr3, Hr4, Hr5, Hr6. auto 10.
  - intros (s & a & b & t & Hs & -> & Hna & Hnb & Ha & Hb & Ht).
    set (n := 4 + String.length s + 3 + String.length a).
    exists (MState (n + 1 + String.length b) t []).
    apply In_run_seq. eexists. split; [by apply In_run_bol|].
    apply In_run_seq.
    exists (MState 4 (s +:+ "://" +:+ a +:+ "/" +:+ b +:+ t) []).
    split; [by apply In_run_lit|].
    apply In_run_seq.
    exists (MState (4 + String.length s) ("://" +:+ a +:+ "/" +:+ b +:+ t) []).
    split.
    { apply In_run_opt. destruct Hs as [-> | ->]; [by right|left].
      by apply In_run_lit. }
    apply In_run_seq.
    exists (MState (4 + String.length s + 3) (a +:+ "/" +:+ b +:+ t) []).
    split; [by apply In_run_lit|].
    apply In_run_seq. exists (MState n ("/" +:+ b +:+ t) []).
    split; [apply In_run_plus; by exists a|].
    apply In_run_seq. exists (MState (n + 1) (b +:+ t) []).
    split; [by apply In_run_lit|].
    apply In_run_seq. exists (MState (n + 1 + String.length b) t []).
    split; [apply In_run_plus; by exists b|].
    apply In_run_seq. eexists. split; [by apply In_run_eol|by apply In_run_eps].
Qed.

Lemma build_link_absolute_url host link :
  absolute_url link -> _build_link host link = link.
Proof.
  intros [m Hm]%is_well_formed_link_match. unfold _build_link. by rewrite Hm.
Qed.

Lemma build_link_root_relative host link :
  ~ absolute_url link -> root_relative link ->
  _build_link host link = host +:+ link.
Proof.
  intros Hn [m Hm]%is_root_path_match. unfold _build_link. rewrite Hm.
  destruct (re_match is_well_formed_link link) eqn:E; [|done].
  destruct Hn. apply is_well_formed_link_match. by eexists.
Qed.

Lemma build_link_bare host link :
  ~ absolute_url link -> ~ root_relative link ->
  _build_link host link = host +:+ "/" +:+ link.
Proof.
  intros Hn Hr. unfold _build_link.
  destruct (re_match is_well_formed_link link) eqn:E.
  { destruct Hn. apply is_well_formed_link_match. by eexists. }
  destruct (re_match is_root_path link) eqn:E'; [|done].
  destruct Hr. apply is_root_path_match. by eexists.
Qed.

Lemma absolute_url_dec link : Decision (absolute_url link).
Proof.
  destruct (re_match is_well_formed_link link) eqn:E.
  - left. apply is_well_formed_link_match. by eexists.
  - right. intros [? ?]%is_well_formed_link_match. congruence.
Qed.

Lemma root_relative_dec link : Decision (root_relative link).
Proof.
  destruct (re_match is_root_path link) eqn:E.
  - left. apply is_root_path_match. by eexists.
  - right. intros [? ?]%is_root_path_match. congruence.
Qed.

Lemma str_mem_app c s t : str_mem c (s +:+ t) = str_mem c s || str_mem c t.
Proof.
  induction s as [|a s IH]; [done|].
  rewrite str_app_cons. simpl. by rewrite IH, orb_assoc.
Qed.

(** Two texts cut at their first [c] have the same part before it. *)
Lemma str_cut_inj c x y r1 r2 :
  str_mem c x = false -> str_mem c y = false ->
  x +:+ String c r1 = y +:+ String c r2 -> x = y /\ r1 = r2.
Proof.
  revert y. induction x as [|a x IH]; intros [|b y] Hx Hy Heq;
    rewrite ?str_app_cons, ?str_app_nil_l in Heq; simpl in *.
  - by injection Heq.
  - injection Heq as <- _. by rewrite Ascii.eqb_refl in Hy.
  - injection Heq as -> _. by rewrite Ascii.eqb_refl in Hx.
  - injection Heq as -> Heq.
    apply orb_false_elim in Hx as [_ Hx], Hy as [_ Hy].
    destruct (IH y Hx Hy Heq) as [-> ->]. done.
Qed.

Lemma scheme_has_no_colon s :
  str_forall scheme_char s = true -> str_mem ":" s = false.
Proof.
  induction s as [|a s IH]; [done|]. simpl.
  intros [Ha Hs]%andb_prop. rewrite (IH Hs), orb_false_r.
  destruct (Ascii.eqb_spec a ":") as [->|]; [|done]. by vm_compute in Ha.
Qed.

Lemma slash_not_last x a c :
  c <> "" -> x +:+ "/" = a +:+ "/" +:+ c -> str_mem "/" x = true.
Proof.
  intros Hc. revert x. induction a as [|a0 a IH]; intros [|b x] Heq;
    rewrite ?str_app_cons, ?str_app_nil_l in Heq; simpl.
  - injection Heq as Heq. by destruct c.
  - injection Heq as -> _. done.
  - injection Heq as _ Heq. by destruct a.
  - injection Heq as _ Heq. rewrite (IH x Heq). apply orb_true_r.
Qed.

Lemma foreign_scheme_not_absolute link :
  foreign_scheme_url link -> ~ absolute_url link.
Proof.
  intros (sch & tail & -> & Hsch & Hn1 & Hn2)
         (s & a & b & t & Hs & Heq & _).
  assert (str_mem ":" sch = false) as Hc.
  { destruct sch as [|c sch]; [done|].
    apply andb_prop in Hsch as [_ H]. by apply scheme_has_no_colon. }
  rewrite <-(str_app_assoc "http" s) in Heq.
  apply str_cut_inj in Heq as [-> _]; [|done|by destruct Hs as [-> | ->]].
  destruct Hs as [-> | ->]; [by apply Hn1|by apply Hn2].
Qed.

Lemma foreign_scheme_not_root link :
  foreign_scheme_url link -> ~ root_relative link.
Proof.
  intros (sch & tail & -> & Hsch & _) (a & t & Heq & _).
  destruct sch as [|c sch]; [done|]. rewrite !str_app_cons in Heq.
  injection Heq as -> _. done.
Qed.

Lemma http_without_slash_not_absolute link :
  http_url_without_slash link -> ~ absolute_url link.
Proof.
  intros (s & auth & t & Hs & -> & Hauth & Ht)
         (s' & a & b & t' & Hs' & Heq & Ha & Hb & _).
  rewrite <-(str_app_assoc "http" s), <-(str_app_assoc "http" s') in Heq.
  apply str_cut_inj in Heq as [_ Heq];
    [|by destruct Hs as [-> | ->]|by destruct Hs' as [-> | ->]].
  injection Heq as Heq. destruct Ht as [-> | ->].
  - rewrite str_app_nil_r in Heq. subst auth.
    rewrite str_mem_app in Hauth. simpl in Hauth.
    by rewrite orb_true_r in Hauth.
  - apply slash_not_last in Heq; [congruence|]. by destruct b.
Qed.

Lemma http_without_slash_not_root link :
  http_url_without_slash link -> ~ root_relative link.
Proof. by intros (s & auth & t & _ & -> & _) (a & t' & Heq & _). Qed.

(** C6 (as amended): [_build_link] is a total function of its two texts,
    and its result is fixed by the kind of the link: an absolute URL (the
    pattern of [is_well_formed_link]) is returned unchanged; otherwise a
    root-relative link ([/] and at least one character, none of them a line
    feed but possibly a final one) is appended to the host; every other link
    is appended to the host after a [/]. *)
Theorem build_link_cases host link :
  (absolute_url link /\ _build_link host link = link) \/
  (~ absolute_url link /\ root_relative link /\
   _build_link host link = host +:+ link) \/
  (~ absolute_url link /\ ~ root_relative link /\
   _build_link host link = host +:+ "/" +:+ link).
Proof.
  destruct (absolute_url_dec link) as [Ha|Ha].
  - left. split; [done|]. by apply build_link_absolute_url.
  - right. destruct (root_relative_dec link) as [Hr|Hr].
    + left. repeat split; [done..|]. by apply build_link_root_relative.
    + right. repeat split; [done..|]. by apply build_link_bare.
Qed.

(** C6, as stated, fails on a link that is [/] followed by a line feed: it
    starts with [/] and has a character after it, the absolute pattern does
    not match it, and yet the result is not the host followed by the link:
    the [.] of [is_root_path] does not match a line feed, so the last branch
    is taken. *)
Lemma build_link_line_feed :
  strip_prefix "/" line_feed_link = Some (String LF "") /\
  re_match is_well_formed_link line_feed_link = None /\
  _build_link "https://x.com" line_feed_link
    = "https://x.com" +:+ "/" +:+ line_feed_link /\
  _build_link "https://x.com" line_feed_link
    <> "https://x.com" +:+ line_feed_link.
Proof. repeat split. by vm_compute. Qed.

(** An [http(s)] URL without path and without [/] in its query or fragment
    is one in which no [/] follows the [://]. *)
Lemma empty_path_without_slash link :
  http_url_with_empty_path link -> no_slash_after_scheme link ->
  http_url_without_slash link.
Proof.
  intros (s & auth & rest & Hs & -> & Hauth & _) (s' & text & Hs' & Heq & Ht).
  exists s, (auth +:+ rest), "". rewrite str_app_nil_r.
  repeat split; [done| |by left].
  rewrite <-(str_app_assoc "http" s), <-(str_app_assoc "http" s') in Heq.
  apply str_cut_inj in Heq as [_ Heq];
    [|by destruct Hs as [-> | ->]|by destruct Hs' as [-> | ->]].
  injection Heq as Heq. by rewrite Heq.
Qed.

(** C10 (as amended): a link that is a URL of a scheme other than [http]
    and [https], or an [http(s)] URL in which no [/] follows the [://] other
    than a last one (no path, or a bare [/], and no [/] in the query or the
    fragment), is not taken as absolute: the result is the host, a [/] and
    the link. *)
Theorem build_link_unrecognised_url host link :
  foreign_scheme_url link \/ http_url_without_slash link ->
  _build_link host link = host +:+ "/" +:+ link.
Proof.
  intros [H|H]; apply build_link_bare;
    eauto using foreign_scheme_not_absolute, foreign_scheme_not_root,
      http_without_slash_not_absolute, http_without_slash_not_root.
Qed.

Lemma build_link_unrecognised_url_witness :
  _build_link "https://x.com" "ftp://y.com/a" = "https://x.com/ftp://y.com/a" /\
  _build_link "https://x.com" "https://y.com" = "https://x.com/https://y.com".
Proof.
  split.
  - apply (build_link_unrecognised_url "https://x.com" "ftp://y.com/a").
    left. exists "ftp", "//y.com/a". repeat split; discriminate.
  - apply (build_link_unrecognised_url "https://x.com" "https://y.com").
    right. exists "s", "y.com", "". repeat split; auto.
Defined.

(** C10, as stated, fails on an [http(s)] URL without path whose query
    holds a [/] with a character after it: the authority is [y.com] and the
    path is empty, and yet the pattern of [is_well_formed_link] matches (its
    second [.+] takes the end of the query), so the link is returned
    unchanged and not appended to the host. *)
Lemma build_link_query_slash :
  http_url_with_empty_path "https://y.com?q=a/b" /\
  urlparse_netloc (fun _ => true) "https://y.com?q=a/b" = Ok "y.com" /\
  _build_link "https://x.com" "https://y.com?q=a/b" = "https://y.com?q=a/b" /\
  _build_link "https://x.com" "https://y.com?q=a/b"
    <> "https://x.com" +:+ "/" +:+ "https://y.com?q=a/b".
Proof.
  split; [|by vm_compute].
  exists "s", "y.com", "?q=a/b". repeat split; eauto.
Qed.

(** ** Fetching one article *)

Lemma truthy_false b : truthy b = false <-> b = PNone \/ b = PStr "".
Proof.
  destruct b as [|s]; simpl; [intuition|].
  rewrite negb_false_iff, String.eqb_eq. intuition congruence.
Qed.

Lemma truthy_true b : truthy b = true <-> exists s, b = PStr s /\ s <> "".
Proof.
  destruct b as [|s]; simpl.
  - split; [done|]. by intros (? & ? & ?).
  - rewrite negb_true_iff, String.eqb_neq. split; [eauto|].
    by intros (? & [= ->] & ?).
Qed.

Lemma caught_true e : caught e = true <-> e = HTTPError \/ e = MaxRetryError.
Proof.
  unfold caught. rewrite orb_true_iff, !bool_decide_eq_true. done.
Qed.

(** C3 (as amended): when building the page raises [HTTPError] or
    [MaxRetryError], [_fetch_article] returns [None]; any other exception of
    the transport (a connection error or a timeout of [requests] among them)
    reaches the caller; when the page is built, a body that is absent or
    empty gives [None], and a non-empty body gives that one article. *)
Theorem fetch_article_outcomes
    (ArticlePage : string -> string -> result page)
    (news_site_uid host link : string) :
  let attempt := ArticlePage news_site_uid (_build_link host link) in
  let fetched := _fetch_article ArticlePage news_site_uid host link in
  (forall e, attempt = Raise e -> e = HTTPError \/ e = MaxRetryError ->
             fetched = Ok None) /\
  (forall e, attempt = Raise e -> e <> HTTPError -> e <> MaxRetryError ->
             fetched = Raise e) /\
  (forall a b, attempt = Ok a -> getattr a "body" = Ok b ->
               b = PNone \/ b = PStr "" -> fetched = Ok None) /\
  (forall a b, attempt = Ok a -> getattr a "body" = Ok b ->
               (exists s, b = PStr s /\ s <> "") -> fetched = Ok (Some a)).
Proof.
  intros attempt fetched. subst attempt fetched. unfold _fetch_article.
  repeat split.
  - intros e -> He%caught_true. simpl. by rewrite He.
  - intros e -> H1 H2. simpl. destruct (caught e) eqn:Hc; [|done].
    apply caught_true in Hc as [?|?]; congruence.
  - intros a b -> Hb Hf%truthy_false. simpl. rewrite Hb. simpl. by rewrite Hf.
  - intros a b -> Hb Ht%truthy_true. simpl. rewrite Hb. simpl. by rewrite Ht.
Qed.

(** C3, as stated, fails for a timeout and for a connection error (what
    [requests] raises when a name does not resolve): neither class is named
    by the [except] clause, so the exception leaves [_fetch_article]. *)
Lemma fetch_article_timeout_propagates :
  _fetch_article (fun _ _ => Raise Timeout) "site" "https://x.com" "/a"
    = Raise Timeout /\
  _fetch_article (fun _ _ => Raise ConnectionError) "site" "https://x.com" "/a"
    = Raise ConnectionError.
Proof. split; reflexivity. Qed.

(** ** The collection loop and the writer *)

Lemma save_articles_empty now news_site_uid fs :
  _save_articles now news_site_uid [] fs = (Raise IndexError, fs).
Proof. reflexivity. Qed.

Lemma news_scraper_nothing_fetched
    site_url article_links ArticlePage now news_site_uid host links fs :
  site_url news_site_uid = Ok host ->
  article_links news_site_uid host = Ok links ->
  fetch_all ArticlePage news_site_uid host links = Ok [] ->
  _news_scraper site_url article_links ArticlePage now news_site_uid fs
    = (Raise IndexError, fs).
Proof. intros Hh Hl Hf. unfold _news_scraper. by rewrite Hh, Hl, Hf. Qed.

(** C4 at its failing input: on a site whose two links give an HTTP error
    and a page without body, no article is fetched, and the run ends in
    [IndexError] (from [articles[0]]) with no file written. *)
Theorem news_scraper_barren_site :
  fetch_all barren_site_page "site" "https://x.com" ["/a"; "/b"] = Ok [] /\
  _news_scraper (fun _ => Ok "https://x.com") barren_site_links
      barren_site_page "2020_01_31" "site" ∅
    = (Raise IndexError, ∅).
Proof. split; reflexivity. Qed.

(** ** MD5 against the digests of [hashlib] *)

Example md5_empty : md5_hexdigest "" = "d41d8cd98f00b204e9800998ecf8427e".
Proof. vm_compute. reflexivity. Qed.

Example md5_abc : md5_hexdigest "abc" = "900150983cd24fb0d6963f7d28e17f72".
Proof. vm_compute. reflexivity. Qed.

Example md5_url :
  md5_hexdigest "https://n.com/x-y-z" = "3508902a71effba7242f5b3d35601cda".
Proof. vm_compute. reflexivity. Qed.

Example md5_two_blocks :
  md5_hexdigest "aaaaaaaaaaaaaaaaaaaaaaaaaaaaaaaaaaaaaaaaaaaaaaaaaaaaaaaa"
  = "3b0c8ac703f828b04c6c197006d17218".
Proof. vm_compute. reflexivity. Qed.

(** ** Computations that may raise *)

Lemma bind_Ok {A B} (m : result A) (k : A -> result B) y :
  m ≫= k = Ok y <-> exists x, m = Ok x /\ k x = Ok y.
Proof.
  destruct m as [a|e]; simpl.
  - split; [eauto|]. by intros (x & [= ->] & ?).
  - split; [done|]. by intros (x & ? & ?).
Qed.

Lemma for_each_Ok {A B} (f : A -> result B) l l' :
  for_each f l = Ok l' <-> Forall2 (fun x y => f x = Ok y) l l'.
Proof.
  revert l'. induction l as [|x l IH]; intros l'; simpl.
  - split; [intros [= <-]; constructor|by inversion 1].
  - rewrite bind_Ok. split.
    + intros (y & Hy & (ys & Hys & [= <-])%bind_Ok).
      constructor; [done|by apply IH].
    + inversion 1 as [|? y ? ys Hy Hys]; subst.
      exists y. split; [done|]. apply bind_Ok. exists ys. by rewrite IH.
Qed.

Lemma Forall2_chain {A B C} (R : A -> B -> Prop) (S : B -> C -> Prop) l1 l2 l3 :
  Forall2 R l1 l2 -> Forall2 S l2 l3 ->
  Forall2 (fun x z => exists y, R x y /\ S y z) l1 l3.
Proof.
  intros H. revert l3. induction H; inversion 1; subst; constructor; eauto.
Qed.

Lemma Forall2_equiv {A B} (R S : A -> B -> Prop) l k :
  (forall x y, R x y <-> S x y) -> Forall2 R l k <-> Forall2 S l k.
Proof. intros H. split; intros HF; eapply Forall2_impl; eauto; apply H. Qed.

Lemma Forall2_map_fun {A B} (f : A -> B) (l : list A) :
  Forall2 (fun x y => y = f x) l (f <$> l).
Proof. induction l; constructor; auto. Qed.

Lemma Forall2_imap_snd {A B} (f : nat -> A -> B * A) l :
  (forall i x, (f i x).2 = x) -> Forall2 (fun x y => y.2 = x) l (imap f l).
Proof.
  revert f. induction l as [|x l IH]; intros f Hf; simpl; constructor; [done|].
  apply IH. intros i y. apply Hf.
Qed.

(** ** Body normalisation *)

Lemma join_empty_cons w ws : join "" (w :: ws) = w +:+ join "" ws.
Proof. destruct ws; simpl; [by rewrite str_app_nil_r|done]. Qed.

Lemma stripped_body_map body : stripped_body body = str_map unbreak body.
Proof.
  unfold stripped_body. induction body as [|a s IH]; [done|].
  cbn [letters_of map]. rewrite join_empty_cons, IH.
  unfold replace, unbreak. simpl.
  destruct (Ascii.eqb_spec a LF) as [->|]; [done|].
  destruct (Ascii.eqb a CR); done.
Qed.

Lemma str_map_length f s : String.length (str_map f s) = String.length s.
Proof. induction s; simpl; auto. Qed.

Lemma str_map_get f s k : String.get k (str_map f s) = f <$> String.get k s.
Proof.
  revert k. induction s as [|a s IH]; intros [|k]; simpl; auto.
Qed.

Lemma str_mem_map_false f c s :
  (forall a, f a <> c) -> str_mem c (str_map f s) = false.
Proof.
  intros Hf. induction s as [|a s IH]; [done|]. simpl. rewrite IH, orb_false_r.
  apply Ascii.eqb_neq, Hf.
Qed.

Lemma unbreak_not_break a : unbreak a <> LF /\ unbreak a <> CR.
Proof.
  unfold unbreak. destruct (Ascii.eqb_spec a LF), (Ascii.eqb_spec a CR);
    simpl; done.
Qed.

(** C7: the normalised body has the length of the body, holds no line feed
    and no carriage return, and has at each place the character of the body
    there, a space standing for each line feed and carriage return. *)
Theorem stripped_body_spec body :
  String.length (stripped_body body) = String.length body /\
  str_mem LF (stripped_body body) = false /\
  str_mem CR (stripped_body body) = false /\
  forall k, String.get k (stripped_body body)
            = (fun a => if bool_decide (a = LF \/ a = CR) then SP else a)
                <$> String.get k body.
Proof.
  rewrite stripped_body_map. repeat split.
  - apply str_map_length.
  - apply str_mem_map_false, unbreak_not_break.
  - apply str_mem_map_false, unbreak_not_break.
  - intros k. rewrite str_map_get. destruct (String.get k body) as [a|]; [|done].
    simpl. f_equal. unfold unbreak.
    destruct (Ascii.eqb_spec a LF), (Ascii.eqb_spec a CR); simpl;
      case_bool_decide; intuition congruence.
Qed.

Lemma remove_new_lines_rows df df' :
  _remove_new_lines_from_body df = Ok df' <->
  Forall2 (fun ir ir' => exists b, ir.2 !! "body" = Some (Str b) /\
             ir' = (ir.1, <["body" := Str (stripped_body b)]> ir.2)) df df'.
Proof.
  unfold _remove_new_lines_from_body. rewrite for_each_Ok.
  apply Forall2_equiv. intros [i r] ir'. simpl. rewrite bind_Ok. unfold getitem.
  split.
  - intros (c & Hc & H). destruct (r !! "body") as [c'|]; [|done].
    injection Hc as ->. destruct c as [|b|]; try done. injection H as <-. eauto.
  - intros (b & -> & ->). eauto.
Qed.

(** ** Hosts *)

(** The netlocs that [urlparse] gives. *)
Example urlparse_netloc_vectors :
  urlparse_netloc (fun _ => true) <$>
    ["not a url"; "n.com/x"; "https://n.com/x-y-z"; "//h/p"; " http://a.b/c";
     "1http://a/b"; "http:/a/b"; "HTTP://A.b/c"; "a:b//c/d"; "://x/y";
     "http://u:p@h:80/x?y#z"; "http://h?x/y"; "http://h#x";
     "a+b.c-d://host/p"; "http://[::1]/x"]
  = Ok <$>
    [""; ""; "n.com"; "h"; "a.b"; ""; ""; "A.b"; ""; ""; "u:p@h:80"; "h"; "h";
     "host"; "[::1]"].
Proof. reflexivity. Qed.

Example urlparse_netloc_brackets check :
  urlparse_netloc check "http://[abc/x" = Raise ValueError /\
  urlparse_netloc check "http://abc]/x" = Raise ValueError.
Proof. split; reflexivity. Qed.

Example extract_newspaper_uid_vectors :
  _extract_newspaper_uid <$> ["eluniversal_2020_01_articles.csv"; "filename"; "_a"]
  = ["eluniversal"; "filename"; ""].
Proof. reflexivity. Qed.

(** ** Title backfill *)

(** The titles that the stage fills in. *)
Example missing_title_vectors :
  (fun u => title_of_segment
              (str_extract missing_titles_pattern "missing_titles" (Str u))) <$>
    ["https://n.com/x-y-z"; "abc"; "x-y"; "a/-"; "a/--b-";
     "https://n.com/a/"; ""]
  = [Ok (Str "x y z"); Ok (Str "abc"); Ok (Str "x y"); Ok (Str " ");
     Ok (Str "  b "); Raise AttributeError; Raise AttributeError].
Proof. reflexivity. Qed.

Lemma In_run_group n r st st' :
  In st' (run (RGroup n r) st) <->
  exists m, In m (run r st) /\
    st' = MState (pos m) (rest m)
            ((n, str_take (pos m - pos st) (rest st)) :: groups m).
Proof.
  simpl. rewrite in_map_iff. split; intros (m & H1 & H2); eauto.
Qed.

Lemma at_eol_no_slash s : str_mem "/" s = true -> at_eol s = false.
Proof.
  destruct s as [|a [|b s]]; simpl; [done| |done].
  rewrite orb_false_r. by intros ->%Ascii.eqb_eq.
Qed.

Lemma missing_titles_no_match p s g :
  str_mem "/" s = true -> run missing_titles_pattern (MState p s g) = [].
Proof.
  intros Hs. destruct (run _ _) as [|x l] eqn:E; [done|]. exfalso.
  assert (In x (run missing_titles_pattern (MState p s g))) as H
    by (rewrite E; by left).
  unfold missing_titles_pattern, rseq in H. cbn [foldr] in H.
  apply In_run_seq in H as (m1 & (m & Hm & ->)%In_run_group & H).
  apply In_run_seq in H as (m2 & [Heol _]%In_run_eol & _).
  apply In_run_plus in Hm as (a & _ & Ha & Hrest & _). simpl in *.
  rewrite Hrest, str_mem_app in Hs.
  assert (str_mem "/" a = false) as Hna.
  { clear -Ha. induction a as [|c a IH]; [done|]. simpl in *.
    apply andb_prop in Ha as [Hc Ha]. rewrite (IH Ha), orb_false_r.
    by apply negb_true_iff in Hc. }
  rewrite Hna in Hs. simpl in Hs. apply at_eol_no_slash in Hs. congruence.
Qed.

Lemma str_take_all s : str_take (String.length s) s = s.
Proof. induction s; simpl; congruence. Qed.

Lemma plus_run_all k g p s :
  s <> "" -> str_forall (cset_mem k) s = true ->
  head (plus_run k g p s) = Some (MState (p + String.length s) "" g).
Proof.
  revert p. induction s as [|a s IH]; intros p Hne Hs; [done|].
  simpl in *. apply andb_prop in Hs as [-> Hs]. destruct s as [|b s].
  - simpl. do 2 f_equal. lia.
  - specialize (IH (S p) ltac:(done) Hs).
    destruct (plus_run k g (S p) (String b s)) as [|x l]; [done|].
    simpl in *. rewrite IH. do 2 f_equal. lia.
Qed.

Lemma missing_titles_match p s g :
  s <> "" -> str_mem "/" s = false ->
  head (run missing_titles_pattern (MState p s g))
  = Some (MState (p + String.length s) "" (("missing_titles", s) :: g)).
Proof.
  intros Hne Hs.
  assert (str_forall (cset_mem (CNot "/")) s = true) as Hall.
  { clear -Hs. induction s as [|c s IH]; [done|]. simpl in *.
    apply orb_false_elim in Hs as [-> Hs]. simpl. auto. }
  pose proof (plus_run_all (CNot "/") g p s Hne Hall) as H.
  unfold missing_titles_pattern, rseq. cbn [foldr run pos rest groups].
  destruct (plus_run (CNot "/") g p s) as [|x l]; [done|].
  injection H as ->. simpl.
  replace (p + String.length s - p) with (String.length s) by lia.
  by rewrite str_take_all.
Qed.

Lemma search_missing_titles p s :
  search_from missing_titles_pattern p s =
  match final_segment s with
  | Some seg =>
      Some (MState (p + String.length s) "" [("missing_titles", seg)])
  | None => None
  end.
Proof.
  revert p. induction s as [|a s IH]; intros p; [done|].
  cbn [search_from final_segment].
  destruct (str_mem "/" (String a s)) eqn:Hs.
  - rewrite missing_titles_no_match by done. simpl. rewrite IH.
    destruct (final_segment s); [|done]. do 2 f_equal. lia.
  - by rewrite missing_titles_match.
Qed.

Lemma str_extract_final_segment u :
  str_extract missing_titles_pattern "missing_titles" (Str u)
  = match final_segment u with Some seg => Str seg | None => NaN end.
Proof.
  unfold str_extract, re_search. rewrite search_missing_titles.
  by destruct (final_segment u).
Qed.

Lemma str_mem_slash_app b seg : str_mem "/" (b +:+ "/" +:+ seg) = true.
Proof. rewrite str_mem_app. simpl. apply orb_true_r. Qed.

Lemma final_segment_Some u seg :
  final_segment u = Some seg <->
  seg <> "" /\ str_mem "/" seg = false /\
  (u = seg \/ exists before, u = before +:+ "/" +:+ seg).
Proof.
  induction u as [|a u IH].
  - simpl. split; [done|]. intros (Hne & _ & [Heq|(b & Hb)]); [done|].
    destruct b; discriminate.
  - cbn [final_segment]. destruct (str_mem "/" (String a u)) eqn:Hs.
    + split.
      * intros (Hne & Hseg & Hu)%IH. split; [done|]. split; [done|]. right.
        destruct Hu as [Hu|(b & Hu)].
        -- subst u. exists "". rewrite str_app_nil_l, str_app_cons.
           simpl in Hs. rewrite Hseg, orb_false_r in Hs.
           by apply Ascii.eqb_eq in Hs as ->.
        -- exists (String a b). by rewrite str_app_cons, Hu.
      * intros (Hne & Hseg & [Heq|(b & Hb)]); [congruence|].
        apply IH. split; [done|]. split; [done|]. destruct b as [|c b].
        -- left. by injection Hb.
        -- right. exists b. by injection Hb.
    + split.
      * intros [= <-]. auto.
      * intros (Hne & Hseg & [Heq|(b & Hb)]); [congruence|].
        by rewrite Hb, str_mem_slash_app in Hs.
Qed.

Lemma split_join_hyphens s : join " " (split "-" s) = hyphens_to_spaces s.
Proof.
  induction s as [|a s IH]; [done|]. cbn [split hyphens_to_spaces str_map].
  fold (hyphens_to_spaces s). rewrite <-IH.
  destruct (Ascii.eqb a "-").
  - destruct (split "-" s) as [|w ws] eqn:E; [by destruct s|]. done.
  - destruct (split "-" s) as [|w [|w' ws]] eqn:E; [by destruct s|done..].
Qed.

(** ** The stages, row by row *)

Lemma getitem_Ok (r : gmap string cell) c v :
  getitem r c = Ok v <-> r !! c = Some v.
Proof. unfold getitem. destruct (r !! c); split; congruence. Qed.

Lemma extract_host_rows chk df df' :
  _extract_host chk df = Ok df' <->
  Forall2 (fun ir ir' => exists u h,
             ir.2 !! "url" = Some (Str u) /\ urlparse_netloc chk u = Ok h /\
             ir' = (ir.1, <["host" := Str h]> ir.2)) df df'.
Proof.
  unfold _extract_host. rewrite for_each_Ok.
  apply Forall2_equiv. intros [i r] ir'. simpl. split.
  - intros (c & Hc%getitem_Ok & (h & Hh & [= <-])%bind_Ok)%bind_Ok.
    destruct c as [|u|]; try done. eauto.
  - intros (u & h & Hu%getitem_Ok & Hh & ->).
    apply bind_Ok. exists (Str u). split; [done|].
    apply bind_Ok. eauto.
Qed.

Lemma add_missing_titles_rows df df' :
  _add_missing_titles df = Ok df' <->
  Forall2 (fun ir ir' => exists t0 url,
             ir.2 !! "title" = Some t0 /\ ir.2 !! "url" = Some url /\
             if isna t0
             then exists t,
                 title_of_segment
                   (str_extract missing_titles_pattern "missing_titles" url)
                 = Ok t /\ ir' = (ir.1, <["title" := t]> ir.2)
             else ir' = ir) df df'.
Proof.
  unfold _add_missing_titles. rewrite for_each_Ok.
  apply Forall2_equiv. intros [i r] ir'. simpl. split.
  - intros (t0 & Ht%getitem_Ok & (url & Hu%getitem_Ok & H)%bind_Ok)%bind_Ok.
    exists t0, url. split; [done|]. split; [done|].
    destruct (isna t0); [|congruence].
    apply bind_Ok in H as (t & Ht' & [= <-]). eauto.
  - intros (t0 & url & Ht%getitem_Ok & Hu%getitem_Ok & H).
    apply bind_Ok. exists t0. split; [done|].
    apply bind_Ok. exists url. split; [done|].
    destruct (isna t0); [|congruence].
    destruct H as (t & Ht' & ->). apply bind_Ok. eauto.
Qed.

Lemma generate_uids_rows df df' :
  _generate_uids_for_rows df = Ok df' <->
  df <> [] /\
  Forall2 (fun ir ir' => exists u,
             ir.2 !! "url" = Some (Str u) /\
             ir' = (Str (md5_hexdigest u), delete "uid" ir.2)) df df'.
Proof.
  unfold _generate_uids_for_rows. destruct df as [|ir0 df0].
  { split; [done|by intros [? _]]. }
  rewrite for_each_Ok.
  trans (Forall2 (fun (ir ir' : cell * gmap string cell) => exists u,
                    ir.2 !! "url" = Some (Str u) /\
                    ir' = (Str (md5_hexdigest u), delete "uid" ir.2))
                 (ir0 :: df0) df'); [|split; [by split|by intros [_ ?]]].
  apply Forall2_equiv. intros [i r] ir'. simpl. split.
  - intros (c & Hc%getitem_Ok & H)%bind_Ok.
    destruct c as [|u|]; try done. injection H as <-. eauto.
  - intros (u & Hu%getitem_Ok & ->). apply bind_Ok. eauto.
Qed.

Lemma title_of_segment_Ok u t :
  title_of_segment (str_extract missing_titles_pattern "missing_titles" (Str u))
  = Ok t <->
  exists seg, final_segment u = Some seg /\ t = Str (join " " (split "-" seg)).
Proof.
  rewrite str_extract_final_segment. destruct (final_segment u) as [seg|]; simpl.
  - split; [intros [= <-]; eauto|]. by intros (? & [= <-] & ->).
  - split; [done|]. by intros (? & ? & ?).
Qed.

Lemma rowwise_stages chk uid rows df2 df3 df4 df5 :
  _extract_host chk
    (_add_newspaper_uid_column
       (imap (fun i r => (Int (Z.of_nat i), r)) rows) uid) = Ok df2 ->
  _add_missing_titles df2 = Ok df3 ->
  _generate_uids_for_rows df3 = Ok df4 ->
  _remove_new_lines_from_body df4 = Ok df5 ->
  Forall2 (rowwise_cleaned chk uid) rows df5.
Proof.
  intros H2%extract_host_rows H3%add_missing_titles_rows
         [_ H4]%generate_uids_rows H5%remove_new_lines_rows.
  pose proof (Forall2_imap_snd (fun i r => (Int (Z.of_nat i), r)) rows
                ltac:(done)) as H0.
  pose proof (Forall2_map_fun
    (fun ir : cell * gmap string cell =>
       (ir.1, <["newspaper_uid" := Str uid]> ir.2))
    (imap (fun i r => (Int (Z.of_nat i), r)) rows)) as H1.
  pose proof (Forall2_chain _ _ _ _ _
    (Forall2_chain _ _ _ _ _
       (Forall2_chain _ _ _ _ _
          (Forall2_chain _ _ _ _ _ (Forall2_chain _ _ _ _ _ H0 H1) H2) H3)
       H4) H5) as H.
  eapply Forall2_impl; [exact H|]. clear.
  intros r0 ir5 (ir4 & (ir3 & (ir2 & (ir1 & (ir0 & Hr0 & ->) & H2) & H3) & H4)
                 & H5).
  destruct ir0 as [i0 r]. simpl in *. subst r.
  destruct H2 as (u & h & Hu & Hh & ->). simpl in *.
  destruct H3 as (t0 & url & Ht0 & Hurl & H3). simpl in *.
  rewrite lookup_insert_ne in Hu by done.
  rewrite !lookup_insert_ne in Ht0 by done.
  rewrite !lookup_insert_ne in Hurl by done.
  assert (url = Str u) as -> by congruence.
  assert (exists t,
    (if isna t0
     then exists seg, final_segment u = Some seg /\
                      t = Str (join " " (split "-" seg))
     else t = t0) /\
    ir3 = (i0, <["title" := t]>
                 (<["host" := Str h]> (<["newspaper_uid" := Str uid]> r0))))
    as (t & Ht & ->).
  { destruct (isna t0).
    - destruct H3 as (t & Hseg%title_of_segment_Ok & ->). eauto.
    - exists t0. split; [done|]. subst ir3. f_equal. symmetry.
      apply insert_id. by rewrite !lookup_insert_ne. }
  destruct H4 as (u' & Hu' & ->). simpl in *.
  rewrite !lookup_insert_ne in Hu' by done.
  assert (u' = u) as -> by congruence.
  destruct H5 as (b & Hb & ->). simpl in *.
  rewrite lookup_delete_ne, !lookup_insert_ne in Hb by done.
  exists u, h, t0, t, b. auto 10.
Qed.

(** ** Frames: duplicates, missing values, assignment of a column *)

Section keep_first.
Context {A : Type} (key : A -> cell).

Lemma keep_first_by_cons seen x l :
  keep_first_by key seen (x :: l) =
  if bool_decide (key x ∈ seen) then keep_first_by key seen l
  else x :: keep_first_by key (key x :: seen) l.
Proof. reflexivity. Qed.

Lemma keep_first_elem seen l x :
  x ∈ keep_first_by key seen l -> x ∈ l /\ key x ∉ seen.
Proof.
  revert seen. induction l as [|y l IH]; intros seen.
  { by intros ?%elem_of_nil. }
  rewrite keep_first_by_cons. case_bool_decide as Hy.
  - intros [? ?]%IH. split; [by right|done].
  - intros [->|[? Hx]%IH]%elem_of_cons; [split; [by left|done]|].
    apply not_elem_of_cons in Hx as [? ?]. split; [by right|done].
Qed.

Lemma keep_first_NoDup seen l : NoDup (key <$> keep_first_by key seen l).
Proof.
  revert seen. induction l as [|y l IH]; intros seen; [constructor|].
  rewrite keep_first_by_cons. case_bool_decide as Hy; [apply IH|].
  rewrite fmap_cons. apply NoDup_cons. split; [|apply IH].
  intros (x & Hk & [_ Hx]%keep_first_elem)%list_elem_of_fmap.
  apply Hx. rewrite <-Hk. by left.
Qed.

Lemma keep_first_sublist seen l : keep_first_by key seen l `sublist_of` l.
Proof.
  revert seen. induction l as [|y l IH]; intros seen; [constructor|].
  rewrite keep_first_by_cons. case_bool_decide.
  - by apply sublist_cons.
  - by apply sublist_skip.
Qed.

Lemma keep_first_is_first seen l x :
  x ∈ keep_first_by key seen l ->
  List.find (fun y => bool_decide (key y = key x)) l = Some x.
Proof.
  revert seen. induction l as [|y l IH]; intros seen.
  { by intros ?%elem_of_nil. }
  rewrite keep_first_by_cons. simpl. case_bool_decide as Hy.
  - intros Hx. destruct (keep_first_elem _ _ _ Hx) as [_ Hn].
    rewrite bool_decide_false by congruence. by eapply IH.
  - intros [->|Hx]%elem_of_cons.
    + by rewrite bool_decide_true.
    + destruct (keep_first_elem _ _ _ Hx) as [_ [Hn _]%not_elem_of_cons].
      rewrite bool_decide_false by congruence. by eapply IH.
Qed.

Lemma first_is_kept seen l x :
  List.find (fun y => bool_decide (key y = key x)) l = Some x ->
  key x ∉ seen -> x ∈ keep_first_by key seen l.
Proof.
  revert seen. induction l as [|y l IH]; intros seen; [done|].
  rewrite keep_first_by_cons. simpl. case_bool_decide as Hk.
  - intros [= ->] Hn. rewrite bool_decide_false by done. by left.
  - intros Hf Hn. case_bool_decide.
    + by apply IH.
    + right. apply IH; [done|]. apply not_elem_of_cons. split; congruence.
Qed.

End keep_first.

Lemma drop_duplicates_Ok column df out :
  drop_duplicates column df = Ok out ->
  Forall (fun ir => is_Some (ir.2 !! column)) df /\
  out = keep_first_by (fun ir => default NaN (ir.2 !! column)) [] df.
Proof.
  unfold drop_duplicates.
  intros (keys & Hk%for_each_Ok & [= <-])%bind_Ok.
  assert (Forall (fun ir : cell * gmap string cell => is_Some (ir.2 !! column))
                 df /\
          keys = (fun ir : cell * gmap string cell =>
                    default NaN (ir.2 !! column)) <$> df) as [? ->]; [|done].
  induction Hk as [|ir k df keys Hk%getitem_Ok _ [IH1 IH2]]; [done|].
  split; [constructor; [by rewrite Hk|done]|].
  rewrite fmap_cons, Hk, <-IH2. done.
Qed.

Lemma dropna_elem df x : x ∈ dropna df <-> complete x.2 /\ x ∈ df.
Proof. unfold dropna. by rewrite list_elem_of_filter. Qed.

Lemma dropna_sublist df : dropna df `sublist_of` df.
Proof. apply sublist_filter. Qed.

Lemma zip_with_Forall2 {A B C} (f : A -> B -> C) (l : list A) (k : list B) :
  length l = length k ->
  Forall2 (fun x z => exists y, y ∈ k /\ z = f x y) l (zip_with f l k).
Proof.
  revert k. induction l as [|x l IH]; intros [|y k] Hlen; simpl in *;
    try done.
  constructor.
  - exists y. split; [by left|done].
  - eapply Forall2_impl; [apply IH; lia|].
    intros a c (b & Hb & ->). exists b. split; [by right|done].
Qed.

Lemma at_label_elem i (s : series) v :
  at_label i s = Some v -> exists iv, iv ∈ s /\ v = iv.2.
Proof.
  unfold at_label. destruct (List.find _ s) as [iv|] eqn:E; [|done].
  intros [= <-]. apply find_some in E as [Hin _].
  exists iv. by rewrite list_elem_of_In.
Qed.

Lemma setitem_rows column s df df' :
  setitem column s df = Ok df' ->
  Forall2 (fun ir ir' => exists v,
             (v = NaN \/ exists iv, iv ∈ s /\ v = iv.2) /\
             ir' = (ir.1, <[column := v]> ir.2)) df df'.
Proof.
  unfold setitem. case_bool_decide as Hidx.
  - intros [= <-]. eapply Forall2_impl.
    + apply zip_with_Forall2.
      by rewrite <-(length_fmap fst df), <-Hidx, length_fmap.
    + intros ir ir' (iv & Hiv & ->). exists iv.2. eauto.
  - case_bool_decide; [|done]. intros [= <-].
    eapply Forall2_impl; [apply Forall2_map_fun|].
    intros ir ir' ->. eexists. split; [|done].
    destruct (at_label ir.1 s) as [v|] eqn:E; simpl; [|by left].
    right. by apply at_label_elem in E.
Qed.

Lemma count_tokens_nonneg tok stop text : (0 <= count_tokens tok stop text)%Z.
Proof. unfold count_tokens. lia. Qed.

Lemma token_size_column_Ok tok stop df column s :
  _token_size_column tok stop df column = Ok s <->
  dropna df <> [] /\
  Forall2 (fun ir iv => exists text,
             ir.2 !! column = Some (Str text) /\
             iv = (ir.1, Int (count_tokens tok stop text))) (dropna df) s.
Proof.
  unfold _token_size_column. destruct (dropna df) as [|ir0 d0].
  { split; [done|by intros [? _]]. }
  rewrite for_each_Ok.
  trans (Forall2 (fun (ir : cell * gmap string cell) (iv : cell * cell) =>
                    exists text,
                      ir.2 !! column = Some (Str text) /\
                      iv = (ir.1, Int (count_tokens tok stop text)))
                 (ir0 :: d0) s); [|split; [by split|by intros [_ ?]]].
  apply Forall2_equiv. intros [i r] iv. simpl. split.
  - intros (c & Hc%getitem_Ok & H)%bind_Ok.
    destruct c as [|text|]; try done. injection H as <-. eauto.
  - intros (text & Hc%getitem_Ok & ->). apply bind_Ok. eauto.
Qed.

Lemma token_size_column_cells tok stop df column s iv :
  _token_size_column tok stop df column = Ok s -> iv ∈ s ->
  exists n, iv.2 = Int n /\ (0 <= n)%Z.
Proof.
  intros [_ H]%token_size_column_Ok Hiv.
  induction H as [|ir iv' l k (text & _ & ->) _ IH].
  { by apply elem_of_nil in Hiv. }
  apply elem_of_cons in Hiv as [->|Hiv]; [|by apply IH].
  eexists. split; [done|]. apply count_tokens_nonneg.
Qed.

Lemma setitem_token_column tok stop df0 name column s df df' :
  _token_size_column tok stop df0 name = Ok s ->
  setitem column s df = Ok df' ->
  Forall2 (fun ir ir' => exists v,
             token_cell v /\ ir' = (ir.1, <[column := v]> ir.2)) df df'.
Proof.
  intros Hs Hset%setitem_rows. eapply Forall2_impl; [exact Hset|].
  intros ir ir' (v & Hv & ->). exists v. split; [|done].
  destruct Hv as [->|(iv & Hiv & ->)]; [by left|right].
  by eapply token_size_column_cells.
Qed.

(** ** The pipeline as a whole *)

Lemma staged_frame_Ok tok stop chk filename fs df :
  staged_frame tok stop chk filename fs = Ok df ->
  exists rows,
    fs !! filename = Some rows /\
    Forall2 (staged chk (_extract_newspaper_uid filename)) rows df.
Proof.
  unfold staged_frame, _read_data.
  destruct (fs !! filename) as [rows|]; [|done]. simpl.
  intros (df2 & H2 & (df3 & H3 & (df4 & H4 & (df5 & H5 & (s1 & Hs1 &
    (df6 & H6 & (s2 & Hs2 & H7)%bind_Ok)%bind_Ok)%bind_Ok)%bind_Ok)%bind_Ok)
    %bind_Ok)%bind_Ok.
  exists rows. split; [done|].
  pose proof (rowwise_stages _ _ _ _ _ _ _ H2 H3 H4 H5) as Hrows.
  pose proof (setitem_token_column _ _ _ _ _ _ _ _ Hs1 H6) as H6'.
  pose proof (setitem_token_column _ _ _ _ _ _ _ _ Hs2 H7) as H7'.
  eapply Forall2_impl;
    [exact (Forall2_chain _ _ _ _ _ (Forall2_chain _ _ _ _ _ Hrows H6') H7')|].
  intros r0 ir7 (ir6 & (ir5 & Hr & (v1 & Hv1 & ->)) & (v2 & Hv2 & ->)).
  exists ir5, v1, v2. done.
Qed.

Lemma clean_Ok tok stop chk filename fs out :
  clean tok stop chk filename fs = Ok out ->
  exists rows df,
    fs !! filename = Some rows /\
    Forall2 (staged chk (_extract_newspaper_uid filename)) rows df /\
    out = dropna (keep_first_by (fun ir => default NaN (ir.2 !! "title")) [] df).
Proof.
  unfold clean.
  intros (df & (rows & Hfs & Hst)%staged_frame_Ok
          & (df' & [_ ->]%drop_duplicates_Ok & [= <-])%bind_Ok)%bind_Ok.
  by exists rows, df.
Qed.

Lemma main_Ok tok stop chk wr filename fs out fs' :
  main tok stop chk wr filename fs = (Ok out, fs') <->
  clean tok stop chk filename fs = Ok out /\
  wr (clean_file filename) = true /\
  fs' = <[clean_file filename := (fun ir => <["uid" := ir.1]> ir.2) <$> out]> fs.
Proof.
  unfold main, _save_data. fold (clean_file filename).
  destruct (clean tok stop chk filename fs);
    destruct (wr (clean_file filename)); split; try done.
  - by intros [= -> <-].
  - by intros ([= ->] & _ & ->).
  - by intros (_ & ? & _).
  - by intros (? & _).
  - by intros (? & _).
Qed.

Lemma Forall2_elem_r {A B} (R : A -> B -> Prop) l k y :
  Forall2 R l k -> y ∈ k -> exists x, x ∈ l /\ R x y.
Proof.
  induction 1 as [|x y' l k HR _ IH]; [by intros ?%elem_of_nil|].
  intros [->|Hy]%elem_of_cons.
  - exists x. split; [by left|done].
  - destruct (IH Hy) as (x' & ? & ?). exists x'. split; [by right|done].
Qed.

Lemma find_ext_elem {A} (f g : A -> bool) l :
  (forall x, x ∈ l -> f x = g x) -> List.find f l = List.find g l.
Proof.
  induction l as [|x l IH]; intros H; [done|]. simpl.
  rewrite (H x) by by left. destruct (g x); [done|].
  apply IH. intros y Hy. apply H. by right.
Qed.

Lemma find_elem {A} (f : A -> bool) l x : List.find f l = Some x -> x ∈ l.
Proof. intros [? _]%find_some. by apply list_elem_of_In. Qed.

Lemma hyphens_to_spaces_nonempty s : s <> "" -> hyphens_to_spaces s <> "".
Proof. by destruct s. Qed.

Lemma stripped_body_nonempty b : b <> "" -> stripped_body b <> "".
Proof. rewrite stripped_body_map. by destruct b. Qed.

Lemma text_table_cell rows r c v :
  text_table rows -> r ∈ rows -> r !! c = Some v ->
  v = NaN \/ exists s, v = Str s /\ s <> "".
Proof.
  intros Ht Hr Hv. unfold text_table in Ht. rewrite Forall_forall in Ht.
  specialize (Ht r Hr c v Hv). destruct v as [|s|]; simpl in Ht; [by left| |done].
  right. exists s. split; [done|].
  by apply String.eqb_neq, negb_true_iff.
Qed.

(** The cells of a staged row. *)
Lemma staged_cells chk uid r0 ir :
  staged chk uid r0 ir ->
  exists u h t0 t b v1 v2,
    r0 !! "url" = Some (Str u) /\ urlparse_netloc chk u = Ok h /\
    r0 !! "title" = Some t0 /\ r0 !! "body" = Some (Str b) /\
    (if isna t0
     then exists seg, final_segment u = Some seg /\
                      t = Str (join " " (split "-" seg))
     else t = t0) /\
    token_cell v1 /\ token_cell v2 /\
    ir.1 = Str (md5_hexdigest u) /\
    ir.2 !! "url" = Some (Str u) /\ ir.2 !! "host" = Some (Str h) /\
    ir.2 !! "title" = Some t /\
    ir.2 !! "body" = Some (Str (stripped_body b)) /\
    ir.2 !! "newspaper_uid" = Some (Str uid) /\
    ir.2 !! "n_tokens_title" = Some v1 /\ ir.2 !! "n_tokens_body" = Some v2.
Proof.
  intros (ir5 & v1 & v2 & (u & h & t0 & t & b & Hu & Hh & Ht0 & Ht & Hb & ->)
          & Hv1 & Hv2 & ->).
  exists u, h, t0, t, b, v1, v2. simpl.
  repeat (split; [done|]).
  repeat split; by simplify_map_eq.
Qed.

Lemma staged_same_article chk uid r0 ir :
  staged chk uid r0 ir -> same_article r0 ir.
Proof.
  intros (u & h & t0 & t & b & v1 & v2 & Hu & _ & Ht0 & _ & Ht & _ & _ & _
          & Hu' & _ & Ht' & _)%staged_cells.
  split; [congruence|]. intros t1 Ht1 Hn. rewrite Ht0 in Ht1.
  injection Ht1 as ->. destruct t1; simpl in Ht; congruence.
Qed.

(** C1 (as amended): in every cleaned frame made from a table of text
    columns, each row has a title and a body that are present and not empty,
    a host that is present (it may be the empty text), and the two token
    counts present and not negative. *)
Theorem cleaned_rows_complete tok stop chk wr filename fs rows out fs' :
  fs !! filename = Some rows -> text_table rows ->
  main tok stop chk wr filename fs = (Ok out, fs') ->
  forall x, x ∈ out ->
    exists title body host n_title n_body,
      x.2 !! "title" = Some (Str title) /\ title <> "" /\
      x.2 !! "body" = Some (Str body) /\ body <> "" /\
      x.2 !! "host" = Some (Str host) /\
      x.2 !! "n_tokens_title" = Some (Int n_title) /\ (0 <= n_title)%Z /\
      x.2 !! "n_tokens_body" = Some (Int n_body) /\ (0 <= n_body)%Z.
Proof.
  intros Hfs Htext [(rows' & df & Hfs' & Hst & ->)%clean_Ok _]%main_Ok x
         [Hc [Hx _]%keep_first_elem]%dropna_elem.
  assert (rows' = rows) as -> by congruence.
  destruct (Forall2_elem_r _ _ _ _ Hst Hx) as (r0 & Hr0 & Hs).
  apply staged_cells in Hs
    as (u & h & t0 & t & b & v1 & v2 & Hu & Hh & Ht0 & Hb & Ht & Hv1 & Hv2
        & _ & _ & Hhost & Htitle & Hbody & _ & Hn1 & Hn2).
  assert (exists title, t = Str title /\ title <> "") as (title & -> & ?).
  { destruct t0; simpl in Ht.
    - destruct Ht as (seg & (Hne & _)%final_segment_Some & ->).
      eexists. split; [done|]. rewrite split_join_hyphens.
      by apply hyphens_to_spaces_nonempty.
    - subst t.
      destruct (text_table_cell _ _ _ _ Htext Hr0 Ht0) as [|(tx & [= ->] & ?)];
        eauto.
    - subst t.
      by destruct (text_table_cell _ _ _ _ Htext Hr0 Ht0) as [|(tx & ? & ?)]. }
  assert (b <> "").
  { by destruct (text_table_cell _ _ _ _ Htext Hr0 Hb) as [|(tx & [= ->] & ?)]. }
  destruct Hv1 as [->|(n1 & -> & ?)]; [by destruct (Hc _ _ Hn1)|].
  destruct Hv2 as [->|(n2 & -> & ?)]; [by destruct (Hc _ _ Hn2)|].
  exists title, (stripped_body b), h, n1, n2.
  auto 12 using stripped_body_nonempty.
Qed.

Lemma cleaned_rows_complete_witness :
  Forall (fun x =>
    exists title body host n_title n_body,
      x.2 !! "title" = Some (Str title) /\ title <> "" /\
      x.2 !! "body" = Some (Str body) /\ body <> "" /\
      x.2 !! "host" = Some (Str host) /\
      x.2 !! "n_tokens_title" = Some (Int n_title) /\ (0 <= n_title)%Z /\
      x.2 !! "n_tokens_body" = Some (Int n_body) /\ (0 <= n_body)%Z)
    scenario_output.
Proof.
  apply Forall_forall.
  apply (cleaned_rows_complete plain_tokenize plain_stop_words
           (fun _ => true) flat_directory
           "n_2020_articles.csv" scenario scenario_rows scenario_output
           (plain_main "n_2020_articles.csv" scenario).2).
  - reflexivity.
  - unfold text_table. apply (bool_decide_unpack _). by vm_compute.
  - reflexivity.
Defined.

(** C1, as stated, fails on a url without authority: its host is the empty
    text, which is no missing value, and the row is in the cleaned frame. *)
Lemma empty_host_row_kept :
  urlparse_netloc (fun _ => true) "n.com/x" = Ok "" /\
  column "host" <$> (plain_main "n_2020_articles.csv" hostless_table).1
  = Ok [Some (Str "")].
Proof. split; reflexivity. Qed.

Lemma staged_title_key chk uid rows df x :
  Forall2 (staged chk uid) rows df -> x ∈ df ->
  title_of x = Some (default NaN (x.2 !! "title")).
Proof.
  intros Hst Hx. destruct (Forall2_elem_r _ _ _ _ Hst Hx) as (r0 & _ & Hs).
  apply staged_cells in Hs
    as (u & h & t0 & t & b & v1 & v2 & _ & _ & _ & _ & _ & _ & _ & _ & _ & _
        & Ht & _).
  unfold title_of. by rewrite Ht.
Qed.

Lemma first_with_title_key chk uid rows df x :
  Forall2 (staged chk uid) rows df -> x ∈ df ->
  first_with_title x df =
  List.find (fun y => bool_decide (default NaN (y.2 !! "title")
                                   = default NaN (x.2 !! "title"))) df.
Proof.
  intros Hst Hx. apply find_ext_elem. intros y Hy.
  rewrite (staged_title_key _ _ _ _ _ Hst Hx),
    (staged_title_key _ _ _ _ _ Hst Hy).
  apply bool_decide_ext. split; congruence.
Qed.

(** C2 (as amended): in every cleaned frame no two rows have the same
    title.  The staged rows [df] stand for the rows of the file, one for
    one and in their order; the cleaned frame is a subsequence of them, and
    its rows are exactly the staged rows that are the first with their title
    and have no missing value. *)
Theorem duplicate_titles_removed tok stop chk wr filename fs rows out fs' :
  fs !! filename = Some rows ->
  main tok stop chk wr filename fs = (Ok out, fs') ->
  NoDup (title_of <$> out) /\
  exists df,
    Forall2 same_article rows df /\
    out `sublist_of` df /\
    (forall x, x ∈ out <-> first_with_title x df = Some x /\ complete x.2).
Proof.
  intros Hfs [(rows' & df & Hfs' & Hst & ->)%clean_Ok _]%main_Ok.
  assert (rows' = rows) as -> by congruence.
  set (key := fun ir : cell * gmap string cell => default NaN (ir.2 !! "title")).
  split.
  { apply (NoDup_fmap_1 (default NaN)). rewrite <-list_fmap_compose.
    eapply sublist_NoDup; [apply (keep_first_NoDup key [] df)|].
    apply fmap_sublist, dropna_sublist. }
  exists df. split; [|split; [|split]].
  - eapply Forall2_impl; [exact Hst|]. apply staged_same_article.
  - etrans; [apply dropna_sublist|apply keep_first_sublist].
  - intros [Hc Hx]%dropna_elem. split; [|done].
    destruct (keep_first_elem _ _ _ _ Hx) as [Hdf _].
    rewrite (first_with_title_key _ _ _ _ _ Hst Hdf).
    by apply (keep_first_is_first key [] df).
  - intros [Hf Hc]. pose proof (find_elem _ _ _ Hf) as Hdf.
    rewrite (first_with_title_key _ _ _ _ _ Hst Hdf) in Hf.
    apply dropna_elem. split; [done|].
    apply (first_is_kept key); [done|]. by intros ?%elem_of_nil.
Qed.

Lemma duplicate_titles_removed_witness :
  NoDup (title_of <$> scenario_output) /\
  exists df,
    Forall2 same_article scenario_rows df /\
    scenario_output `sublist_of` df /\
    (forall x, x ∈ scenario_output <->
               first_with_title x df = Some x /\ complete x.2).
Proof.
  apply (duplicate_titles_removed plain_tokenize plain_stop_words
           (fun _ => true) flat_directory "n_2020_articles.csv" scenario scenario_rows
           scenario_output (plain_main "n_2020_articles.csv" scenario).2);
    reflexivity.
Defined.

(** C2, as stated, fails when the first row of a title has a missing value
    in a further column: the second row is dropped as a duplicate, then the
    first as incomplete, and no row of that title is left. *)
Lemma first_of_title_lost :
  column "title" <$> _read_data bylined_table "n_2020_articles.csv"
    = Ok [Some (Str "T1"); Some (Str "T1")] /\
  (plain_main "n_2020_articles.csv" bylined_table).1 = Ok [].
Proof. split; reflexivity. Qed.

Lemma cleaned_row_label tok stop chk filename fs out x :
  clean tok stop chk filename fs = Ok out -> x ∈ out ->
  exists u, x.2 !! "url" = Some (Str u) /\ x.1 = Str (md5_hexdigest u).
Proof.
  intros (rows & df & _ & Hst & ->)%clean_Ok
         [_ [Hx _]%keep_first_elem]%dropna_elem.
  destruct (Forall2_elem_r _ _ _ _ Hst Hx) as (r0 & _ & Hs).
  apply staged_cells in Hs
    as (u & h & t0 & t & b & v1 & v2 & _ & _ & _ & _ & _ & _ & _ & Hi & Hu & _).
  eauto.
Qed.

(** Two runs, on any files and with any tokenizer, give rows of one url the
    same uid. *)
Corollary uid_same_across_runs
    tok1 stop1 chk1 wr1 filename1 fs1 out1 fs1'
    tok2 stop2 chk2 wr2 filename2 fs2 out2 fs2' x1 x2 :
  main tok1 stop1 chk1 wr1 filename1 fs1 = (Ok out1, fs1') ->
  main tok2 stop2 chk2 wr2 filename2 fs2 = (Ok out2, fs2') ->
  x1 ∈ out1 -> x2 ∈ out2 -> x1.2 !! "url" = x2.2 !! "url" -> x1.1 = x2.1.
Proof.
  intros [H1 _]%main_Ok [H2 _]%main_Ok Hx1 Hx2 Hurl.
  destruct (cleaned_row_label _ _ _ _ _ _ _ H1 Hx1) as (u1 & Hu1 & ->).
  destruct (cleaned_row_label _ _ _ _ _ _ _ H2 Hx2) as (u2 & Hu2 & ->).
  congruence.
Qed.

(** C5: the label of every row of the cleaned frame is the MD5 digest, in
    hexadecimal, of the bytes of the url of that row, which is the url of a
    row of the file: it is a function of the url alone. *)
Theorem uid_is_digest_of_url tok stop chk wr filename fs rows out fs' :
  fs !! filename = Some rows ->
  main tok stop chk wr filename fs = (Ok out, fs') ->
  forall x, x ∈ out ->
    exists r0 u,
      r0 ∈ rows /\ r0 !! "url" = Some (Str u) /\
      x.2 !! "url" = Some (Str u) /\ x.1 = Str (md5_hexdigest u).
Proof.
  intros Hfs [(rows' & df & Hfs' & Hst & ->)%clean_Ok _]%main_Ok x
         [_ [Hx _]%keep_first_elem]%dropna_elem.
  assert (rows' = rows) as -> by congruence.
  destruct (Forall2_elem_r _ _ _ _ Hst Hx) as (r0 & Hr0 & Hs).
  apply staged_cells in Hs
    as (u & h & t0 & t & b & v1 & v2 & Hu & _ & _ & _ & _ & _ & _ & Hi & Hu'
        & _).
  eauto 10.
Qed.

Lemma uid_is_digest_of_url_witness :
  Forall (fun x =>
    exists r0 u,
      r0 ∈ scenario_rows /\ r0 !! "url" = Some (Str u) /\
      x.2 !! "url" = Some (Str u) /\ x.1 = Str (md5_hexdigest u))
    scenario_output.
Proof.
  apply Forall_forall.
  apply (uid_is_digest_of_url plain_tokenize plain_stop_words
           (fun _ => true) flat_directory
           "n_2020_articles.csv" scenario scenario_rows scenario_output
           (plain_main "n_2020_articles.csv" scenario).2);
    reflexivity.
Defined.

(** ** When the pipeline completes *)

Lemma for_each_total {A B} (f : A -> result B) (P : A -> Prop)
    (Q : B -> Prop) l :
  (forall x, P x -> exists y, f x = Ok y /\ Q y) -> Forall P l ->
  exists l', for_each f l = Ok l' /\ Forall Q l'.
Proof.
  intros Hf. induction 1 as [|x l Hx _ (l' & Hl' & HQ)].
  - exists []. by split; [|constructor].
  - destruct (Hf x Hx) as (y & Hy & ?). exists (y :: l'). simpl.
    rewrite Hy. simpl. rewrite Hl'. split; [done|]. by constructor.
Qed.

Lemma dropna_all df : Forall (fun ir => complete ir.2) df -> dropna df = df.
Proof.
  unfold dropna. induction 1 as [|ir df Hc _ IH]; [done|].
  by rewrite filter_cons_True, IH.
Qed.

Lemma filter_same_length {A} (P : A -> Prop) `{!forall x, Decision (P x)}
    (l : list A) :
  length (filter P l) = length l -> filter P l = l.
Proof.
  induction l as [|x l IH]; [done|]. rewrite filter_cons.
  destruct (decide (P x)); simpl.
  - intros [= Hl]. by rewrite IH.
  - intros Hl. pose proof (length_filter P l). lia.
Qed.

Lemma Forall2_elem_l {A B} (R : A -> B -> Prop) l k x :
  Forall2 R l k -> x ∈ l -> exists y, y ∈ k /\ R x y.
Proof.
  intros H [i Hi]%list_elem_of_lookup.
  destruct (Forall2_lookup_l _ _ _ _ _ H Hi) as (y & Hy & ?).
  exists y. split; [|done]. by eapply list_elem_of_lookup_2.
Qed.

Lemma at_label_NoDup (s : series) iv :
  NoDup s.*1 -> iv ∈ s -> at_label iv.1 s = Some iv.2.
Proof.
  unfold at_label. induction s as [|iv0 s IH]; simpl.
  - by intros _ ?%elem_of_nil.
  - rewrite NoDup_cons. intros [Hn Hs] Hin. case_bool_decide as Heq; simpl.
    + apply elem_of_cons in Hin as [->|Hin]; [done|].
      destruct Hn. rewrite Heq. by apply list_elem_of_fmap_2.
    + apply elem_of_cons in Hin as [->|Hin]; [done|]. by apply IH.
Qed.

(** The column that [df[column] = _token_size_column(df, name)] sets: on a
    row without missing value, the count of the text of the row itself. *)
Lemma setitem_token_count tok stop df name column s df' :
  _token_size_column tok stop df name = Ok s ->
  setitem column s df = Ok df' ->
  Forall2 (fun ir ir' => exists v,
             ir' = (ir.1, <[column := v]> ir.2) /\
             (complete ir.2 ->
              exists text, ir.2 !! name = Some (Str text) /\
                           v = Int (count_tokens tok stop text))) df df'.
Proof.
  intros [_ Hs]%token_size_column_Ok. unfold setitem.
  assert (s.*1 = (dropna df).*1) as Hlabels.
  { clear -Hs. induction Hs as [|ir iv l k (text & _ & ->) _ IH]; [done|].
    rewrite !fmap_cons. simpl. by f_equal. }
  case_bool_decide as Hidx.
  - intros [= <-].
    assert (dropna df = df) as Hall.
    { apply filter_same_length. fold (dropna df).
      rewrite <-(length_fmap fst (dropna df)), <-Hlabels, Hidx.
      apply length_fmap. }
    rewrite Hall in Hs. clear -Hs.
    induction Hs as [|ir iv l k (text & Ht & ->) _ IH]; simpl; constructor;
      [|done].
    eexists. split; [done|]. intros _. eauto.
  - case_bool_decide as Hnd; [|done]. intros [= <-].
    apply Forall2_fmap_r, Forall_Forall2_diag, Forall_forall.
    intros ir Hir. simpl. eexists. split; [done|]. intros Hc.
    assert (ir ∈ dropna df) as Hin by by apply dropna_elem.
    destruct (Forall2_elem_l _ _ _ _ Hs Hin) as (iv & Hiv & text & Ht & ->).
    exists text. split; [done|].
    pose proof (at_label_NoDup s _ Hnd Hiv) as Hl. simpl in Hl.
    by rewrite Hl.
Qed.

Lemma rowwise_cleaned_other chk uid r0 ir5 c :
  rowwise_cleaned chk uid r0 ir5 ->
  c ∉ ["title"; "body"; "host"; "newspaper_uid"; "uid"] ->
  ir5.2 !! c = r0 !! c.
Proof.
  intros (u & h & t0 & t & b & _ & _ & _ & _ & _ & ->) Hc.
  rewrite !not_elem_of_cons in Hc.
  destruct Hc as (? & ? & ? & ? & ? & _). simpl.
  by rewrite !lookup_insert_ne, lookup_delete_ne, !lookup_insert_ne.
Qed.

Lemma staged_frame_counts tok stop chk filename fs rows df :
  fs !! filename = Some rows ->
  staged_frame tok stop chk filename fs = Ok df ->
  Forall2 (fun r0 ir => exists ir5 v1 v2,
             rowwise_cleaned chk (_extract_newspaper_uid filename) r0 ir5 /\
             ir = (ir5.1,
                   <["n_tokens_body" := v2]> (<["n_tokens_title" := v1]> ir5.2))
             /\
             (complete ir5.2 ->
              exists text, ir5.2 !! "title" = Some (Str text) /\
                           v1 = Int (count_tokens tok stop text)) /\
             (complete (<["n_tokens_title" := v1]> ir5.2) ->
              exists text, ir5.2 !! "body" = Some (Str text) /\
                           v2 = Int (count_tokens tok stop text))) rows df.
Proof.
  unfold staged_frame, _read_data. intros ->. simpl.
  intros (df2 & H2 & (df3 & H3 & (df4 & H4 & (df5 & H5 & (s1 & Hs1 &
    (df6 & H6 & (s2 & Hs2 & H7)%bind_Ok)%bind_Ok)%bind_Ok)%bind_Ok)%bind_Ok)
    %bind_Ok)%bind_Ok.
  pose proof (rowwise_stages _ _ _ _ _ _ _ H2 H3 H4 H5) as Hrows.
  pose proof (setitem_token_count _ _ _ _ _ _ _ Hs1 H6) as H6'.
  pose proof (setitem_token_count _ _ _ _ _ _ _ Hs2 H7) as H7'.
  eapply Forall2_impl;
    [exact (Forall2_chain _ _ _ _ _ (Forall2_chain _ _ _ _ _ Hrows H6') H7')|].
  intros r0 ir7 (ir6 & (ir5 & Hr & (v1 & -> & Hv1)) & (v2 & -> & Hv2)).
  exists ir5, v1, v2. simpl in *. repeat split; [done..|].
  intros Hc. destruct (Hv2 Hc) as (text & Ht & ->).
  rewrite lookup_insert_ne in Ht by done. eauto.
Qed.

Lemma for_each_length {A B} (f : A -> result B) l l' :
  for_each f l = Ok l' -> length l' = length l.
Proof. intros H%for_each_Ok. symmetry. by eapply Forall2_length. Qed.

Lemma Forall2_and_l {A B} (P : A -> Prop) (R : A -> B -> Prop) l k :
  Forall P l -> Forall2 R l k -> Forall2 (fun x y => P x /\ R x y) l k.
Proof.
  intros HP HR. induction HR as [|x y l k ? _ IH]; [constructor|].
  apply Forall_cons in HP as [? ?]. constructor; [done|by apply IH].
Qed.

Lemma Forall2_and_r {A B} (Q : B -> Prop) (R : A -> B -> Prop) l k :
  Forall Q k -> Forall2 R l k -> Forall2 (fun x y => Q y /\ R x y) l k.
Proof.
  intros HQ HR. induction HR as [|x y l k ? _ IH]; [constructor|].
  apply Forall_cons in HQ as [? ?]. constructor; [done|by apply IH].
Qed.

(** *** The stages that go row by row *)

Lemma workable_insert chk r c v :
  workable chk r -> c <> "url" -> c <> "title" -> c <> "body" ->
  workable chk (<[c := v]> r).
Proof.
  intros ((u & h & Hu & Hh & Ht) & (b & Hb)) ? ? ?. split.
  - exists u, h. rewrite !lookup_insert_ne by done. done.
  - exists b. by rewrite lookup_insert_ne.
Qed.

Lemma extract_host_runs chk df :
  Forall (fun ir => workable chk ir.2) df ->
  exists df', _extract_host chk df = Ok df' /\
              Forall (fun ir => workable chk ir.2) df'.
Proof.
  unfold _extract_host.
  apply (for_each_total _ (fun ir => workable chk ir.2)). intros ir H.
  destruct H as ((u & h & Hu & Hh & Ht) & Hb).
  exists (ir.1, <["host" := Str h]> ir.2). split.
  - unfold getitem. rewrite Hu. simpl. by rewrite Hh.
  - simpl. apply workable_insert; try done. by split; [eauto|].
Qed.

Lemma add_missing_titles_runs chk df :
  Forall (fun ir => workable chk ir.2) df ->
  exists df', _add_missing_titles df = Ok df' /\
              Forall (fun ir => textual ir.2) df'.
Proof.
  unfold _add_missing_titles.
  apply (for_each_total _ (fun ir => workable chk ir.2)). intros ir H.
  destruct H as ((u & h & Hu & Hh & Ht) & (b & Hb)).
  unfold getitem. rewrite Hu.
  destruct Ht as [(t & Ht)|(Ht & seg & Hseg)]; rewrite Ht.
  - simpl. exists ir. split; [done|]. repeat split; eauto.
  - cbn [isna mbind result_bind].
    rewrite (proj2 (title_of_segment_Ok u _)
               (ex_intro _ seg (conj Hseg eq_refl))).
    eexists. split; [done|]. simpl.
    repeat split; eexists; by simplify_map_eq.
Qed.

Lemma generate_uids_runs df :
  df <> [] -> Forall (fun ir => textual ir.2) df ->
  exists df', _generate_uids_for_rows df = Ok df' /\
              Forall (fun ir => textual ir.2) df'.
Proof.
  intros Hne Hdf. unfold _generate_uids_for_rows.
  destruct df as [|ir0 df0] eqn:E; [done|]. rewrite <-E in *. clear E Hne.
  revert Hdf.
  apply (for_each_total _ (fun ir => textual ir.2)). intros ir H.
  pose proof H as ((u & Hu) & (t & Ht) & (b & Hb)).
  unfold getitem. rewrite Hu. simpl.
  eexists. split; [done|]. simpl.
  repeat split; eexists; by rewrite lookup_delete_ne.
Qed.

Lemma remove_new_lines_runs df :
  Forall (fun ir => textual ir.2) df ->
  exists df', _remove_new_lines_from_body df = Ok df' /\
              Forall (fun ir => textual ir.2) df'.
Proof.
  unfold _remove_new_lines_from_body.
  apply (for_each_total _ (fun ir => textual ir.2)). intros ir H.
  pose proof H as ((u & Hu) & (t & Ht) & (b & Hb)).
  unfold getitem. rewrite Hb. simpl.
  eexists. split; [done|]. simpl.
  repeat split; eexists; by simplify_map_eq.
Qed.

Lemma rowwise_runs chk uid rows :
  rows <> [] -> Forall (workable chk) rows ->
  exists df2 df3 df4 df5,
    _extract_host chk
      (_add_newspaper_uid_column
         (imap (fun i r => (Int (Z.of_nat i), r)) rows) uid) = Ok df2 /\
    _add_missing_titles df2 = Ok df3 /\
    _generate_uids_for_rows df3 = Ok df4 /\
    _remove_new_lines_from_body df4 = Ok df5 /\
    Forall (fun ir => textual ir.2) df5.
Proof.
  intros Hne Hrows.
  assert (Forall (fun ir => workable chk ir.2)
            (_add_newspaper_uid_column
               (imap (fun i r => (Int (Z.of_nat i), r)) rows) uid)) as H1.
  { apply Forall_fmap.
    eapply Forall2_Forall_r;
      [apply (Forall2_imap_snd (fun i r => (Int (Z.of_nat i), r))); done|].
    eapply Forall_impl; [exact Hrows|]. intros r Hr ir <-. simpl.
    by apply workable_insert. }
  destruct (extract_host_runs _ _ H1) as (df2 & E2 & H2).
  destruct (add_missing_titles_runs _ _ H2) as (df3 & E3 & H3).
  assert (df3 <> []) as Hne3.
  { intros ->. apply for_each_length in E3. apply for_each_length in E2.
    unfold _add_newspaper_uid_column in E2.
    rewrite length_fmap, length_imap in E2. destruct rows; [done|].
    simpl in *. lia. }
  destruct (generate_uids_runs _ Hne3 H3) as (df4 & E4 & H4).
  destruct (remove_new_lines_runs _ H4) as (df5 & E5 & H5).
  by exists df2, df3, df4, df5.
Qed.

(** *** The rows that [dropna] keeps *)

(** The label and the gaps of a row after the row-wise stages. *)
Lemma rowwise_cleaned_gaps chk uid r0 ir5 :
  rowwise_cleaned chk uid r0 ir5 ->
  ir5.1 = Str (uid_of r0) /\ (complete ir5.2 <-> gap_free r0).
Proof.
  intros Hr. pose proof Hr as (u & h & t0 & t & b & Hu & Hh & Ht0 & Ht & Hb & ->).
  split; [unfold uid_of; by rewrite Hu|]. simpl. split.
  - intros Hc c v Hv.
    destruct (decide (c ∈ set_columns)) as [?|Hset]; [by left|right].
    destruct (decide (c = "body")) as [->|?]; [congruence|].
    apply (Hc c). rewrite <-Hv.
    apply (rowwise_cleaned_other _ _ _ _ _ Hr). unfold set_columns in Hset.
    rewrite !not_elem_of_cons in Hset. rewrite !not_elem_of_cons.
    destruct Hset as (? & ? & ? & ? & _). repeat split; try done.
    apply not_elem_of_nil.
  - intros Hg c v Hv.
    apply lookup_insert_Some in Hv as [[<- <-]|[? Hv]]; [done|].
    apply lookup_delete_Some in Hv as [? Hv].
    apply lookup_insert_Some in Hv as [[<- <-]|[? Hv]].
    { destruct t0; simpl in Ht; [by destruct Ht as (? & _ & ->)|by subst..]. }
    apply lookup_insert_Some in Hv as [[<- <-]|[? Hv]]; [done|].
    apply lookup_insert_Some in Hv as [[<- <-]|[? Hv]]; [done|].
    destruct (Hg c v Hv) as [Hset|?]; [|done].
    unfold set_columns in Hset. rewrite !elem_of_cons, elem_of_nil in Hset.
    destruct Hset as [->|[->|[->|[->|[]]]]]; done.
Qed.

(** A column of counts, set where there was none, leaves the gaps as they
    are. *)
Lemma insert_count_gaps (r : gmap string cell) c v (P : Prop) :
  r !! c = None -> (complete r <-> P) ->
  (complete r -> exists n, v = Int n) ->
  (complete (<[c := v]> r) <-> P).
Proof.
  intros Hnone HP Hv. split.
  - intros Hc. apply HP. intros c' v' Hv'.
    destruct (decide (c' = c)) as [->|?]; [congruence|].
    apply (Hc c'). by rewrite lookup_insert_ne.
  - intros Hc%HP. destruct (Hv Hc) as [n ->].
    intros c' v' [[<- <-]|[_ ?]]%lookup_insert_Some; [done|by apply (Hc c')].
Qed.

Lemma dropna_of_gaps {A} (f : A -> cell) (P : A -> Prop)
    `{!forall a, Decision (P a)} (l : list A) (df : frame) :
  Forall2 (fun a ir => ir.1 = f a /\ (complete ir.2 <-> P a)) l df ->
  (dropna df).*1 = f <$> filter P l /\
  (Forall P l -> Forall (fun ir => complete ir.2) df).
Proof.
  unfold dropna. induction 1 as [|a ir l df [Hl Hc] _ [IH1 IH2]]; [done|].
  rewrite !filter_cons. split.
  - destruct (decide (P a)) as [HP|HP].
    + rewrite decide_True by by apply Hc.
      rewrite !fmap_cons. by f_equal.
    + rewrite decide_False by by rewrite Hc. done.
  - intros [HP ?]%Forall_cons. constructor; [by apply Hc|by apply IH2].
Qed.

(** What the two assignments of counts need of the frame, from what the
    rows of the file are. *)
Lemma gaps_allow_counts (rows : list (gmap string cell)) (df : frame) :
  Forall2 (fun r0 ir => ir.1 = Str (uid_of r0) /\
                        (complete ir.2 <-> gap_free r0)) rows df ->
  (exists r, r ∈ rows /\ gap_free r) ->
  Forall gap_free rows \/ NoDup (uid_of <$> filter gap_free rows) ->
  dropna df <> [] /\
  (Forall (fun ir => complete ir.2) df \/ NoDup (dropna df).*1).
Proof.
  intros H (r & Hr & Hg) Hrows.
  destruct (dropna_of_gaps (fun r0 => Str (uid_of r0)) gap_free _ _ H)
    as [Hl Hall].
  split.
  - intros Hnil. rewrite Hnil in Hl. symmetry in Hl.
    apply fmap_nil_inv in Hl.
    assert (r ∈ filter gap_free rows) as Hin by by apply list_elem_of_filter.
    rewrite Hl in Hin. by apply elem_of_nil in Hin.
  - destruct Hrows as [?|Hnd]; [left; by apply Hall|right].
    rewrite Hl, (list_fmap_compose uid_of Str).
    assert (Inj (=) (=) Str) by by intros ? ? [= ->].
    by apply (NoDup_fmap_2 Str).
Qed.

Lemma token_column_runs tok stop df name column :
  Forall (fun ir => exists t, ir.2 !! name = Some (Str t)) df ->
  dropna df <> [] ->
  Forall (fun ir => complete ir.2) df \/ NoDup (dropna df).*1 ->
  exists s df',
    _token_size_column tok stop df name = Ok s /\
    setitem column s df = Ok df'.
Proof.
  intros Htext Hne Hlabels.
  set (text := fun ir : cell * gmap string cell =>
                 match ir.2 !! name with Some (Str t) => t | _ => "" end).
  set (entry := fun ir : cell * gmap string cell =>
                  (ir.1, Int (count_tokens tok stop (text ir)))).
  assert (_token_size_column tok stop df name = Ok (entry <$> dropna df))
    as Hs.
  { apply token_size_column_Ok. split; [done|].
    apply Forall2_fmap_r, Forall_Forall2_diag, Forall_forall.
    intros ir [_ Hir]%dropna_elem. rewrite Forall_forall in Htext.
    destruct (Htext ir Hir) as [t Ht]. exists t. split; [done|].
    unfold entry, text. by rewrite Ht. }
  assert ((entry <$> dropna df).*1 = (dropna df).*1) as Hl.
  { rewrite <-list_fmap_compose. by apply list_fmap_ext. }
  exists (entry <$> dropna df). unfold setitem.
  case_bool_decide as Hidx; [eauto|].
  rewrite bool_decide_true; [eauto|]. rewrite Hl.
  destruct Hlabels as [Hall|Hnd]; [|done].
  destruct Hidx. by rewrite Hl, dropna_all.
Qed.

(** *** The stages up to the counts *)

Lemma staged_frame_runs tok stop chk filename fs rows :
  fs !! filename = Some rows ->
  Forall (workable chk) rows -> Forall count_free rows ->
  (exists r, r ∈ rows /\ gap_free r) ->
  Forall gap_free rows \/ NoDup (uid_of <$> filter gap_free rows) ->
  exists df, staged_frame tok stop chk filename fs = Ok df.
Proof.
  intros Hfs Hwork Hfree Hsome Hlabels.
  assert (rows <> []) as Hne.
  { destruct Hsome as (r & Hr & _). intros ->. by apply elem_of_nil in Hr. }
  destruct (rowwise_runs chk (_extract_newspaper_uid filename) rows Hne Hwork)
    as (df2 & df3 & df4 & df5 & E2 & E3 & E4 & E5 & H5).
  pose proof (rowwise_stages _ _ _ _ _ _ _ E2 E3 E4 E5) as Hrows.
  unfold staged_frame, _read_data. rewrite Hfs. simpl.
  rewrite E2. simpl. rewrite E3. simpl. rewrite E4. simpl. rewrite E5. simpl.
  (* the count of the titles *)
  assert (Forall2 (fun r0 ir =>
            ir.1 = Str (uid_of r0) /\ (complete ir.2 <-> gap_free r0))
            rows df5) as Hg5.
  { eapply Forall2_impl; [exact Hrows|]. apply rowwise_cleaned_gaps. }
  destruct (gaps_allow_counts _ _ Hg5 Hsome Hlabels) as [Hne5 Hl5].
  destruct (token_column_runs tok stop df5 "title" "n_tokens_title")
    as (s1 & df6 & Hs1 & Hset1); [|done..|].
  { eapply Forall_impl; [exact H5|]. by intros ir (_ & ? & _). }
  rewrite Hs1. simpl. rewrite Hset1. simpl.
  (* the count of the bodies *)
  pose proof (setitem_token_count _ _ _ _ _ _ _ Hs1 Hset1) as H6.
  pose proof (Forall2_chain _ _ _ _ _
                (Forall2_and_l _ _ _ _ Hfree (Forall2_and_r _ _ _ _ H5 Hrows))
                H6) as Hrows6.
  assert (Forall2 (fun r0 ir =>
            (ir.1 = Str (uid_of r0) /\ (complete ir.2 <-> gap_free r0)) /\
            exists b, ir.2 !! "body" = Some (Str b)) rows df6) as Hg6.
  { eapply Forall2_impl; [exact Hrows6|].
    intros r0 ir6 (ir5 & ([Hn1 Hn2] & (_ & _ & (b & Hb)) & Hr)
                   & (v1 & -> & Hv1)).
    destruct (rowwise_cleaned_gaps _ _ _ _ Hr) as [Hl Hc]. simpl.
    split; [split; [done|]|].
    - apply insert_count_gaps; [|done|].
      + rewrite (rowwise_cleaned_other _ _ _ _ _ Hr); [done|].
        rewrite !not_elem_of_cons. repeat split; try done.
        apply not_elem_of_nil.
      + intros (text & _ & ->)%Hv1. eauto.
    - exists b. by rewrite lookup_insert_ne. }
  destruct (gaps_allow_counts rows df6) as [Hne6 Hl6]; [|done..|].
  { eapply Forall2_impl; [exact Hg6|]. by intros r0 ir [? _]. }
  destruct (token_column_runs tok stop df6 "body" "n_tokens_body")
    as (s2 & df7 & Hs2 & Hset2); [|done..|].
  { apply Forall_forall. intros ir Hir.
    by destruct (Forall2_elem_r _ _ _ _ Hg6 Hir) as (r0 & _ & _ & ?). }
  rewrite Hs2. simpl. rewrite Hset2. by exists df7.
Qed.

(** The gaps of a staged row are those of the row of the file. *)
Lemma staged_frame_gaps tok stop chk filename fs rows df :
  fs !! filename = Some rows -> Forall count_free rows ->
  staged_frame tok stop chk filename fs = Ok df ->
  Forall2 (fun r0 ir => complete ir.2 <-> gap_free r0) rows df.
Proof.
  intros Hfs Hfree Hdf.
  pose proof (Forall2_and_l _ _ _ _ Hfree
                (staged_frame_counts _ _ _ _ _ _ _ Hfs Hdf)) as H.
  eapply Forall2_impl; [exact H|].
  intros r0 ir ([Hn1 Hn2] & ir5 & v1 & v2 & Hr & -> & Hv1 & Hv2). simpl.
  destruct (rowwise_cleaned_gaps _ _ _ _ Hr) as [_ Hc].
  assert (ir5.2 !! "n_tokens_title" = None) as Hn1'.
  { rewrite (rowwise_cleaned_other _ _ _ _ _ Hr); [done|].
    rewrite !not_elem_of_cons. repeat split; try done. apply not_elem_of_nil. }
  assert (ir5.2 !! "n_tokens_body" = None) as Hn2'.
  { rewrite (rowwise_cleaned_other _ _ _ _ _ Hr); [done|].
    rewrite !not_elem_of_cons. repeat split; try done. apply not_elem_of_nil. }
  apply insert_count_gaps.
  - by rewrite lookup_insert_ne.
  - apply insert_count_gaps; [done..|]. intros (text & _ & ->)%Hv1. eauto.
  - intros (text & _ & ->)%Hv2. eauto.
Qed.

Lemma drop_duplicates_total column df :
  Forall (fun ir => is_Some (ir.2 !! column)) df ->
  drop_duplicates column df
  = Ok (keep_first_by (fun ir => default NaN (ir.2 !! column)) [] df).
Proof.
  intros H. unfold drop_duplicates, keep_first_by.
  assert (for_each (fun ir : cell * gmap string cell => getitem ir.2 column) df
          = Ok ((fun ir : cell * gmap string cell =>
                   default NaN (ir.2 !! column)) <$> df)) as ->; [|done].
  induction H as [|ir df [v Hv] _ IH]; [done|].
  cbn [for_each]. rewrite (proj2 (getitem_Ok _ _ _) Hv).
  cbn [mbind result_bind]. rewrite IH. simpl. by rewrite Hv.
Qed.

Lemma staged_title chk uid rows df :
  Forall2 (staged chk uid) rows df ->
  Forall (fun ir => is_Some (ir.2 !! "title")) df.
Proof.
  intros Hst. apply Forall_forall. intros x Hx.
  destruct (Forall2_elem_r _ _ _ _ Hst Hx) as (r0 & _ & Hs).
  apply staged_cells in Hs
    as (u & h & t0 & t & b & v1 & v2 & _ & _ & _ & _ & _ & _ & _ & _ & _ & _
        & Ht & _).
  by rewrite Ht.
Qed.

(** The frame that [main] saves, when the stages up to the counts give
    [df]. *)
Lemma clean_of_staged tok stop chk filename fs rows df :
  fs !! filename = Some rows ->
  staged_frame tok stop chk filename fs = Ok df ->
  clean tok stop chk filename fs
  = Ok (dropna (keep_first_by (fun ir => default NaN (ir.2 !! "title")) [] df)).
Proof.
  intros Hfs Hdf. unfold clean. rewrite Hdf. simpl.
  destruct (staged_frame_Ok _ _ _ _ _ _ Hdf) as (rows' & _ & Hst).
  unfold _remove_duplicate_entries.
  rewrite drop_duplicates_total by by eapply staged_title. done.
Qed.

(** C9 (as amended): the pipeline completes and saves its result on every
    file of which each row can be worked on (its url is a text that
    [urlparse] accepts, its body is a text, its title is a text or can be
    filled from the final segment of the url), that has no column of token
    counts of its own, and in which some row has no missing value in the
    columns that the pipeline does not set, the uids of these rows being
    all different unless every row is one of them, when the file to save
    can be written.  The rows left out, without any error, are the rows
    with a missing value in one of these columns and the rows whose title an
    earlier row has: the cleaned frame holds exactly the staged rows that
    are the first with their title and have no missing value; a row with an
    empty host is kept as any other. *)
Theorem clean_completes tok stop chk wr filename fs rows :
  fs !! filename = Some rows ->
  Forall (workable chk) rows -> Forall count_free rows ->
  (exists r, r ∈ rows /\ gap_free r) ->
  Forall gap_free rows \/ NoDup (uid_of <$> filter gap_free rows) ->
  wr (clean_file filename) = true ->
  exists out df,
    main tok stop chk wr filename fs
    = (Ok out,
       <[clean_file filename := (fun ir => <["uid" := ir.1]> ir.2) <$> out]>
         fs) /\
    Forall2 (fun r0 ir => same_article r0 ir /\
                          (complete ir.2 <-> gap_free r0)) rows df /\
    out `sublist_of` df /\
    (forall x, x ∈ out <-> first_with_title x df = Some x /\ complete x.2).
Proof.
  intros Hfs Hwork Hfree Hsome Hlabels Hwr.
  destruct (staged_frame_runs tok stop chk _ _ _ Hfs Hwork Hfree Hsome Hlabels)
    as (df & Hdf).
  destruct (staged_frame_Ok _ _ _ _ _ _ Hdf) as (rows' & Hfs' & Hst).
  assert (rows' = rows) as -> by congruence.
  set (key := fun ir : cell * gmap string cell => default NaN (ir.2 !! "title")).
  exists (dropna (keep_first_by key [] df)), df. split; [|split; [|split]].
  - apply main_Ok. split; [by eapply clean_of_staged|done].
  - pose proof (staged_frame_gaps _ _ _ _ _ _ _ Hfs Hfree Hdf) as Hgaps.
    clear -Hst Hgaps. induction Hst as [|r0 ir rows df Hs _ IH].
    { constructor. }
    apply Forall2_cons in Hgaps as [? ?].
    constructor; [|by apply IH]. split; [by eapply staged_same_article|done].
  - etrans; [apply dropna_sublist|apply keep_first_sublist].
  - intros x. split.
    + intros [Hc Hx]%dropna_elem. split; [|done].
      destruct (keep_first_elem _ _ _ _ Hx) as [Hin _].
      rewrite (first_with_title_key _ _ _ _ _ Hst Hin).
      by apply (keep_first_is_first key [] df).
    + intros [Hf Hc]. pose proof (find_elem _ _ _ Hf) as Hin.
      rewrite (first_with_title_key _ _ _ _ _ Hst Hin) in Hf.
      apply dropna_elem. split; [done|].
      apply (first_is_kept key); [done|]. by intros ?%elem_of_nil.
Qed.

Lemma raw_row_workable chk u h title b :
  urlparse_netloc chk u = Ok h ->
  (exists t, title = Str t) \/ (title = NaN /\ is_Some (final_segment u)) ->
  workable chk (raw_row u title (Str b)).
Proof.
  intros Hh Ht. unfold raw_row. split.
  - exists u, h. split; [by simplify_map_eq|]. split; [done|].
    destruct Ht as [[t ->]|[-> ?]]; [left; exists t|right; split; [|done]];
      by simplify_map_eq.
  - exists b. by simplify_map_eq.
Qed.

Lemma raw_row_gap_free u title b : gap_free (raw_row u title (Str b)).
Proof.
  unfold raw_row. intros c v Hv.
  apply lookup_insert_Some in Hv as [[<- <-]|[_ Hv]]; [by right|].
  apply lookup_insert_Some in Hv as [[<- <-]|[_ Hv]].
  { left. unfold set_columns. by left. }
  apply lookup_singleton_Some in Hv as [<- <-]. by right.
Qed.

Lemma raw_row_count_free u title b : count_free (raw_row u title b).
Proof. split; by unfold raw_row; simplify_map_eq. Qed.

Lemma clean_completes_witness :
  exists out df,
    plain_main "n_2020_articles.csv" credited_table
    = (Ok out,
       <[clean_file "n_2020_articles.csv" :=
           (fun ir => <["uid" := ir.1]> ir.2) <$> out]> credited_table) /\
    Forall2 (fun r0 ir => same_article r0 ir /\
                          (complete ir.2 <-> gap_free r0)) credited_rows df /\
    out `sublist_of` df /\
    (forall x, x ∈ out <-> first_with_title x df = Some x /\ complete x.2).
Proof.
  apply (clean_completes plain_tokenize plain_stop_words (fun _ => true)
           flat_directory "n_2020_articles.csv" credited_table credited_rows).
  - reflexivity.
  - unfold credited_rows. simpl.
    repeat apply Forall_cons_2; [..|apply Forall_nil_2];
      apply workable_insert; try done;
      (eapply raw_row_workable; [reflexivity|]).
    + right. split; [done|]. by eexists.
    + left. by eexists.
    + left. by eexists.
  - unfold credited_rows. simpl.
    repeat apply Forall_cons_2; [..|apply Forall_nil_2]; split; reflexivity.
  - eexists. split; [apply list_elem_of_here|].
    apply (bool_decide_unpack _). by vm_compute.
  - right. apply (bool_decide_unpack _). by vm_compute.
  - reflexivity.
Defined.

(** C9, as stated, fails in both of its parts.  A row with an empty host
    is not left out.  And on batches that have the three columns the run
    ends in an exception, with no file written: a missing body makes
    [_remove_new_lines_from_body] raise [TypeError]; so does a title that is
    a number, at the count of its tokens; when every row has a missing value
    in a further column, [dropna] leaves no row to count the tokens of, and
    [_token_size_column] ends in [ValueError]; when some row has one, the
    counts are aligned on the uids, which [reindex] refuses with [ValueError]
    if two of the rows counted have one url, be it at the second count only,
    for a column of counts that the file brought along; and a file in a
    directory is saved under a name in a directory [clean_...] that is not
    there, which makes [to_csv] raise [OSError]. *)
Lemma absent_body_raises :
  plain_main "n_2020_articles.csv" bodyless_table
    = (Raise TypeError, bodyless_table) /\
  column "host" <$> (plain_main "n_2020_articles.csv" hostless_table).1
    = Ok [Some (Str "")] /\
  plain_main "n_2020_articles.csv" numbered_table
    = (Raise TypeError, numbered_table) /\
  plain_main "n_2020_articles.csv" uncredited_table
    = (Raise ValueError, uncredited_table) /\
  plain_main "n_2020_articles.csv" relisted_table
    = (Raise ValueError, relisted_table) /\
  plain_main "n_2020_articles.csv" counted_table
    = (Raise ValueError, counted_table) /\
  plain_main "data/n_2020_articles.csv" filed_table
    = (Raise OSError, filed_table).
Proof. repeat split; reflexivity. Qed.

(** ** Rows whose title cannot be filled *)

(** A missing title is filled with the final segment of the url, a space
    for each hyphen. *)
Lemma missing_title_backfilled chk uid r0 ir u :
  staged chk uid r0 ir ->
  r0 !! "title" = Some NaN -> r0 !! "url" = Some (Str u) ->
  exists seg, final_segment u = Some seg /\
              ir.2 !! "title" = Some (Str (hyphens_to_spaces seg)).
Proof.
  intros (u' & h & t0 & t & b & v1 & v2 & Hu & _ & Ht0 & _ & Ht & _ & _ & _ & _
          & _ & Ht' & _)%staged_cells Hn Hurl.
  assert (u' = u) as -> by congruence.
  assert (t0 = NaN) as -> by congruence.
  destruct Ht as (seg & Hseg & ->). exists seg.
  by rewrite <-split_join_hyphens.
Qed.

(** When the url of a row without title has no final segment, the stage
    raises: no frame comes out of it. *)
Lemma add_missing_titles_raises df i r u :
  (i, r) ∈ df -> r !! "title" = Some NaN -> r !! "url" = Some (Str u) ->
  final_segment u = None ->
  forall df', _add_missing_titles df <> Ok df'.
Proof.
  intros Hin Ht Hu Hseg df' H%add_missing_titles_rows.
  apply list_elem_of_lookup in Hin as [k Hk].
  destruct (Forall2_lookup_l _ _ _ _ _ H Hk)
    as (ir' & _ & (t0 & url & Ht0 & Hurl & Hx)).
  simpl in *. assert (t0 = NaN) as -> by congruence.
  assert (url = Str u) as -> by congruence. simpl in Hx.
  destruct Hx as (t & (seg & ? & _)%title_of_segment_Ok & _). congruence.
Qed.

(** C8 at its failing input: the url of the row without title ends in [/],
    there is no final segment to fill the title from, and the run ends in
    [AttributeError] (the [split] of a missing value) with no file written:
    the row is not carried on without title to be dropped later. *)
Theorem trailing_slash_title_raises :
  final_segment "https://n.com/section/" = None /\
  plain_main "n_2020_articles.csv" trailing_slash_table
    = (Raise AttributeError, trailing_slash_table).
Proof. split; reflexivity. Qed.

(** * Part III: further properties of the three programs *)

(** ** Resolved links *)

Lemma no_lf_app s t : no_lf (s +:+ t) = no_lf s && no_lf t.
Proof. apply str_forall_app. Qed.

Lemma absolute_url_join s a b :
  s = "" \/ s = "s" -> a <> "" -> no_lf a = true -> b <> "" -> no_lf b = true ->
  absolute_url (("http" +:+ s +:+ "://" +:+ a) +:+ "/" +:+ b).
Proof.
  intros Hs Ha Hla Hb Hlb. exists s, a, b, "".
  repeat split; try done.
  rewrite str_app_nil_r. destruct Hs as [->| ->]; by rewrite ?str_app_assoc.
Qed.

(** X1: for a site url of the form [http(s)://...] and a link that is not
    empty and holds no line feed, the link that [_build_link] returns is an
    absolute URL in the sense of [is_well_formed_link], whichever branch
    made it; resolving it once more leaves it as it is. *)
Theorem build_link_gives_absolute host link :
  site_host host -> link <> "" -> no_lf link = true ->
  absolute_url (_build_link host link) /\
  _build_link host (_build_link host link) = _build_link host link.
Proof.
  intros (s & a & Hs & -> & Ha & Hla) Hne Hl.
  assert (absolute_url (_build_link ("http" +:+ s +:+ "://" +:+ a) link)) as H.
  { destruct (absolute_url_dec link) as [Habs|Habs].
    - by rewrite build_link_absolute_url.
    - destruct (root_relative_dec link) as [Hr|Hr].
      + rewrite build_link_root_relative by done.
        destruct Hr as (b & t & -> & Hb & _ & _).
        change ("/" +:+ b +:+ t) with (String "/" (b +:+ t)) in Hl.
        simpl in Hl. apply absolute_url_join; try done.
        by destruct b.
      + rewrite build_link_bare by done. by apply absolute_url_join. }
  split; [done|]. by apply build_link_absolute_url.
Qed.

Lemma build_link_gives_absolute_witness :
  absolute_url (_build_link "https://x.com" "a/b") /\
  _build_link "https://x.com" (_build_link "https://x.com" "a/b")
    = _build_link "https://x.com" "a/b".
Proof.
  apply (build_link_gives_absolute "https://x.com" "a/b").
  - exists "s", "x.com". repeat split; auto.
  - discriminate.
  - reflexivity.
Defined.

(** ** The articles collected *)

Lemma fetch_article_Some ArticlePage uid host link a :
  _fetch_article ArticlePage uid host link = Ok (Some a) ->
  ArticlePage uid (_build_link host link) = Ok a /\ has_body a.
Proof.
  unfold _fetch_article, has_body.
  destruct (ArticlePage uid (_build_link host link)) as [a'|e]; simpl.
  - destruct (getattr a' "body") as [b|e] eqn:Hb; simpl; [|done].
    destruct (truthy b) eqn:Ht; simpl; [|done].
    intros [= ->]. split; [done|].
    apply truthy_true in Ht as (s0 & -> & ?). eauto.
  - by destruct (caught e).
Qed.

Lemma fetch_all_length ArticlePage uid host links articles :
  fetch_all ArticlePage uid host links = Ok articles ->
  length articles <= length links.
Proof.
  revert articles. induction links as [|link links IH]; intros articles; simpl.
  - by intros [= <-].
  - destruct (_fetch_article ArticlePage uid host link) as [o|e]; simpl; [|done].
    destruct (fetch_all ArticlePage uid host links) as [l|e]; simpl; [|done].
    specialize (IH l eq_refl). intros [= <-]. destruct o; simpl; lia.
Qed.

(** X2: the articles that the loop of [_news_scraper] collects are, in
    the order of the links of the homepage, pages built for these links,
    each resolved with [_build_link]; every one of them has a body that is
    not empty, and there are at most as many as links. *)
Theorem fetch_all_articles ArticlePage uid host links articles :
  fetch_all ArticlePage uid host links = Ok articles ->
  Forall has_body articles /\
  articles `sublist_of`
    omap (fun link =>
            match ArticlePage uid (_build_link host link) with
            | Ok a => Some a
            | Raise _ => None
            end) links /\
  length articles <= length links.
Proof.
  intros H. split; [|split; [|by eapply fetch_all_length]]; revert articles H.
  - induction links as [|link links IH]; intros articles; simpl.
    { intros [= <-]. constructor. }
    destruct (_fetch_article ArticlePage uid host link) as [o|e] eqn:Hf;
      simpl; [|done].
    destruct (fetch_all ArticlePage uid host links) as [l|e]; simpl; [|done].
    intros [= <-]. specialize (IH l eq_refl). destruct o as [a|]; [|done].
    apply fetch_article_Some in Hf as [_ ?]. by constructor.
  - induction links as [|link links IH]; intros articles; simpl.
    { by intros [= <-]. }
    destruct (_fetch_article ArticlePage uid host link) as [o|e] eqn:Hf;
      simpl; [|done].
    destruct (fetch_all ArticlePage uid host links) as [l|e]; simpl; [|done].
    intros [= <-]. specialize (IH l eq_refl). destruct o as [a|].
    + apply fetch_article_Some in Hf as [-> _]. by apply sublist_skip.
    + destruct (ArticlePage uid (_build_link host link)); [|done].
      by apply sublist_cons.
Qed.

Lemma fetch_all_articles_witness :
  Forall has_body sample_articles /\
  sample_articles `sublist_of`
    omap (fun link =>
            match sample_page "site" (_build_link "https://x.com" link) with
            | Ok a => Some a
            | Raise _ => None
            end) ["/a"; "/gone"; "/empty"; "b"] /\
  length sample_articles <= length ["/a"; "/gone"; "/empty"; "b"].
Proof.
  apply (fetch_all_articles sample_page "site" "https://x.com"
           ["/a"; "/gone"; "/empty"; "b"] sample_articles).
  reflexivity.
Defined.

Lemma getattr_dir a name : name ∈ dir a -> exists v, getattr a name = Ok v.
Proof.
  unfold dir, getattr. destruct a as [attrs]. simpl.
  induction attrs as [|[k v] l IH]; simpl.
  - by intros ?%elem_of_nil.
  - intros [->|H]%elem_of_cons.
    + rewrite String.eqb_refl. eauto.
    + destruct (String.eqb k name); eauto.
Qed.

(** X3: the loop of [_news_scraper] goes through all the links whatever
    the number of requests that end in [HTTPError] or [MaxRetryError]:
    when every link gives one of these two or a page that has a [body]
    attribute, empty or not, the loop returns its list of articles. *)
Theorem fetch_all_completes ArticlePage news_site_uid host links :
  Forall (fun link =>
            match ArticlePage news_site_uid (_build_link host link) with
            | Ok a => "body" ∈ dir a
            | Raise e => e = HTTPError \/ e = MaxRetryError
            end) links ->
  exists articles,
    fetch_all ArticlePage news_site_uid host links = Ok articles.
Proof.
  induction 1 as [|link links Hlink _ [articles IH]]; simpl; [eauto|].
  unfold _fetch_article.
  destruct (ArticlePage news_site_uid (_build_link host link)) as [a|e]; simpl.
  - apply getattr_dir in Hlink as [b ->]. simpl.
    destruct (truthy b); simpl; rewrite IH; simpl; eauto.
  - apply caught_true in Hlink as ->. simpl. rewrite IH. simpl. eauto.
Qed.

Lemma fetch_all_completes_witness :
  exists articles,
    fetch_all sample_page "site" "https://x.com" ["/a"; "/gone"; "/empty"; "b"]
    = Ok articles.
Proof.
  apply (fetch_all_completes sample_page "site" "https://x.com"
           ["/a"; "/gone"; "/empty"; "b"]).
  repeat apply Forall_cons_2; [..|apply Forall_nil_2]; simpl;
    first [by left | apply list_elem_of_In; simpl; tauto].
Defined.

Lemma fetch_all_app ArticlePage uid host pre post articles :
  fetch_all ArticlePage uid host pre = Ok articles ->
  fetch_all ArticlePage uid host (pre ++ post)
  = (more ← fetch_all ArticlePage uid host post; Ok (articles ++ more)).
Proof.
  revert articles. induction pre as [|link pre IH]; intros articles; simpl.
  - intros [= <-]. by destruct (fetch_all ArticlePage uid host post).
  - destruct (_fetch_article ArticlePage uid host link) as [o|e]; [|done].
    simpl. destruct (fetch_all ArticlePage uid host pre) as [l|e]; [|done].
    simpl. intros [= <-]. rewrite (IH l eq_refl).
    destruct (fetch_all ArticlePage uid host post) as [more|e]; [|done].
    simpl. by destruct o.
Qed.

(** X4: one link is enough to lose a run: when the request for a link
    raises an exception other than [HTTPError] and [MaxRetryError] (a
    timeout, say), [_news_scraper] ends with that exception and writes no
    file, however many articles the links before it have given. *)
Theorem news_scraper_aborts
    site_url article_links ArticlePage now news_site_uid fs
    host pre link post articles e :
  site_url news_site_uid = Ok host ->
  article_links news_site_uid host = Ok (pre ++ link :: post) ->
  fetch_all ArticlePage news_site_uid host pre = Ok articles ->
  ArticlePage news_site_uid (_build_link host link) = Raise e ->
  e <> HTTPError -> e <> MaxRetryError ->
  _news_scraper site_url article_links ArticlePage now news_site_uid fs
  = (Raise e, fs).
Proof.
  intros Hh Hl Hpre He H1 H2. unfold _news_scraper.
  rewrite Hh, Hl, (fetch_all_app _ _ _ _ _ _ Hpre). simpl.
  unfold _fetch_article. rewrite He.
  destruct (caught e) eqn:Hc; [|done].
  apply caught_true in Hc as [?|?]; congruence.
Qed.

Lemma news_scraper_aborts_witness :
  _news_scraper sample_site_url slow_links slow_page
    "2020_01_31" "site" ∅
  = (Raise Timeout, ∅).
Proof.
  apply (news_scraper_aborts sample_site_url slow_links slow_page
           "2020_01_31" "site" ∅ "https://x.com" ["/a"; "b"] "/slow" ["/c"]
           sample_articles Timeout); try reflexivity; discriminate.
Defined.

(** ** The file of articles *)

Lemma write_articles_other name headers articles fs other :
  other <> name ->
  (write_articles name headers articles fs).2 !! other = fs !! other.
Proof.
  intros Hne. revert fs. induction articles as [|a l IH]; intros fs; simpl.
  - done.
  - destruct (for_each _ headers) as [row|e]; simpl; [|done].
    rewrite IH. unfold writerow. by rewrite lookup_insert_ne.
Qed.

Lemma write_articles_Ok name headers articles fs fs' old :
  write_articles name headers articles fs = (Ok (), fs') ->
  fs !! name = Some old ->
  exists rows,
    Forall2 (fun a row => csv_row headers a = Ok row) articles rows /\
    fs' !! name = Some (old ++ rows).
Proof.
  revert fs old. induction articles as [|a l IH]; intros fs old; simpl.
  - intros [= <-] Hold. exists []. split; [constructor|].
    by rewrite app_nil_r.
  - destruct (for_each _ headers) as [row|e] eqn:Hrow; [|done].
    intros H Hold.
    destruct (IH _ (old ++ [row]) H) as (rows & Hrows & Hfs').
    { unfold writerow. rewrite lookup_insert_eq. by rewrite Hold. }
    exists (row :: rows). split; [by constructor|].
    by rewrite Hfs', <-app_assoc.
Qed.

Lemma csv_row_length headers a row :
  csv_row headers a = Ok row -> length row = length headers.
Proof.
  unfold csv_row. intros H%for_each_Ok. by apply Forall2_length in H.
Qed.

Lemma csv_headers_public first :
  Forall (fun h => startswith "_" h = false) (csv_headers first).
Proof.
  apply Forall_forall. intros h [_ H%negb_true_iff]%list_elem_of_In%filter_In.
  done.
Qed.

Lemma save_articles_rows now news_site_uid first others fs fs' :
  _save_articles now news_site_uid (first :: others) fs = (Ok (), fs') ->
  exists rows,
    fs' !! out_file_name now news_site_uid
      = Some (csv_headers first :: rows) /\
    Forall2 (fun a row => csv_row (csv_headers first) a = Ok row)
            (first :: others) rows.
Proof.
  unfold _save_articles. fold (out_file_name now news_site_uid).
  fold (csv_headers first). intros H.
  destruct (write_articles_Ok _ _ _ _ _ [csv_headers first] H)
    as (rows & Hrows & Hfs'); [|by exists rows].
  unfold writerow. by rewrite lookup_insert_eq, lookup_insert_eq.
Qed.

(** X5: when [_save_articles] completes, the file named after the site and
    the day holds exactly the header, which is the attributes of the first
    article without those that start with an underscore, followed by one row
    per article in order, the text of each of these attributes; what the
    file held before is gone, and no other file is touched. *)
Theorem save_articles_file now news_site_uid first others fs fs' :
  _save_articles now news_site_uid (first :: others) fs = (Ok (), fs') ->
  exists rows,
    fs' !! out_file_name now news_site_uid
      = Some (csv_headers first :: rows) /\
    Forall2 (fun a row => csv_row (csv_headers first) a = Ok row)
            (first :: others) rows /\
    Forall (fun h => startswith "_" h = false) (csv_headers first) /\
    forall name, name <> out_file_name now news_site_uid ->
                 fs' !! name = fs !! name.
Proof.
  intros H. destruct (save_articles_rows _ _ _ _ _ _ H) as (rows & Hfs' & Hrows).
  exists rows. repeat split; [done..|apply csv_headers_public|].
  unfold _save_articles in H. fold (out_file_name now news_site_uid) in H.
  fold (csv_headers first) in H. intros name Hne.
  pose proof (write_articles_other (out_file_name now news_site_uid)
                (csv_headers first) (first :: others)
                (writerow (out_file_name now news_site_uid) (csv_headers first)
                   (<[out_file_name now news_site_uid := []]> fs))
                name Hne) as Ho.
  rewrite H in Ho. simpl in Ho. rewrite Ho. unfold writerow.
  by rewrite !lookup_insert_ne.
Qed.

Lemma save_articles_file_witness :
  exists rows,
    (_save_articles "2020_01_31" "site" sample_articles
       {[ "site_2020_01_31_articles.csv" := [["old"]] ]}).2
      !! out_file_name "2020_01_31" "site"
      = Some (["body"; "title"; "url"] :: rows) /\
    length rows = 2.
Proof.
  destruct (save_articles_file "2020_01_31" "site"
              (Page [("_html", PNone); ("body", PStr "Texto");
                     ("title", PStr "T"); ("url", PStr "https://x.com/a")])
              [Page [("_html", PNone); ("body", PStr "Texto");
                     ("title", PStr "T"); ("url", PStr "https://x.com/b")]]
              {[ "site_2020_01_31_articles.csv" := [["old"]] ]}
              (_save_articles "2020_01_31" "site" sample_articles
                 {[ "site_2020_01_31_articles.csv" := [["old"]] ]}).2
              eq_refl)
    as (rows & H1 & H2 & _).
  exists rows. split; [exact H1|].
  apply Forall2_length in H2. by rewrite <-H2.
Defined.

Lemma csv_row_total headers a :
  headers ⊆ dir a -> exists row, csv_row headers a = Ok row.
Proof.
  intros H. unfold csv_row.
  destruct (for_each_total (fun prop => str <$> getattr a prop)
              (fun h => h ∈ dir a) (fun _ => True) headers)
    as (row & Hrow & _); [| |eauto].
  - intros h [v Hv]%getattr_dir. rewrite Hv. simpl. eauto.
  - apply Forall_forall. intros h Hh. by apply H.
Qed.

Lemma write_articles_total name headers articles fs :
  Forall (fun a => headers ⊆ dir a) articles ->
  exists fs', write_articles name headers articles fs = (Ok (), fs').
Proof.
  intros H. revert fs. induction H as [|a l Ha _ IH]; intros fs; simpl.
  - eauto.
  - destruct (csv_row_total _ _ Ha) as [row Hrow]. unfold csv_row in Hrow.
    rewrite Hrow. apply IH.
Qed.

(** X6: [_save_articles] completes on every non-empty list of articles in
    which each article has the attributes of the first one that make the
    header (the articles of one run are objects of one class). *)
Theorem save_articles_completes now news_site_uid first others fs :
  Forall (fun a => csv_headers first ⊆ dir a) others ->
  exists fs',
    _save_articles now news_site_uid (first :: others) fs = (Ok (), fs').
Proof.
  intros H. unfold _save_articles. fold (csv_headers first).
  apply write_articles_total. constructor; [|done].
  intros h [Hh _]%list_elem_of_In%filter_In. by apply list_elem_of_In.
Qed.

Lemma save_articles_completes_witness :
  exists fs',
    _save_articles "2020_01_31" "site" sample_articles ∅ = (Ok (), fs').
Proof.
  apply (save_articles_completes "2020_01_31" "site"
           (Page [("_html", PNone); ("body", PStr "Texto");
                  ("title", PStr "T"); ("url", PStr "https://x.com/a")])
           [Page [("_html", PNone); ("body", PStr "Texto");
                  ("title", PStr "T"); ("url", PStr "https://x.com/b")]] ∅).
  apply Forall_cons_2; [|apply Forall_nil_2].
  intros h Hh. apply list_elem_of_In. apply list_elem_of_In in Hh.
  simpl in *. tauto.
Defined.

Lemma save_articles_other now news_site_uid articles fs name :
  name <> out_file_name now news_site_uid ->
  (_save_articles now news_site_uid articles fs).2 !! name = fs !! name.
Proof.
  intros Hne. unfold _save_articles. fold (out_file_name now news_site_uid).
  destruct articles as [|first others]; [done|].
  rewrite write_articles_other by done. unfold writerow.
  by rewrite !lookup_insert_ne.
Qed.

(** X7: whatever the outcome of a run of [_news_scraper], completed or
    ended by an exception at any point, no file other than the one named
    after the site and the day is created, changed or removed. *)
Theorem news_scraper_other_files
    site_url article_links ArticlePage now news_site_uid fs name :
  name <> out_file_name now news_site_uid ->
  (_news_scraper site_url article_links ArticlePage now news_site_uid fs).2
    !! name = fs !! name.
Proof.
  intros Hne. unfold _news_scraper.
  destruct (site_url news_site_uid) as [host|e]; [|done].
  destruct (article_links news_site_uid host) as [links|e]; [|done].
  destruct (fetch_all ArticlePage news_site_uid host links) as [articles|e];
    [|done].
  by apply save_articles_other.
Qed.

Lemma news_scraper_other_files_witness :
  (_news_scraper sample_site_url sample_links sample_page
     "2020_01_31" "site" {[ "notes.txt" := [["old"]] ]}).2 !! "notes.txt"
  = ({[ "notes.txt" := [["old"]] ]} : files) !! "notes.txt".
Proof.
  apply (news_scraper_other_files sample_site_url sample_links
           sample_page "2020_01_31" "site" {[ "notes.txt" := [["old"]] ]}
           "notes.txt").
  discriminate.
Defined.

(** X8: a run of [_news_scraper] that completes has written a table: a
    header and at least one row, at most one row per link of the homepage,
    and every row has as many fields as the header. *)
Theorem news_scraper_table
    site_url article_links ArticlePage now news_site_uid fs fs' :
  _news_scraper site_url article_links ArticlePage now news_site_uid fs
    = (Ok (), fs') ->
  exists host links header rows,
    site_url news_site_uid = Ok host /\
    article_links news_site_uid host = Ok links /\
    fs' !! out_file_name now news_site_uid = Some (header :: rows) /\
    rows <> [] /\ length rows <= length links /\
    Forall (fun row => length row = length header) rows.
Proof.
  unfold _news_scraper.
  destruct (site_url news_site_uid) as [host|e] eqn:Hh; [|done].
  destruct (article_links news_site_uid host) as [links|e] eqn:Hl; [|done].
  destruct (fetch_all ArticlePage news_site_uid host links)
    as [articles|e] eqn:Hf; [|done].
  destruct articles as [|first others]; [done|]. intros H.
  apply save_articles_rows in H as (rows & Hfs & Hrows).
  apply fetch_all_length in Hf as Hlen.
  exists host, links, (csv_headers first), rows.
  repeat split; [done..| | |].
  - apply Forall2_length in Hrows. by destruct rows.
  - apply Forall2_length in Hrows. by rewrite <-Hrows.
  - apply Forall_forall. intros row Hrow.
    destruct (Forall2_elem_r _ _ _ _ Hrows Hrow) as (a & _ & Ha).
    by apply csv_row_length in Ha.
Qed.

Lemma news_scraper_table_witness :
  exists host links header rows,
    sample_site_url "site" = Ok host /\
    sample_links "site" host = Ok links /\
    (_news_scraper sample_site_url sample_links sample_page
       "2020_01_31" "site" ∅).2 !! out_file_name "2020_01_31" "site"
      = Some (header :: rows) /\
    rows <> [] /\ length rows <= length links /\
    Forall (fun row => length row = length header) rows.
Proof.
  apply (news_scraper_table sample_site_url sample_links
           sample_page "2020_01_31" "site" ∅).
  reflexivity.
Defined.

(** ** The site of a file *)

Lemma split_head sep s :
  hd "" (split sep s) = take_until (fun a => Ascii.eqb a sep) s.
Proof.
  induction s as [|a s IH]; [done|]. simpl.
  destruct (Ascii.eqb a sep); [done|].
  destruct (split sep s) as [|w ws]; simpl in *; by rewrite <-IH.
Qed.

Lemma take_until_no_mem c s :
  str_mem c (take_until (fun a => Ascii.eqb a c) s) = false.
Proof.
  induction s as [|a s IH]; [done|]. simpl.
  destruct (Ascii.eqb a c) eqn:E; [done|]. simpl. by rewrite E.
Qed.

Lemma take_until_prefix c s :
  s = take_until (fun a => Ascii.eqb a c) s \/
  exists rest, s = take_until (fun a => Ascii.eqb a c) s +:+ String c rest.
Proof.
  induction s as [|a s IH]; [by left|]. simpl.
  destruct (Ascii.eqb_spec a c) as [->|Hne].
  - right. by exists s.
  - destruct IH as [IH|[rest IH]].
    + left. by rewrite <-IH.
    + right. exists rest. rewrite str_app_cons. by f_equal.
Qed.

Lemma take_until_app c s rest :
  str_mem c s = false ->
  take_until (fun a => Ascii.eqb a c) (s +:+ String c rest) = s.
Proof.
  induction s as [|a s IH].
  - intros _. rewrite str_app_nil_l. simpl. by rewrite Ascii.eqb_refl.
  - simpl str_mem. intros [Ha Hs]%orb_false_iff. rewrite str_app_cons.
    simpl. by rewrite Ha, IH.
Qed.

(** X9: the site that [_extract_newspaper_uid] reads off a file name is
    the text before the first underscore of the name, or the whole name
    when it has none: it holds no underscore and the name starts with it. *)
Theorem extract_newspaper_uid_prefix filename :
  str_mem "_" (_extract_newspaper_uid filename) = false /\
  (filename = _extract_newspaper_uid filename \/
   exists rest,
     filename = _extract_newspaper_uid filename +:+ "_" +:+ rest).
Proof.
  unfold _extract_newspaper_uid. rewrite split_head.
  split; [apply take_until_no_mem|apply take_until_prefix].
Qed.

(** X10: the name under which [_save_articles] writes the articles of a
    site gives that site back to [_extract_newspaper_uid] exactly when the
    site's identifier holds no underscore; otherwise the cleaning script
    takes the part before the first underscore for the site. *)
Theorem scraped_file_names_site now news_site_uid :
  _extract_newspaper_uid (out_file_name now news_site_uid) = news_site_uid
  <-> str_mem "_" news_site_uid = false.
Proof.
  split.
  - intros <-. unfold _extract_newspaper_uid. rewrite split_head.
    apply take_until_no_mem.
  - intros H. unfold _extract_newspaper_uid, out_file_name.
    rewrite split_head. by apply take_until_app.
Qed.

(** ** The files of a run *)

Lemma clean_file_differs filename : clean_file filename <> filename.
Proof.
  intros H%(f_equal String.length). unfold clean_file in H.
  rewrite str_app_length in H. simpl in H. lia.
Qed.

(** X11: whatever its outcome, a run of [main] leaves the file it reads as
    it is, as every file other than [clean_] followed by the name given;
    a run ended by an exception leaves all files as they are. *)
Theorem main_other_files tok stop chk wr filename fs :
  (main tok stop chk wr filename fs).2 !! filename = fs !! filename /\
  (forall name, name <> clean_file filename ->
                (main tok stop chk wr filename fs).2 !! name = fs !! name) /\
  (forall e, (main tok stop chk wr filename fs).1 = Raise e ->
             (main tok stop chk wr filename fs).2 = fs).
Proof.
  assert (forall name, name <> clean_file filename ->
            (main tok stop chk wr filename fs).2 !! name = fs !! name) as H.
  { intros name Hne. unfold main, _save_data. fold (clean_file filename).
    destruct (clean tok stop chk filename fs); [|done].
    destruct (wr (clean_file filename)); [|done]. simpl.
    by rewrite lookup_insert_ne. }
  split; [|split; [done|]].
  - apply H. intros Heq. by apply (clean_file_differs filename).
  - unfold main, _save_data. fold (clean_file filename).
    destruct (clean tok stop chk filename fs); [|done].
    destruct (wr (clean_file filename)); simpl; [by intros e [=]|done].
Qed.

(** ** Where the cleaned rows come from *)

Lemma staged_other_columns chk uid r0 ir c :
  staged chk uid r0 ir -> c ∉ pipeline_columns -> ir.2 !! c = r0 !! c.
Proof.
  intros (ir5 & v1 & v2 & (u & h & t0 & t & b & _ & _ & _ & _ & _ & ->)
          & _ & _ & ->) Hc.
  unfold pipeline_columns in Hc. rewrite !not_elem_of_cons in Hc.
  destruct Hc as (? & ? & ? & ? & ? & ? & ? & _). simpl.
  by rewrite !lookup_insert_ne, lookup_delete_ne, !lookup_insert_ne.
Qed.

Lemma cleaned_row_staged tok stop chk filename fs rows out x :
  fs !! filename = Some rows ->
  clean tok stop chk filename fs = Ok out -> x ∈ out ->
  complete x.2 /\
  exists r0, r0 ∈ rows /\ staged chk (_extract_newspaper_uid filename) r0 x.
Proof.
  intros Hfs (rows' & df & Hfs' & Hst & ->)%clean_Ok
         [Hc [Hx _]%keep_first_elem]%dropna_elem.
  assert (rows' = rows) as -> by congruence.
  destruct (Forall2_elem_r _ _ _ _ Hst Hx) as (r0 & Hr0 & Hs). eauto.
Qed.

Lemma cleaned_length tok stop chk filename fs rows out :
  fs !! filename = Some rows ->
  clean tok stop chk filename fs = Ok out -> length out <= length rows.
Proof.
  intros Hfs (rows' & df & Hfs' & Hst & ->)%clean_Ok.
  assert (rows' = rows) as -> by congruence.
  rewrite (Forall2_length _ _ _ Hst).
  etrans; [apply sublist_length, dropna_sublist|].
  apply sublist_length, keep_first_sublist.
Qed.

(** X12: the rows of the cleaned frame are rows of the file, none added:
    there are at most as many, and each has, from one row of the file, its
    url and every column the pipeline does not compute, unchanged, and its
    title when that row has one; its [newspaper_uid] is the site read off
    the file name. *)
Theorem cleaned_rows_from_file tok stop chk wr filename fs rows out fs' :
  fs !! filename = Some rows ->
  main tok stop chk wr filename fs = (Ok out, fs') ->
  length out <= length rows /\
  forall x, x ∈ out ->
    x.2 !! "newspaper_uid" = Some (Str (_extract_newspaper_uid filename)) /\
    exists r0,
      r0 ∈ rows /\
      (forall t, r0 !! "title" = Some t -> t <> NaN ->
                 x.2 !! "title" = Some t) /\
      (forall c, c ∉ pipeline_columns -> x.2 !! c = r0 !! c).
Proof.
  intros Hfs [Hc _]%main_Ok. split; [by eapply cleaned_length|].
  intros x Hx.
  destruct (cleaned_row_staged _ _ _ _ _ _ _ _ Hfs Hc Hx)
    as (_ & r0 & Hr0 & Hs).
  split.
  - apply staged_cells in Hs
      as (u & h & t0 & t & b & v1 & v2 & _ & _ & _ & _ & _ & _ & _ & _ & _ & _
          & _ & _ & Hn & _).
    done.
  - exists r0. split; [done|]. split.
    + by apply staged_same_article in Hs as [_ ?].
    + intros c Hcol. by eapply staged_other_columns.
Qed.

Lemma cleaned_rows_from_file_witness :
  length scenario_output <= length scenario_rows /\
  Forall (fun x =>
    x.2 !! "newspaper_uid" = Some (Str (_extract_newspaper_uid "n_2020_articles.csv")) /\
    exists r0,
      r0 ∈ scenario_rows /\
      (forall t, r0 !! "title" = Some t -> t <> NaN ->
                 x.2 !! "title" = Some t) /\
      (forall c, c ∉ pipeline_columns -> x.2 !! c = r0 !! c))
    scenario_output.
Proof.
  rewrite Forall_forall.
  apply (cleaned_rows_from_file plain_tokenize plain_stop_words
           (fun _ => true) flat_directory
           "n_2020_articles.csv" scenario scenario_rows scenario_output
           (plain_main "n_2020_articles.csv" scenario).2);
    reflexivity.
Defined.

Lemma staged_processable chk uid r0 ir : staged chk uid r0 ir -> processable chk r0.
Proof.
  intros (u & h & t0 & t & b & v1 & v2 & Hu & Hh & Ht0 & Hb & Ht & _)%staged_cells.
  exists u, h, b, t0. repeat split; [done..|].
  intros ->. simpl in Ht. destruct Ht as (seg & -> & _). by eexists.
Qed.

(** X13: a run of [main] completes only when every row of the file, kept
    in the end or not, can be worked on: its url is a text that [urlparse]
    accepts, its body is a text, and its title is there or can be filled
    from the final segment of the url.  One row that cannot makes the run
    fail for the whole file. *)
Theorem completed_run_rows tok stop chk wr filename fs rows out fs' :
  fs !! filename = Some rows ->
  main tok stop chk wr filename fs = (Ok out, fs') ->
  Forall (processable chk) rows.
Proof.
  intros Hfs [(rows' & df & Hfs' & Hst & _)%clean_Ok _]%main_Ok.
  assert (rows' = rows) as -> by congruence.
  clear Hfs Hfs'.
  induction Hst as [|r0 ir rows df Hs _ IH]; constructor; [|done].
  by eapply staged_processable.
Qed.

Lemma completed_run_rows_witness :
  Forall (processable (fun _ => true)) scenario_rows.
Proof.
  apply (completed_run_rows plain_tokenize plain_stop_words
           (fun _ => true) flat_directory
           "n_2020_articles.csv" scenario scenario_rows scenario_output
           (plain_main "n_2020_articles.csv" scenario).2);
    reflexivity.
Defined.

(** ** The form of a uid *)

Lemma le_bytes_length k x : length (le_bytes k x) = k.
Proof. revert x. induction k as [|k IH]; intros x; simpl; [done|]. by rewrite IH. Qed.

Lemma le_bytes_range k x : Forall (fun b => (0 <= b < 256)%Z) (le_bytes k x).
Proof.
  revert x. induction k as [|k IH]; intros x; simpl; constructor; [|done].
  apply Z.mod_pos_bound. lia.
Qed.

Lemma hex_digit_char x : (0 <= x < 16)%Z -> hex_char (hex_digit x) = true.
Proof.
  intros H.
  assert (exists n, n < 16 /\ x = Z.of_nat n) as (n & Hn & ->).
  { exists (Z.to_nat x). lia. }
  do 16 (destruct n as [|n]; [reflexivity|]). lia.
Qed.

Lemma hex_bytes bs :
  Forall (fun b => (0 <= b < 256)%Z) bs ->
  String.length (hex bs) = 2 * length bs /\ str_forall hex_char (hex bs) = true.
Proof.
  induction 1 as [|b bs Hb _ [IH1 IH2]]; [done|]. simpl. rewrite IH1, IH2.
  split; [lia|].
  rewrite !hex_digit_char; [done|..].
  - apply Z.mod_pos_bound. lia.
  - split; [apply Z.div_pos; lia|apply Z.div_lt_upper_bound; lia].
Qed.

Lemma md5_bytes msg :
  length (md5 msg) = 16 /\ Forall (fun b => (0 <= b < 256)%Z) (md5 msg).
Proof.
  unfold md5. destruct (md5_blocks _ _ _) as [[[a b] c] d].
  rewrite !length_app, !le_bytes_length, !Forall_app.
  auto using le_bytes_range.
Qed.

Lemma md5_hexdigest_form url :
  String.length (md5_hexdigest url) = 32 /\
  str_forall hex_char (md5_hexdigest url) = true.
Proof.
  unfold md5_hexdigest. destruct (md5_bytes (encode url)) as [Hl Hr].
  destruct (hex_bytes _ Hr) as [H1 H2]. rewrite H1, Hl. done.
Qed.

(** X14: the uid of every row of the cleaned frame, whatever the url it is
    the digest of, is a text of 32 characters, each a digit of lower-case
    hexadecimal. *)
Theorem cleaned_uid_form tok stop chk wr filename fs out fs' :
  main tok stop chk wr filename fs = (Ok out, fs') ->
  forall x, x ∈ out ->
    exists uid, x.1 = Str uid /\ String.length uid = 32 /\
                str_forall hex_char uid = true.
Proof.
  intros [Hc _]%main_Ok x Hx.
  destruct (cleaned_row_label _ _ _ _ _ _ _ Hc Hx) as (u & _ & ->).
  eexists. split; [done|]. apply md5_hexdigest_form.
Qed.

Lemma cleaned_uid_form_witness :
  Forall (fun x => exists uid, x.1 = Str uid /\ String.length uid = 32 /\
                               str_forall hex_char uid = true)
         scenario_output.
Proof.
  rewrite Forall_forall.
  apply (cleaned_uid_form plain_tokenize plain_stop_words
           (fun _ => true) flat_directory
           "n_2020_articles.csv" scenario scenario_output
           (plain_main "n_2020_articles.csv" scenario).2);
    reflexivity.
Defined.

(** ** The host of a url *)

Lemma str_filter_app p s t :
  str_filter p (s +:+ t) = str_filter p s +:+ str_filter p t.
Proof.
  induction s as [|a s IH]; [done|]. rewrite str_app_cons. simpl.
  destruct (p a); [|done]. by rewrite str_app_cons, IH.
Qed.

Lemma str_filter_all p s : str_forall p s = true -> str_filter p s = s.
Proof.
  induction s as [|a s IH]; [done|]. simpl.
  intros [-> ?]%andb_true_iff. by rewrite IH.
Qed.

Lemma str_forall_impl (p q : ascii -> bool) s :
  (forall a, p a = true -> q a = true) ->
  str_forall p s = true -> str_forall q s = true.
Proof.
  intros Hpq. induction s as [|a s IH]; [done|]. simpl.
  intros [?%Hpq ?%IH]%andb_true_iff. by apply andb_true_iff.
Qed.

Lemma str_forall_not_mem p c s :
  str_forall p s = true -> p c = false -> str_mem c s = false.
Proof.
  intros Hs Hc. induction s as [|a s IH]; [done|]. simpl in *.
  apply andb_true_iff in Hs as [Ha Hs]. rewrite IH by done.
  destruct (Ascii.eqb_spec a c) as [->|]; [congruence|done].
Qed.

Lemma take_until_forall p s :
  str_forall (fun a => negb (p a)) (take_until p s) = true.
Proof.
  induction s as [|a s IH]; [done|]. simpl.
  destruct (p a) eqn:E; [done|]. simpl. by rewrite E.
Qed.

Lemma take_until_stop p s t :
  str_forall (fun a => negb (p a)) s = true ->
  match t with "" => True | String a _ => p a = true end ->
  take_until p (s +:+ t) = s.
Proof.
  intros Hs Ht. induction s as [|a s IH].
  - rewrite str_app_nil_l. destruct t as [|a t]; [done|]. simpl. by rewrite Ht.
  - simpl in Hs. apply andb_true_iff in Hs as [Ha Hs].
    rewrite str_app_cons. simpl. apply negb_true_iff in Ha. rewrite Ha.
    by rewrite IH.
Qed.

Lemma filter_after_authority rest :
  after_authority rest = true ->
  after_authority
    (str_filter (fun a => negb (bool_decide (nat_of_ascii a ∈ [9; 13; 10])))
                rest) = true.
Proof.
  destruct rest as [|a rest]; [done|]. simpl. intros Ha.
  assert (negb (bool_decide (nat_of_ascii a ∈ [9; 13; 10])) = true) as ->; [|done].
  unfold netloc_end in Ha.
  apply orb_true_iff in Ha as [[Ha|Ha]%orb_true_iff|Ha];
    apply Ascii.eqb_eq in Ha; by subst a.
Qed.

Lemma urlparse_netloc_http chk s auth rest :
  s = "" \/ s = "s" -> authority_text auth = true ->
  after_authority rest = true ->
  urlparse_netloc chk ("http" +:+ s +:+ "://" +:+ auth +:+ rest) = Ok auth.
Proof.
  intros Hs Hauth Hrest. unfold authority_text in Hauth.
  set (keep := fun a => negb (bool_decide (nat_of_ascii a ∈ [9; 13; 10]))).
  assert (str_filter keep (auth +:+ rest) = auth +:+ str_filter keep rest) as Hf.
  { rewrite str_filter_app. f_equal. apply str_filter_all.
    eapply str_forall_impl; [|exact Hauth].
    unfold authority_char. by intros a [_ ?]%andb_true_iff. }
  assert (take_until netloc_end (auth +:+ str_filter keep rest) = auth) as Ht.
  { apply take_until_stop.
    - eapply str_forall_impl; [|exact Hauth].
      unfold authority_char. by intros a [[[? _]%andb_true_iff _]%andb_true_iff _]%andb_true_iff.
    - apply filter_after_authority in Hrest. fold keep in Hrest.
      by destruct (str_filter keep rest). }
  assert (str_mem "[" auth = false /\ str_mem "]" auth = false) as [Ho Hc].
  { split; eapply str_forall_not_mem; try exact Hauth; reflexivity. }
  unfold urlparse_netloc. fold keep. fold netloc_end.
  destruct Hs as [-> | ->]; simpl;
    rewrite str_app_nil_l, Hf, Ht, Ho, Hc; reflexivity.
Qed.

(** X15: for a row of the cleaned frame whose url is [http] or [https],
    [://], an authority and then nothing or a path, a query or a fragment,
    the host is that authority (an authority being a text without [/], [?],
    [#], bracket, tab and line break). *)
Theorem host_of_http_url tok stop chk wr filename fs out fs' x s auth rest :
  main tok stop chk wr filename fs = (Ok out, fs') -> x ∈ out ->
  x.2 !! "url" = Some (Str ("http" +:+ s +:+ "://" +:+ auth +:+ rest)) ->
  s = "" \/ s = "s" -> authority_text auth = true ->
  after_authority rest = true ->
  x.2 !! "host" = Some (Str auth).
Proof.
  intros [(rows & df & _ & Hst & ->)%clean_Ok _]%main_Ok
         [_ [Hx _]%keep_first_elem]%dropna_elem Hurl Hs Hauth Hrest.
  destruct (Forall2_elem_r _ _ _ _ Hst Hx) as (r0 & _ & Hr).
  apply staged_cells in Hr
    as (u & h & t0 & t & b & v1 & v2 & _ & Hh & _ & _ & _ & _ & _ & _ & Hu
        & Hhost & _).
  rewrite Hu in Hurl. injection Hurl as ->.
  rewrite urlparse_netloc_http in Hh by done. by injection Hh as <-.
Qed.

Lemma scenario_first_elem : scenario_first ∈ scenario_output.
Proof. apply (head_Some_elem_of _ _). reflexivity. Qed.

Lemma host_of_http_url_witness :
  scenario_first.2 !! "host" = Some (Str "n.com").
Proof.
  apply (host_of_http_url plain_tokenize plain_stop_words
           (fun _ => true) flat_directory
           "n_2020_articles.csv" scenario scenario_output
           (plain_main "n_2020_articles.csv" scenario).2
           scenario_first "s" "n.com" "/x-y-z").
  - reflexivity.
  - exact scenario_first_elem.
  - reflexivity.
  - by right.
  - reflexivity.
  - reflexivity.
Defined.

Lemma urlparse_netloc_ends chk u h :
  urlparse_netloc chk u = Ok h ->
  str_forall (fun a => negb (netloc_end a)) h = true.
Proof.
  unfold urlparse_netloc. fold netloc_end.
  destruct (strip_prefix "//" _) as [tail|]; [|by intros [= <-]].
  destruct (xorb _ _); [done|].
  destruct (_ && _); [done|]. intros [= <-]. apply take_until_forall.
Qed.

(** X16: the host of every row of the cleaned frame is a text without
    [/], [?] and [#]: it is the netloc of the url, which ends before the
    first of them. *)
Theorem cleaned_host_text tok stop chk wr filename fs out fs' :
  main tok stop chk wr filename fs = (Ok out, fs') ->
  forall x, x ∈ out ->
    exists h, x.2 !! "host" = Some (Str h) /\
              str_mem "/" h = false /\ str_mem "?" h = false /\
              str_mem "#" h = false.
Proof.
  intros [(rows & df & _ & Hst & ->)%clean_Ok _]%main_Ok x
         [_ [Hx _]%keep_first_elem]%dropna_elem.
  destruct (Forall2_elem_r _ _ _ _ Hst Hx) as (r0 & _ & Hr).
  apply staged_cells in Hr
    as (u & h & t0 & t & b & v1 & v2 & _ & Hh%urlparse_netloc_ends & _ & _ & _
        & _ & _ & _ & _ & Hhost & _).
  exists h. split; [done|].
  repeat split; eapply str_forall_not_mem; try exact Hh; reflexivity.
Qed.

Lemma cleaned_host_text_witness :
  Forall (fun x => exists h, x.2 !! "host" = Some (Str h) /\
                             str_mem "/" h = false /\ str_mem "?" h = false /\
                             str_mem "#" h = false)
         scenario_output.
Proof.
  rewrite Forall_forall.
  apply (cleaned_host_text plain_tokenize plain_stop_words
           (fun _ => true) flat_directory
           "n_2020_articles.csv" scenario scenario_output
           (plain_main "n_2020_articles.csv" scenario).2);
    reflexivity.
Defined.

(** ** The token counts *)

(** X17: in every row of the cleaned frame, made from a file that has no
    column of token counts of its own, [n_tokens_title] is the count of the
    title of that row and [n_tokens_body] the count of its body: the number
    of tokens that are alphabetic and, in lower case, no stop word. *)
Theorem cleaned_token_counts tok stop chk wr filename fs rows out fs' :
  fs !! filename = Some rows ->
  Forall (fun r => r !! "n_tokens_title" = None /\
                   r !! "n_tokens_body" = None) rows ->
  main tok stop chk wr filename fs = (Ok out, fs') ->
  forall x, x ∈ out ->
    exists title body,
      x.2 !! "title" = Some (Str title) /\
      x.2 !! "body" = Some (Str body) /\
      x.2 !! "n_tokens_title" = Some (Int (count_tokens tok stop title)) /\
      x.2 !! "n_tokens_body" = Some (Int (count_tokens tok stop body)).
Proof.
  intros Hfs Hcols [Hclean _]%main_Ok x.
  unfold clean in Hclean.
  apply bind_Ok in Hclean as (df & Hst & (df' & [_ ->]%drop_duplicates_Ok
                              & [= <-])%bind_Ok).
  intros [Hc [Hx _]%keep_first_elem]%dropna_elem.
  pose proof (staged_frame_counts _ _ _ _ _ _ _ Hfs Hst) as H.
  destruct (Forall2_elem_r _ _ _ _ H Hx)
    as (r0 & Hr0 & ir5 & v1 & v2 & Hr & -> & Hv1 & Hv2).
  rewrite Forall_forall in Hcols. destruct (Hcols r0 Hr0) as [Hn1 Hn2].
  simpl in Hc.
  assert (ir5.2 !! "n_tokens_title" = None) as Hn1'.
  { rewrite (rowwise_cleaned_other _ _ _ _ _ Hr); [done|].
    rewrite !not_elem_of_cons. repeat split; try done. apply not_elem_of_nil. }
  assert (ir5.2 !! "n_tokens_body" = None) as Hn2'.
  { rewrite (rowwise_cleaned_other _ _ _ _ _ Hr); [done|].
    rewrite !not_elem_of_cons. repeat split; try done. apply not_elem_of_nil. }
  assert (complete ir5.2) as Hc5.
  { intros c v Hv. destruct (decide (c = "n_tokens_title")) as [->|?];
      [congruence|].
    destruct (decide (c = "n_tokens_body")) as [->|?]; [congruence|].
    apply (Hc c). by rewrite !lookup_insert_ne. }
  destruct (Hv1 Hc5) as (title & Ht & ->).
  assert (complete (<["n_tokens_title" := Int (count_tokens tok stop title)]>
                      ir5.2)) as Hc6.
  { intros c v Hv. destruct (decide (c = "n_tokens_title")) as [->|?].
    - rewrite lookup_insert_eq in Hv. by injection Hv as <-.
    - rewrite lookup_insert_ne in Hv by done. by apply (Hc5 c). }
  destruct (Hv2 Hc6) as (body & Hb & ->).
  exists title, body. simpl.
  rewrite lookup_insert_eq, !lookup_insert_ne, lookup_insert_eq by done. done.
Qed.

Lemma cleaned_token_counts_witness :
  Forall (fun x =>
    exists title body,
      x.2 !! "title" = Some (Str title) /\
      x.2 !! "body" = Some (Str body) /\
      x.2 !! "n_tokens_title"
        = Some (Int (count_tokens plain_tokenize plain_stop_words title)) /\
      x.2 !! "n_tokens_body"
        = Some (Int (count_tokens plain_tokenize plain_stop_words body)))
    scenario_output.
Proof.
  rewrite Forall_forall.
  apply (cleaned_token_counts plain_tokenize plain_stop_words
           (fun _ => true) flat_directory
           "n_2020_articles.csv" scenario scenario_rows scenario_output
           (plain_main "n_2020_articles.csv" scenario).2).
  - reflexivity.
  - repeat apply Forall_cons_2; [..|apply Forall_nil_2]; split; reflexivity.
  - reflexivity.
Defined.

(** ** Bodies and uids of the cleaned frame *)

(** X18: the body of every row of the cleaned frame is the body of a row
    of the file with a space for each line feed and carriage return: the
    later stages leave it as [_remove_new_lines_from_body] made it, on one
    line. *)
Theorem cleaned_body_one_line tok stop chk wr filename fs rows out fs' :
  fs !! filename = Some rows ->
  main tok stop chk wr filename fs = (Ok out, fs') ->
  forall x, x ∈ out ->
    exists r0 b,
      r0 ∈ rows /\ r0 !! "body" = Some (Str b) /\
      x.2 !! "url" = r0 !! "url" /\
      x.2 !! "body" = Some (Str (stripped_body b)) /\
      str_mem LF (stripped_body b) = false /\
      str_mem CR (stripped_body b) = false.
Proof.
  intros Hfs [Hc _]%main_Ok x Hx.
  destruct (cleaned_row_staged _ _ _ _ _ _ _ _ Hfs Hc Hx)
    as (_ & r0 & Hr0 & Hs).
  pose proof (staged_same_article _ _ _ _ Hs) as [Hurl _].
  apply staged_cells in Hs
    as (u & h & t0 & t & b & v1 & v2 & _ & _ & _ & Hb & _ & _ & _ & _ & _ & _
        & _ & Hb' & _).
  exists r0, b. repeat split; try done;
    rewrite stripped_body_map; apply str_mem_map_false, unbreak_not_break.
Qed.

Lemma cleaned_body_one_line_witness :
  Forall (fun x =>
    exists r0 b,
      r0 ∈ scenario_rows /\ r0 !! "body" = Some (Str b) /\
      x.2 !! "url" = r0 !! "url" /\
      x.2 !! "body" = Some (Str (stripped_body b)) /\
      str_mem LF (stripped_body b) = false /\
      str_mem CR (stripped_body b) = false)
    scenario_output.
Proof.
  rewrite Forall_forall.
  apply (cleaned_body_one_line plain_tokenize plain_stop_words
           (fun _ => true) flat_directory
           "n_2020_articles.csv" scenario scenario_rows scenario_output
           (plain_main "n_2020_articles.csv" scenario).2);
    reflexivity.
Defined.

(** X19: the uids of a cleaned frame need not differ: of two rows of a
    file with one url and two titles, both are kept by the cleaning, under
    the same uid; they are what [main] returns when the cleaned file can be
    written. *)
Theorem same_url_rows_share_uid tok stop chk wr filename fs u h t1 t2 b1 b2 :
  fs !! filename
    = Some [raw_row u (Str t1) (Str b1); raw_row u (Str t2) (Str b2)] ->
  urlparse_netloc chk u = Ok h -> t1 <> t2 ->
  exists x1 x2,
    clean tok stop chk filename fs = Ok [x1; x2] /\
    (wr (clean_file filename) = true ->
     (main tok stop chk wr filename fs).1 = Ok [x1; x2]) /\
    x1.1 = Str (md5_hexdigest u) /\ x2.1 = Str (md5_hexdigest u) /\
    x1.2 !! "title" = Some (Str t1) /\ x2.2 !! "title" = Some (Str t2).
Proof.
  intros Hfs Hh Hne.
  assert (Forall gap_free
            [raw_row u (Str t1) (Str b1); raw_row u (Str t2) (Str b2)])
    as Hgaps
    by (repeat apply Forall_cons_2; [..|apply Forall_nil_2];
        apply raw_row_gap_free).
  assert (Forall count_free
            [raw_row u (Str t1) (Str b1); raw_row u (Str t2) (Str b2)])
    as Hcounts
    by (repeat apply Forall_cons_2; [..|apply Forall_nil_2];
        apply raw_row_count_free).
  destruct (staged_frame_runs tok stop chk _ _ _ Hfs) as (df & Hdf);
    [|done| |by left|].
  { repeat apply Forall_cons_2; [..|apply Forall_nil_2];
      (eapply raw_row_workable; [exact Hh|left; by eexists]). }
  { eexists. split; [apply list_elem_of_here|apply raw_row_gap_free]. }
  pose proof (staged_frame_gaps _ _ _ _ _ _ _ Hfs Hcounts Hdf) as Hr.
  pose proof (clean_of_staged _ _ _ _ _ _ _ Hfs Hdf) as Hclean.
  destruct (staged_frame_Ok _ _ _ _ _ _ Hdf) as (rows' & Hfs' & Hst).
  rewrite Hfs in Hfs'. injection Hfs' as <-.
  apply Forall2_cons_inv_l in Hst as (x1 & df1 & Hs1 & Hst & ->).
  apply Forall2_cons_inv_l in Hst as (x2 & df2 & Hs2 & Hst & ->).
  apply Forall2_nil_inv_l in Hst as ->.
  apply Forall2_cons_1 in Hr as [Hc1%proj2 Hr].
  apply Forall2_cons_1 in Hr as [Hc2%proj2 _].
  specialize (Hc1 (raw_row_gap_free _ _ _)).
  specialize (Hc2 (raw_row_gap_free _ _ _)).
  clear Hgaps Hcounts Hfs Hdf.
  apply staged_cells in Hs1
    as (u1 & ? & t0 & t & ? & ? & ? & Hu1 & _ & Ht0 & _ & Ht & _ & _ & Hl1 & _
        & _ & Ht1 & _).
  apply staged_cells in Hs2
    as (u2 & ? & t0' & t' & ? & ? & ? & Hu2 & _ & Ht0' & _ & Ht' & _ & _ & Hl2
        & _ & _ & Ht2 & _).
  unfold raw_row in Hu1, Hu2, Ht0, Ht0'. simplify_map_eq. simpl in *. subst.
  assert (clean tok stop chk filename fs = Ok [x1; x2]) as Hout.
  { rewrite Hclean. f_equal. unfold keep_first_by. simpl.
    rewrite Ht1, Ht2. simpl.
    rewrite bool_decide_eq_false_2.
    2:{ rewrite elem_of_cons, elem_of_nil. intros [[= ?]|[]]. congruence. }
    apply dropna_all.
    by repeat apply Forall_cons_2; [..|apply Forall_nil_2]. }
  exists x1, x2. repeat split; try done.
  intros Hwr. unfold main, _save_data. fold (clean_file filename).
  by rewrite Hout, Hwr.
Qed.

Lemma same_url_rows_share_uid_witness :
  exists x1 x2,
    (plain_main "n_2020_articles.csv" twice_listed_table).1 = Ok [x1; x2] /\
    x1.1 = Str (md5_hexdigest "https://n.com/a") /\
    x2.1 = Str (md5_hexdigest "https://n.com/a") /\
    x1.2 !! "title" = Some (Str "Portada") /\
    x2.2 !! "title" = Some (Str "Titular").
Proof.
  destruct (same_url_rows_share_uid plain_tokenize plain_stop_words
              (fun _ => true) flat_directory "n_2020_articles.csv"
              twice_listed_table
              "https://n.com/a" "n.com" "Portada" "Titular" "uno" "dos")
    as (x1 & x2 & _ & Hmain & H); [reflexivity|reflexivity|discriminate|].
  exists x1, x2. split; [by apply Hmain|exact H].
Defined.

(** ** Titles filled from the url *)



(** ** A cleaned frame is clean *)

Lemma keep_first_by_NoDup {A} (key : A -> cell) seen (l : list A) :
  NoDup (key <$> l) -> Forall (fun x => key x ∉ seen) l ->
  keep_first_by key seen l = l.
Proof.
  revert seen. induction l as [|x l IH]; intros seen; [done|].
  rewrite fmap_cons, NoDup_cons, Forall_cons, keep_first_by_cons.
  intros [Hx Hl] [Hs Hseen]. rewrite bool_decide_false by done.
  f_equal. apply IH; [done|].
  apply Forall_forall. intros y Hy. rewrite Forall_forall in Hseen.
  apply not_elem_of_cons. split; [|by apply Hseen].
  intros Heq. apply Hx. rewrite <-Heq. by apply list_elem_of_fmap_2.
Qed.

(** X21: the two filters at the end of [main] find nothing more to remove
    in the frame that [main] returns: removing the duplicates of a title and
    dropping the rows with missing data once more give the frame as it
    is. *)
Theorem cleaned_frame_is_clean tok stop chk wr filename fs out fs' :
  main tok stop chk wr filename fs = (Ok out, fs') ->
  _remove_duplicate_entries out "title" = Ok out /\
  _drop_rows_missing_data out = out.
Proof.
  intros [(rows & df & _ & Hst & ->)%clean_Ok _]%main_Ok.
  set (key := fun ir : cell * gmap string cell => default NaN (ir.2 !! "title")).
  split.
  - unfold _remove_duplicate_entries. rewrite drop_duplicates_total.
    + f_equal. fold key. apply keep_first_by_NoDup.
      * eapply sublist_NoDup; [apply (keep_first_NoDup key [] df)|].
        apply fmap_sublist, dropna_sublist.
      * apply Forall_forall. intros x _. apply not_elem_of_nil.
    + apply Forall_forall.
      intros x [_ [Hx _]%keep_first_elem]%dropna_elem.
      destruct (Forall2_elem_r _ _ _ _ Hst Hx) as (r0 & _ & Hs).
      apply staged_cells in Hs
        as (u & h & t0 & t & b & v1 & v2 & _ & _ & _ & _ & _ & _ & _ & _ & _
            & _ & Ht & _).
      by rewrite Ht.
  - unfold _drop_rows_missing_data. apply dropna_all, Forall_forall.
    by intros x [? _]%dropna_elem.
Qed.

Lemma cleaned_frame_is_clean_witness :
  _remove_duplicate_entries scenario_output "title" = Ok scenario_output /\
  _drop_rows_missing_data scenario_output = scenario_output.
Proof.
  apply (cleaned_frame_is_clean plain_tokenize plain_stop_words
           (fun _ => true) flat_directory
           "n_2020_articles.csv" scenario scenario_output
           (plain_main "n_2020_articles.csv" scenario).2).
  reflexivity.
Defined.

(** ** The file of the cleaned frame, and its loading *)

Lemma staged_article_columns chk uid r0 ir c :
  staged chk uid r0 ir -> c ∈ Loader.article_columns ->
  is_Some ((<["uid" := ir.1]> ir.2) !! c).
Proof.
  intros (u & h & t0 & t & b & v1 & v2 & _ & _ & _ & _ & _ & _ & _ & _ & Hu & Hh
          & Ht & Hb & Hn & H1 & H2)%staged_cells Hc.
  unfold Loader.article_columns in Hc. rewrite !elem_of_cons in Hc.
  destruct Hc as [->|[->|[->|[->|[->|[->|[->|[->|[]%elem_of_nil]]]]]]]];
    [by rewrite lookup_insert_eq|rewrite lookup_insert_ne by done; eauto..].
Qed.

(** X22: the file that [_save_data] writes for a run of [main] holds one
    row per row of the cleaned frame, in order: the cells of that row and
    its uid as a further column; every row of it has the eight columns
    that the loader reads. *)
Theorem saved_table tok stop chk wr filename fs out fs' :
  main tok stop chk wr filename fs = (Ok out, fs') ->
  exists saved,
    fs' !! clean_file filename = Some saved /\
    Forall2 (fun x r => r = <["uid" := x.1]> x.2) out saved /\
    Forall (fun r => forall c, c ∈ Loader.article_columns -> is_Some (r !! c))
           saved.
Proof.
  intros (Hc & _ & ->)%main_Ok.
  eexists. split; [by rewrite lookup_insert_eq|]. split.
  - by apply Forall2_fmap_r, Forall_Forall2_diag, Forall_forall.
  - apply Forall_fmap, Forall_forall. intros x Hx c Hcol. simpl.
    apply clean_Ok in Hc as (rows & df & _ & Hst & ->).
    apply dropna_elem in Hx as [_ [Hx _]%keep_first_elem].
    destruct (Forall2_elem_r _ _ _ _ Hst Hx) as (r0 & _ & Hs).
    by eapply staged_article_columns.
Qed.

Lemma saved_table_witness :
  exists saved,
    (plain_main "n_2020_articles.csv" scenario).2
      !! clean_file "n_2020_articles.csv" = Some saved /\
    Forall2 (fun x r => r = <["uid" := x.1]> x.2) scenario_output saved /\
    Forall (fun r => forall c, c ∈ Loader.article_columns -> is_Some (r !! c))
           saved.
Proof.
  apply (saved_table plain_tokenize plain_stop_words
           (fun _ => true) flat_directory
           "n_2020_articles.csv" scenario scenario_output
           (plain_main "n_2020_articles.csv" scenario).2).
  reflexivity.
Defined.

Section Loading.

Context {article database : Type}.
Variable Article :
  cell -> cell -> cell -> cell -> cell -> cell -> cell -> cell -> article.
Variable create_all : database -> result database.
Variable add_commit : article -> database -> result database.

Lemma load_row_Ok row db :
  (forall c, c ∈ Loader.article_columns -> is_Some (row !! c)) ->
  (forall a d, exists d', add_commit a d = Ok d') ->
  exists db', Loader.load_row article Article database add_commit row db
              = Ok db'.
Proof.
  intros Hcols Hadd. unfold Loader.load_row.
  assert (forall c, c ∈ Loader.article_columns ->
            exists v, getitem row c = Ok v) as Hget.
  { intros c [v Hv]%Hcols. exists v. by apply getitem_Ok. }
  unfold Loader.article_columns in Hget.
  repeat match goal with
  | |- context [getitem row ?c] =>
      let v := fresh "v" in let E := fresh "E" in
      destruct (Hget c) as [v E];
      [rewrite !elem_of_cons; tauto|rewrite !E; simpl]
  end.
  apply Hadd.
Qed.

Lemma load_rows_Ok rows db :
  Forall (fun r => forall c, c ∈ Loader.article_columns -> is_Some (r !! c))
         rows ->
  (forall a d, exists d', add_commit a d = Ok d') ->
  exists db', Loader.load_rows article Article database add_commit rows db
              = (Ok (), db').
Proof.
  intros Hrows Hadd. revert db.
  induction Hrows as [|row rows Hrow _ IH]; intros db; simpl; [eauto|].
  destruct (load_row_Ok row db Hrow Hadd) as [db' ->]. apply IH.
Qed.

(** X23: the loader finds what it reads in every file that the cleaning
    script has written: when the operations on the database do not raise,
    the loading of the file saved by a run of [main] goes through all of
    its rows and completes. *)
Theorem cleaned_file_loads tok stop chk wr filename fs out fs' db :
  main tok stop chk wr filename fs = (Ok out, fs') ->
  (forall d, exists d', create_all d = Ok d') ->
  (forall a d, exists d', add_commit a d = Ok d') ->
  exists db',
    Loader.main article Article database create_all add_commit
      (clean_file filename) fs' db = (Ok (), db').
Proof.
  intros (Hc & _ & ->)%main_Ok Hcreate Hadd. unfold Loader.main.
  destruct (Hcreate db) as [db0 ->]. rewrite lookup_insert_eq.
  apply load_rows_Ok; [|done].
  apply Forall_fmap, Forall_forall. intros x Hx c Hcol. simpl.
  apply clean_Ok in Hc as (rows & df & _ & Hst & ->).
  apply dropna_elem in Hx as [_ [Hx _]%keep_first_elem].
  destruct (Forall2_elem_r _ _ _ _ Hst Hx) as (r0 & _ & Hs).
  by eapply staged_article_columns.
Qed.

Lemma load_rows_app pre post db db1 :
  Loader.load_rows article Article database add_commit pre db = (Ok (), db1) ->
  Loader.load_rows article Article database add_commit (pre ++ post) db
  = Loader.load_rows article Article database add_commit post db1.
Proof.
  revert db. induction pre as [|row pre IH]; intros db; simpl.
  - by intros [= ->].
  - destruct (Loader.load_row _ _ _ _ row db) as [db'|e]; [apply IH|done].
Qed.

Lemma load_row_missing row db c :
  c ∈ Loader.article_columns -> row !! c = None ->
  Loader.load_row article Article database add_commit row db = Raise KeyError.
Proof.
  intros Hc Hnone. unfold Loader.load_row.
  unfold Loader.article_columns in Hc. rewrite !elem_of_cons in Hc.
  repeat match goal with
  | |- context [getitem row ?k] =>
      let E := fresh "E" in
      destruct (getitem row k) eqn:E;
      [simpl|unfold getitem in E; destruct (row !! k); by inversion E]
  end.
  exfalso.
  repeat match goal with
  | E : getitem row _ = Ok _ |- _ => apply getitem_Ok in E
  end.
  destruct Hc as [->|[->|[->|[->|[->|[->|[->|[->|[]%elem_of_nil]]]]]]]];
    congruence.
Qed.

(** X24: the loading is row by row, not all or nothing: when the work on
    a row raises, in the reading of its columns or in the database, the
    loader ends with that exception, and the database is left with the rows
    before it, which were committed one by one. *)
Theorem load_stops_at_row filename fs db db0 db1 pre row post e :
  create_all db = Ok db0 ->
  fs !! filename = Some (pre ++ row :: post) ->
  Loader.load_rows article Article database add_commit pre db0
    = (Ok (), db1) ->
  Loader.load_row article Article database add_commit row db1 = Raise e ->
  Loader.main article Article database create_all add_commit filename fs db
  = (Raise e, db1).
Proof.
  intros Hcreate Hfs Hpre Hrow. unfold Loader.main.
  rewrite Hcreate, Hfs, (load_rows_app _ _ _ _ Hpre). simpl.
  by rewrite Hrow.
Qed.

(** X25: a file without one of the eight columns is refused at its first
    row, with [KeyError] and before any article is committed: so is a file
    of the scraper that has not been cleaned, which has no [uid]. *)
Theorem load_missing_column filename fs db db0 row rows c :
  create_all db = Ok db0 ->
  fs !! filename = Some (row :: rows) ->
  c ∈ Loader.article_columns -> row !! c = None ->
  Loader.main article Article database create_all add_commit filename fs db
  = (Raise KeyError, db0).
Proof.
  intros Hcreate Hfs Hc Hnone. unfold Loader.main.
  rewrite Hcreate, Hfs. simpl. by rewrite (load_row_missing _ _ c).
Qed.

End Loading.

Lemma cleaned_file_loads_witness :
  exists db',
    listed_main (clean_file "n_2020_articles.csv")
      (plain_main "n_2020_articles.csv" scenario).2 = (Ok (), db').
Proof.
  apply (cleaned_file_loads listed_article Ok (fun a db => Ok (db ++ [a]))
           plain_tokenize plain_stop_words (fun _ => true) flat_directory
           "n_2020_articles.csv" scenario scenario_output
           (plain_main "n_2020_articles.csv" scenario).2 []).
  - reflexivity.
  - intros d. by exists d.
  - intros a d. by exists (d ++ [a]).
Defined.

Lemma load_stops_at_row_witness :
  keyed_main "clean_n.csv" twice_loaded_table
  = (Raise ValueError,
     [listed_article (Str "u1") (Str "B") (Str "n.com") (Str "n") (Int 1)
        (Int 1) (Str "T") (Str "https://n.com/a")]).
Proof.
  apply (load_stops_at_row listed_article Ok
           (fun a db => if bool_decide (head a ∈ head <$> db)
                        then Raise ValueError else Ok (db ++ [a]))
           "clean_n.csv" twice_loaded_table [] []
           [listed_article (Str "u1") (Str "B") (Str "n.com") (Str "n") (Int 1)
              (Int 1) (Str "T") (Str "https://n.com/a")]
           [loadable_row] loadable_row [] ValueError);
    reflexivity.
Defined.

Lemma load_missing_column_witness :
  listed_main "n_2020_articles.csv" scenario = (Raise KeyError, []).
Proof.
  apply (load_missing_column listed_article Ok (fun a db => Ok (db ++ [a]))
           "n_2020_articles.csv" scenario [] []
           (raw_row "https://n.com/x-y-z" NaN
                    (Str (String "H" (String "i" (String LF "M")))))
           [raw_row "https://n.com/other" (Str "T1") (Str "Texto valido");
            raw_row "https://n.com/third" (Str "T1") (Str "Otro texto")]
           "uid").
  - reflexivity.
  - reflexivity.
  - unfold Loader.article_columns. rewrite !elem_of_cons. tauto.
  - reflexivity.
Defined.
